(** * HMWSSB report generator: a shallow embedding of [app1.py]

    The program reads one or two CSV files into pandas data frames, checks
    that three columns are present, splits the rows on the [ISGOVTCAN] flag,
    sorts each part on [LASTDEMAND], writes the parts to an Excel workbook,
    restyles the header row with openpyxl and, for the combined route, packs
    three workbooks in a ZIP archive.

    Layout of the development:
    - values, exceptions and the data frame ([pd.DataFrame]);
    - the pandas operations the program calls (column test, boolean indexing,
      [sort_values], scalar column assignment, [concat]);
    - the workbook as [to_excel] writes it and openpyxl reads it back, and the
      header styling loop;
    - the two processing functions as pure functions of the frames;
    - the file system, the fault oracle and the two Flask handlers;
    - the theorems.

    Modelling boundary.  Numbers are integers ([Z]); floating point values are
    outside the model.  Text is a [string] of one-byte characters, so [len]
    is [String.length].  The sorting kernel behind [sort_values] (numpy's
    [argsort] with [kind='quicksort']) is a parameter constrained by what numpy
    documents: the result is a permutation of the positions that puts the keys
    in non-decreasing order.  The operating-system calls of a request take
    their failures from an oracle, so every theorem on the routes holds
    whichever calls fail.  What openpyxl reads back from a sheet is modelled
    for the labels and cells that xlsxwriter stores as they are
    ([stored_exactly]); the statements about the values of a sheet are made
    for frames of that sort. *)

From Stdlib Require Import List String Ascii ZArith Lia Bool Arith.
From Stdlib Require Import Permutation Sorted DecimalString.
Import ListNotations.
Local Open Scope string_scope.
Local Open Scope list_scope.

(** ** Values and exceptions *)

(** A cell of a data frame after [pd.read_csv]: an integer, a text, a boolean
    or a missing value ([NaN]). *)
Inductive cell : Type :=
| CNum (z : Z)
| CStr (s : string)
| CBool (b : bool)
| CNaN.

(** The Python exceptions the program can meet. *)
Inductive exn : Type :=
| ValueError (msg : string)
| KeyError (key : string)
| TypeError
| ParserError
| OSError.

Inductive result (A : Type) : Type :=
| Ok (a : A)
| Raise (e : exn).

Arguments Ok {A} a.
Arguments Raise {A} e.

Definition rbind {A B : Type} (r : result A) (k : A -> result B) : result B :=
  match r with
  | Ok a => k a
  | Raise e => Raise e
  end.

Declare Scope result_scope.
Delimit Scope result_scope with result.
Notation "x <- r ;; k" := (rbind r (fun x => k))
  (at level 61, r at next level, right associativity) : result_scope.

(** ** Data frames *)

(** [columns] is [df.columns]; [data] holds the rows in order, each row
    giving one cell per column. *)
Record DataFrame : Type := mkFrame {
  columns : list string;
  data : list (list cell)
}.

(** What [pd.read_csv] guarantees of a frame: column labels are distinct
    (repeated header names are renamed [X.1], [X.2], ...), no label is empty
    (an empty header is named [Unnamed: k]), and every row has one cell per
    column. *)
Definition wf_frame (df : DataFrame) : Prop :=
  NoDup (columns df) /\
  Forall (fun c => c <> "") (columns df) /\
  Forall (fun r => List.length r = List.length (columns df)) (data df).

(** [col in df.columns] *)
Definition has_column (df : DataFrame) (col : string) : bool :=
  existsb (String.eqb col) (columns df).

(** [df.columns.get_loc(col)]: the position of a label. *)
Fixpoint get_loc (cols : list string) (col : string) : option nat :=
  match cols with
  | [] => None
  | c :: cs => if String.eqb c col then Some 0
               else option_map S (get_loc cs col)
  end.

(** The cell of a row at a position; a row is never shorter than the column
    list in a well-formed frame. *)
Definition row_at (r : list cell) (i : nat) : cell := nth i r CNaN.

(** [row[col]] for a row of a frame with column list [cols]. *)
Definition row_get (cols : list string) (r : list cell) (col : string)
  : option cell :=
  option_map (row_at r) (get_loc cols col).

(** [df[col]]: the column as a list of cells, [KeyError] when absent. *)
Definition getitem (df : DataFrame) (col : string) : result (list cell) :=
  match get_loc (columns df) col with
  | Some i => Ok (map (fun r => row_at r i) (data df))
  | None => Raise (KeyError col)
  end.

(** ** The required columns (lines 31-34) *)

Definition required_cols : list string :=
  ["ISGOVTCAN"; "DIVNCODE"; "LASTDEMAND"].

(** [repr] of a text without quotes, backslashes or control characters. *)
Definition py_repr_str (s : string) : string := ("'" ++ s ++ "'")%string.

(** [repr] of a list of such texts, as an f-string prints it. *)
Definition py_repr_list (l : list string) : string :=
  ("[" ++ String.concat ", " (map py_repr_str l) ++ "]")%string.

Definition missing_columns_message : string :=
  ("Required columns " ++ py_repr_list required_cols
     ++ " do not exist in the dataset.")%string.

(** [if not all(col in df.columns for col in required_cols): raise ValueError] *)
Definition check_required (df : DataFrame) : result unit :=
  if forallb (has_column df) required_cols then Ok tt
  else Raise (ValueError missing_columns_message).

(** [needle in haystack] for texts. *)
Definition mentions (haystack needle : string) : Prop :=
  exists pre post, haystack = (pre ++ needle ++ post)%string.

(** ** Boolean indexing (lines 37-38) *)

(** [value == s] for one cell and a text [s]: only a text cell can be equal,
    and Python compares texts exactly, case included. *)
Definition cell_eq_str (c : cell) (s : string) : bool :=
  match c with
  | CStr t => String.eqb t s
  | _ => false
  end.

(** [df[col] == s]: the boolean mask. *)
Definition eq_mask (col : list cell) (s : string) : list bool :=
  map (fun c => cell_eq_str c s) col.

(** The rows a mask selects, in their order. *)
Fixpoint select_rows (rows : list (list cell)) (mask : list bool)
  : list (list cell) :=
  match rows, mask with
  | r :: rs, b :: bs => if b then r :: select_rows rs bs else select_rows rs bs
  | _, _ => []
  end.

(** [df[mask]] *)
Definition boolean_index (df : DataFrame) (mask : list bool) : DataFrame :=
  mkFrame (columns df) (select_rows (data df) mask).

(** ** Sorting keys *)

Definition isna (c : cell) : bool :=
  match c with
  | CNaN => true
  | _ => false
  end.

(** Two present values of one kind.  [read_csv] gives a column one kind of
    value (numbers, booleans or texts) besides the missing ones. *)
Definition same_kind (a b : cell) : bool :=
  match a, b with
  | CNum _, CNum _ => true
  | CStr _, CStr _ => true
  | CBool _, CBool _ => true
  | _, _ => false
  end.

(** The keys can be ordered: all of the kind of the first.  Python raises
    [TypeError] when the sort compares a text with a number. *)
Definition comparable (keys : list cell) : bool :=
  match keys with
  | [] => true
  | k :: ks => same_kind k k && forallb (same_kind k) ks
  end.

(** [a <= b] on present values of one kind: numbers by value, texts by code
    points, [False] before [True]. *)
Definition cell_le (a b : cell) : bool :=
  match a, b with
  | CNum x, CNum y => Z.leb x y
  | CStr x, CStr y => String.leb x y
  | CBool x, CBool y => implb x y
  | _, _ => false
  end.

(** [rows.take(indexer)] *)
Definition take (rows : list (list cell)) (indexer : list nat)
  : list (list cell) :=
  map (fun i => nth i rows []) indexer.

(** What numpy documents of [a.argsort()]: positions [0 .. len(a)-1], each
    once, such that the keys read in that order never decrease.  Nothing is
    said of the order of equal keys: the default kind is not stable. *)
Definition argsort_spec (kernel : list cell -> list nat) : Prop :=
  forall keys, comparable keys = true ->
    Permutation (kernel keys) (seq 0 (List.length keys)) /\
    Sorted (fun i j => cell_le (nth i keys CNaN) (nth j keys CNaN) = true)
           (kernel keys).

(** ** Scalar column assignment and concatenation (lines 81-86) *)

Fixpoint set_nth (i : nat) (v : cell) (r : list cell) : list cell :=
  match i, r with
  | _, [] => []
  | 0, _ :: r' => v :: r'
  | S i', c :: r' => c :: set_nth i' v r'
  end.

(** [df[col] = v] for a scalar [v]: an existing column is overwritten in
    place, a new one is added after the others. *)
Definition setitem (df : DataFrame) (col : string) (v : cell) : DataFrame :=
  match get_loc (columns df) col with
  | Some i => mkFrame (columns df) (map (set_nth i v) (data df))
  | None => mkFrame (columns df ++ [col]) (map (fun r => r ++ [v]) (data df))
  end.

(** The column list of [pd.concat([a, b])]: those of [a], then those of [b]
    that [a] lacks, in [b]'s order. *)
Definition union_columns (a b : list string) : list string :=
  a ++ filter (fun c => negb (existsb (String.eqb c) a)) b.

(** A row read against another column list; a column the row lacks is
    missing ([NaN]). *)
Definition reindex (cols new_cols : list string) (r : list cell)
  : list cell :=
  map (fun c => match get_loc cols c with
                | Some i => row_at r i
                | None => CNaN
                end) new_cols.

(** [pd.concat([a, b], ignore_index=True)] *)
Definition concat (a b : DataFrame) : DataFrame :=
  let cols := union_columns (columns a) (columns b) in
  mkFrame cols
    (map (reindex (columns a) cols) (data a)
     ++ map (reindex (columns b) cols) (data b)).

(** ** Workbooks *)

(** A cell value as openpyxl reads it back. *)
Inductive xvalue : Type :=
| XNone
| XInt (z : Z)
| XStr (s : string)
| XBool (b : bool).

Record Font : Type := mkFont { bold : bool }.

Record Alignment : Type := mkAlignment {
  horizontal : option string;
  vertical : option string
}.

Record PatternFill : Type := mkFill {
  fill_type : option string;
  start_color : string;
  end_color : string
}.

Record XCell : Type := mkCell {
  value : xvalue;
  font : Font;
  alignment : Alignment;
  fill : PatternFill
}.

(** A worksheet: its title, its rows of cells (row 1 first) and the widths
    set in [column_dimensions], latest first. *)
Record Worksheet : Type := mkSheet {
  title : string;
  rows : list (list XCell);
  column_dimensions : list (string * nat)
}.

Definition Workbook : Type := list Worksheet.

Definition no_fill : PatternFill := mkFill None "00000000" "00000000".

(** The style pandas gives the header cells it writes, borders left out;
    the value is the one read back for a label that is stored as it is
    ([stored_label]). *)
Definition written_header (name : string) : XCell :=
  mkCell (XStr name) (mkFont true)
         (mkAlignment (Some "center") (Some "top")) no_fill.

(** *** What the sheet stores as it is

    [worksheet.write] of xlsxwriter looks at a text before it stores it: a
    text that starts with [=] becomes a formula, a text between [{=] and [}]
    an array formula, a text that starts with one of the schemes below a
    link (a [mailto:] link loses its scheme); a text longer than 32767
    characters is cut, a control character is written as an escape of the
    form [_xHHHH_], and openpyxl drops the marker [x005F_] from the texts it
    reads.  A number is stored as a double, which is exact up to
    [2^53] and is read back as a float beyond.  The cells below get none of
    this: what openpyxl reads back for them is what was written. *)
Definition taken_for_formula (s : string) : bool :=
  String.prefix "=" s || String.prefix "{=" s.

Definition link_schemes : list string :=
  ["ftp://"; "ftps://"; "http://"; "https://"; "mailto:"; "internal:";
   "external:"].

Definition taken_for_link (s : string) : bool :=
  existsb (fun scheme => String.prefix scheme s) link_schemes.

Definition printable (c : ascii) : bool :=
  let n := nat_of_ascii c in Nat.leb 32 n && Nat.leb n 126.

Fixpoint all_printable (s : string) : bool :=
  match s with
  | EmptyString => true
  | String c s' => printable c && all_printable s'
  end.

Definition contains (needle s : string) : bool :=
  match String.index 0 needle s with
  | Some _ => true
  | None => false
  end.

Definition has_escape_marker (s : string) : bool :=
  contains "x005F_" s || contains "_x" s.

(** A text that is stored and read back as it is. *)
Definition stored_text (s : string) : bool :=
  all_printable s && negb (taken_for_formula s) && negb (taken_for_link s)
  && negb (has_escape_marker s) && N.leb (N.of_nat (String.length s)) 32767.

(** A column label that is stored and read back as it is. *)
Definition stored_label (s : string) : bool :=
  stored_text s && negb (String.eqb s "").

(** A cell that is stored and read back as [xl_value] says. *)
Definition stored_as_is (c : cell) : bool :=
  match c with
  | CNum z => Z.leb (Z.abs z) 9007199254740992
  | CStr s => stored_text s
  | CBool _ => true
  | CNaN => true
  end.

(** A frame whose labels and cells are all of that sort. *)
Definition stored_exactly (df : DataFrame) : bool :=
  forallb stored_label (columns df)
  && forallb (forallb stored_as_is) (data df).

(** A data cell as written and read back, for the cells that are stored as
    they are ([stored_as_is]): a missing value and an empty text leave the
    cell blank; a number, a boolean and a text come back unchanged.  For the
    other cells (a number beyond [2^53], a text taken for a formula or a
    link, ...) the value read back differs from the one given here, so the
    statements about the values of a sheet assume [stored_exactly]. *)
Definition xl_value (c : cell) : xvalue :=
  match c with
  | CNum z => XInt z
  | CStr s => if String.eqb s "" then XNone else XStr s
  | CBool b => XBool b
  | CNaN => XNone
  end.

Definition written_cell (c : cell) : XCell :=
  mkCell (xl_value c) (mkFont false) (mkAlignment None None) no_fill.

Definition max_rows : Z := 1048576.
Definition max_cols : Z := 16384.

(** [df.to_excel(writer, sheet_name=name, index=False)]: the header row,
    then the rows.  pandas refuses a frame with more rows or columns than a
    sheet has; the header takes the first row of the sheet, and xlsxwriter
    drops what is written below the last row. *)
Definition to_excel (df : DataFrame) (name : string) : result Worksheet :=
  if (max_rows <? Z.of_nat (List.length (data df)))%Z
     || (max_cols <? Z.of_nat (List.length (columns df)))%Z
  then Raise (ValueError "This sheet is too large!")
  else Ok (mkSheet name
             (map written_header (columns df)
              :: map (map written_cell)
                     (firstn (Z.to_nat (max_rows - 1)) (data df)))
             []).

(** ** Header styling with openpyxl (lines 46-68 and 93-113) *)

(** The loop of [get_column_letter]: base 26 without a zero digit, the last
    letter computed first ([divmod], then a borrow when the remainder is 0). *)
Fixpoint column_letters (fuel : nat) (col_idx : N) (letters : list ascii)
  : list ascii :=
  match fuel with
  | 0 => letters
  | S fuel' =>
      if N.eqb col_idx 0 then letters
      else
        let q := N.div col_idx 26 in
        let r := N.modulo col_idx 26 in
        if N.eqb r 0
        then column_letters fuel' (q - 1) (ascii_of_N (26 + 64) :: letters)
        else column_letters fuel' q (ascii_of_N (r + 64) :: letters)
  end.

(** [get_column_letter(col_idx)]: defined for columns [A] to [ZZZ].  The
    index shrinks at every turn of the loop, so [col_idx] turns suffice. *)
Definition get_column_letter (col_idx : nat) : result string :=
  if Nat.leb 1 col_idx && N.leb (N.of_nat col_idx) 18278
  then Ok (string_of_list_ascii
             (column_letters col_idx (N.of_nat col_idx) []))
  else Raise (ValueError "Invalid column index").

Definition header_fill : PatternFill := mkFill (Some "solid") "FFC000" "FFC000".
Definition header_font : Font := mkFont true.
Definition header_align : Alignment :=
  mkAlignment (Some "center") (Some "center").

(** [col_letter in ['A', 'P']] *)
Definition highlighted (col_letter : string) : bool :=
  existsb (String.eqb col_letter) ["A"; "P"].

(** The three assignments to a header cell (lines 59-64). *)
Definition restyle (col_letter : string) (c : XCell) : XCell :=
  mkCell (value c) header_font header_align
         (if highlighted col_letter then header_fill else fill c).

Fixpoint update_nth {A : Type} (i : nat) (f : A -> A) (l : list A) : list A :=
  match i, l with
  | _, [] => []
  | 0, x :: l' => f x :: l'
  | S i', x :: l' => x :: update_nth i' f l'
  end.

(** Python truthiness of a cell value. *)
Definition truthy (v : xvalue) : bool :=
  match v with
  | XNone => false
  | XInt z => negb (Z.eqb z 0)
  | XStr s => negb (String.eqb s "")
  | XBool b => b
  end.

(** [v or ""] *)
Definition or_empty (v : xvalue) : xvalue :=
  if truthy v then v else XStr "".

Definition str_of_Z (z : Z) : string := NilZero.string_of_int (Z.to_int z).

(** [str(v)] *)
Definition py_str (v : xvalue) : string :=
  match v with
  | XNone => "None"
  | XInt z => str_of_Z z
  | XStr s => s
  | XBool true => "True"
  | XBool false => "False"
  end.

(** [ws.cell(row=row, column=col).value], rows and columns counted from 1;
    a cell that was never written is empty. *)
Definition cell_value (ws : Worksheet) (row col : nat) : xvalue :=
  match nth_error (rows ws) (row - 1) with
  | Some r => match nth_error r (col - 1) with
              | Some c => value c
              | None => XNone
              end
  | None => XNone
  end.

(** [ws.max_row].  Blank rows at the end of the sheet are counted here;
    they add cells of length 0 to a maximum that includes the header. *)
Definition max_row (ws : Worksheet) : nat := List.length (rows ws).

(** [max(len(str(ws.cell(row=row, column=col_idx).value or ""))
         for row in range(1, ws.max_row + 1))] *)
Definition max_length (ws : Worksheet) (col_idx : nat) : nat :=
  list_max (map (fun row =>
                   String.length (py_str (or_empty (cell_value ws row col_idx))))
                (seq 1 (max_row ws))).

(** The width recorded for a column letter, if any. *)
Fixpoint width_of (dims : list (string * nat)) (col_letter : string)
  : option nat :=
  match dims with
  | [] => None
  | (l, w) :: dims' => if String.eqb l col_letter then Some w
                       else width_of dims' col_letter
  end.

(** One turn of the loop over the header cells (lines 57-68). *)
Definition style_column (ws : Worksheet) (col_idx : nat) : result Worksheet :=
  (col_letter <- get_column_letter col_idx ;;
   let ws' := mkSheet (title ws)
                (update_nth 0 (update_nth (col_idx - 1) (restyle col_letter))
                            (rows ws))
                (column_dimensions ws) in
   Ok (mkSheet (title ws') (rows ws')
         ((col_letter, max_length ws' col_idx + 2) :: column_dimensions ws')))%result.

Fixpoint style_columns (ws : Worksheet) (idxs : list nat) : result Worksheet :=
  match idxs with
  | [] => Ok ws
  | i :: idxs' => (ws' <- style_column ws i ;; style_columns ws' idxs')%result
  end.

(** [for col_idx, cell in enumerate(ws[1], start=1): ...] *)
Definition style_sheet (ws : Worksheet) : result Worksheet :=
  style_columns ws (seq 1 (List.length (hd [] (rows ws)))).

(** [ws = wb[name]] followed by the loop on [ws], which lives in [wb]. *)
Fixpoint style_named (wb : Workbook) (name : string) : result Workbook :=
  match wb with
  | [] => Raise (KeyError name)
  | ws :: wb' =>
      if String.eqb (title ws) name
      then (ws' <- style_sheet ws ;; Ok (ws' :: wb'))%result
      else (wb'' <- style_named wb' name ;; Ok (ws :: wb''))%result
  end.

(** [for sheet_name in names: ...] *)
Fixpoint style_sheets (wb : Workbook) (names : list string) : result Workbook :=
  match names with
  | [] => Ok wb
  | n :: names' => (wb' <- style_named wb n ;; style_sheets wb' names')%result
  end.

(** The sheets an [ExcelWriter] block writes, in order. *)
Fixpoint write_sheets (sheets : list (string * DataFrame)) : result Workbook :=
  match sheets with
  | [] => Ok []
  | (name, df) :: sheets' =>
      (ws <- to_excel df name ;;
       wb <- write_sheets sheets' ;;
       Ok (ws :: wb))%result
  end.

(** ** A reference sorting kernel

    Insertion sort on (position, key) pairs, parameterised by the test that
    decides whether the new pair goes before the next one.  With [cell_le] it
    is stable, with the strict order it reverses equal keys; both satisfy
    [argsort_spec]. *)

Fixpoint insert_by (before : cell -> cell -> bool) (p : nat * cell)
  (l : list (nat * cell)) : list (nat * cell) :=
  match l with
  | [] => [p]
  | q :: l' => if before (snd p) (snd q) then p :: l
               else q :: insert_by before p l'
  end.

Definition argsort_by (before : cell -> cell -> bool) (keys : list cell)
  : list nat :=
  map fst (fold_right (insert_by before) []
             (combine (seq 0 (List.length keys)) keys)).

Definition cell_lt (a b : cell) : bool := cell_le a b && negb (cell_le b a).

Definition stable_argsort : list cell -> list nat := argsort_by cell_le.
Definition reversing_argsort : list cell -> list nat := argsort_by cell_lt.

(** ** The combined frame (lines 81-86) *)

(** [df_a["HCC Type"] = "A"; df_b["HCC Type"] = "B";
     pd.concat([df_a, df_b], ignore_index=True)] *)
Definition combined_frame (df_a df_b : DataFrame) : DataFrame :=
  concat (setitem df_a "HCC Type" (CStr "A"))
         (setitem df_b "HCC Type" (CStr "B")).

(** The workbook of [process_combined_files] when no step fails. *)
Definition combined_workbook (df_a df_b : DataFrame) : result Workbook :=
  (wb <- write_sheets [("Combined", combined_frame df_a df_b)] ;;
   style_named wb "Combined")%result.

(** ** Files, requests and responses *)

(** The temporary files of one request, named as the handlers name them. *)
Inductive path : Type :=
| temp_input_path
| temp_output_path
| temp_a_path
| temp_b_path
| temp_out_a_path
| temp_out_b_path
| temp_combined_path.

Definition path_eqb (p q : path) : bool :=
  match p, q with
  | temp_input_path, temp_input_path
  | temp_output_path, temp_output_path
  | temp_a_path, temp_a_path
  | temp_b_path, temp_b_path
  | temp_out_a_path, temp_out_a_path
  | temp_out_b_path, temp_out_b_path
  | temp_combined_path, temp_combined_path => true
  | _, _ => false
  end.

(** The content of a file: text that [read_csv] parses to a frame, a
    complete workbook, an empty file, or anything else (text that does not
    parse, a file cut short by a failed write). *)
Inductive bytes : Type :=
| CsvText (df : DataFrame)
| XlsxBytes (wb : Workbook)
| Blank
| Junk.

(** The body of a download: the bytes of one file, or a ZIP archive of named
    entries in the order they were added. *)
Inductive payload : Type :=
| Whole (b : bytes)
| Archive (entries : list (string * bytes)).

Record World : Type := mkWorld {
  fs : path -> option bytes;
  clock : nat
}.

Definition write_file (w : World) (p : path) (b : bytes) : World :=
  mkWorld (fun q => if path_eqb q p then Some b else fs w q) (clock w).

Definition remove_file (w : World) (p : path) : World :=
  mkWorld (fun q => if path_eqb q p then None else fs w q) (clock w).

Definition tick (w : World) : World := mkWorld (fs w) (S (clock w)).

(** A computation on the world that returns or raises. *)
Definition M (A : Type) : Type := World -> result A * World.

Definition ret {A : Type} (a : A) : M A := fun w => (Ok a, w).

Definition raise {A : Type} (e : exn) : M A := fun w => (Raise e, w).

Definition bind {A B : Type} (m : M A) (k : A -> M B) : M B :=
  fun w => match m w with
           | (Ok a, w') => k a w'
           | (Raise e, w') => (Raise e, w')
           end.

Definition lift {A : Type} (r : result A) : M A := fun w => (r, w).

(** [try: body  except Exception as e: handler(e)] *)
Definition try_except {A : Type} (body : M A) (handler : exn -> M A) : M A :=
  fun w => match body w with
           | (Ok a, w') => (Ok a, w')
           | (Raise e, w') => handler e w'
           end.

Declare Scope io_scope.
Delimit Scope io_scope with io.
Notation "x <- m ;; k" := (bind m (fun x => k))
  (at level 61, m at next level, right associativity) : io_scope.
Notation "m ;; k" := (bind m (fun _ => k))
  (at level 61, right associativity) : io_scope.

Record FileStorage : Type := mkUpload {
  filename : string;
  stream : bytes
}.

Record Request : Type := mkRequest {
  files : list (string * FileStorage);
  form : list (string * string)
}.

Inductive Response : Type :=
| SendFile (download_name mimetype : string) (body : payload)
| Redirect (flashed : string).

(** [d.get(key)] on the fields of a request. *)
Fixpoint lookup {A : Type} (key : string) (d : list (string * A)) : option A :=
  match d with
  | [] => None
  | (k, v) :: d' => if String.eqb k key then Some v else lookup key d'
  end.

(** ** Accepted file names (lines 17-20) *)

Definition ALLOWED_EXTENSIONS : list string := ["csv"].

(** [c.lower()] on one-byte characters. *)
Definition lower_ascii (c : ascii) : ascii :=
  let n := nat_of_ascii c in
  if Nat.leb 65 n && Nat.leb n 90 then ascii_of_nat (n + 32) else c.

Fixpoint lower (s : string) : string :=
  match s with
  | EmptyString => EmptyString
  | String c s' => String (lower_ascii c) (lower s')
  end.

(** [s.rsplit('.', 1)[1]] when [s] has a dot: what follows the last dot. *)
Fixpoint after_last_dot (s : string) : option string :=
  match s with
  | EmptyString => None
  | String c s' =>
      match after_last_dot s' with
      | Some ext => Some ext
      | None => if Ascii.eqb c "."%char then Some s' else None
      end
  end.

(** ['.' in filename and filename.rsplit('.', 1)[1].lower() in
     ALLOWED_EXTENSIONS] *)
Definition allowed_file (name : string) : bool :=
  match after_last_dot name with
  | Some ext => existsb (String.eqb (lower ext)) ALLOWED_EXTENSIONS
  | None => false
  end.

(** [str(e)] for the message flashed to the user. *)
Definition str_exn (e : exn) : string :=
  match e with
  | ValueError msg => msg
  | KeyError key => py_repr_str key
  | TypeError => "'<' not supported between instances"
  | ParserError => "Error tokenizing data"
  | OSError => "I/O operation failed"
  end.

(** ** The program, over a sorting kernel and a fault oracle *)

Section Program.

(** [kernel] is numpy's [argsort] of the default kind on the present keys. *)
Variable kernel : list cell -> list nat.

(** [fails n] tells whether the [n]-th operating-system call of the request
    fails (disk full, file locked, ...). *)
Variable fails : nat -> bool.

(** *** [sort_values(by=..., ascending=False)] *)

(** pandas' [nargsort(items, kind='quicksort', ascending=False,
    na_position='last')]: the missing keys are set apart, the present ones
    are reversed, sorted by the kernel, and the order reversed again; the
    positions of the missing keys follow in input order. *)
Definition nargsort (items : list cell) : result (list nat) :=
  let indexed := combine (seq 0 (List.length items)) items in
  let present := filter (fun p => negb (isna (snd p))) indexed in
  let nan_idx := map fst (filter (fun p => isna (snd p)) indexed) in
  let non_nans := rev (map snd present) in
  let non_nan_idx := rev (map fst present) in
  if comparable non_nans
  then Ok (rev (map (fun j => nth j non_nan_idx 0) (kernel non_nans))
           ++ nan_idx)
  else Raise TypeError.

Definition sort_values (df : DataFrame) (by_col : string) : result DataFrame :=
  (keys <- getitem df by_col ;;
   indexer <- nargsort keys ;;
   Ok (mkFrame (columns df) (take (data df) indexer)))%result.

(** *** The split (lines 36-38) *)

(** [df[df['ISGOVTCAN'] == flag].sort_values(by='LASTDEMAND',
    ascending=False)] *)
Definition govt_rows (df : DataFrame) (flag : string) : result DataFrame :=
  (col <- getitem df "ISGOVTCAN" ;;
   sort_values (boolean_index df (eq_mask col flag)) "LASTDEMAND")%result.

Definition sheet_names : list string := ["GovtCAN_Yes"; "GovtCAN_No"].

(** Lines 31-38: the check, then the two frames with their sheet names. *)
Definition split_sheets (df : DataFrame)
  : result (list (string * DataFrame)) :=
  (_ <- check_required df ;;
   df_yes <- govt_rows df "Yes" ;;
   df_no <- govt_rows df "No" ;;
   Ok [("GovtCAN_Yes", df_yes); ("GovtCAN_No", df_no)])%result.

(** The workbook of [process_and_format] when no operating-system call
    fails. *)
Definition single_workbook (df : DataFrame) : result Workbook :=
  (sheets <- split_sheets df ;;
   wb <- write_sheets sheets ;;
   style_sheets wb sheet_names)%result.

(** *** Operating-system calls *)

(** A call takes one tick of the clock; when the oracle says it fails it
    raises and leaves [damage] behind. *)
Definition syscall {A : Type} (damage : World -> World) (op : M A) : M A :=
  fun w => if fails (clock w) then (Raise OSError, damage (tick w))
           else op (tick w).

(** [tempfile.NamedTemporaryFile(mode='wb', delete=False, ...)] at a path. *)
Definition named_temporary_file (p : path) : M unit :=
  syscall (fun w => w) (fun w => (Ok tt, write_file w p Blank)).

(** [file.save(p)] *)
Definition save_upload (file : FileStorage) (p : path) : M unit :=
  syscall (fun w => write_file w p Junk)
          (fun w => (Ok tt, write_file w p (stream file))).

(** [pd.read_csv(p)] *)
Definition read_csv (p : path) : M DataFrame :=
  syscall (fun w => w)
          (fun w => match fs w p with
                    | Some (CsvText df) => (Ok df, w)
                    | Some _ => (Raise ParserError, w)
                    | None => (Raise OSError, w)
                    end).

(** The sheets written before the first [to_excel] that raises. *)
Fixpoint written_prefix (sheets : list (string * DataFrame)) : Workbook :=
  match sheets with
  | [] => []
  | (name, df) :: sheets' =>
      match to_excel df name with
      | Ok ws => ws :: written_prefix sheets'
      | Raise _ => []
      end
  end.

(** [with pd.ExcelWriter(p, engine='xlsxwriter') as writer: ...]: leaving the
    block closes the writer, which saves the sheets written so far, also
    when a [to_excel] raised; the exception then goes on. *)
Definition excel_writer (p : path) (sheets : list (string * DataFrame))
  : M unit :=
  (syscall (fun w => write_file w p Junk)
           (fun w => (Ok tt,
                      write_file w p (XlsxBytes (written_prefix sheets)))) ;;
   lift (rbind (write_sheets sheets) (fun _ => Ok tt)))%io.

(** [load_workbook(p)] *)
Definition load_workbook (p : path) : M Workbook :=
  syscall (fun w => w)
          (fun w => match fs w p with
                    | Some (XlsxBytes wb) => (Ok wb, w)
                    | _ => (Raise OSError, w)
                    end).

(** [wb.save(p)] *)
Definition save_workbook (wb : Workbook) (p : path) : M unit :=
  syscall (fun w => write_file w p Junk)
          (fun w => (Ok tt, write_file w p (XlsxBytes wb))).

(** [open(p, 'rb').read()] *)
Definition read_bytes (p : path) : M bytes :=
  syscall (fun w => w)
          (fun w => match fs w p with
                    | Some b => (Ok b, w)
                    | None => (Raise OSError, w)
                    end).

(** [if os.path.exists(p): os.unlink(p)] *)
Definition unlink_if_exists (p : path) : M unit :=
  fun w => match fs w p with
           | Some _ => syscall (fun w' => w')
                               (fun w' => (Ok tt, remove_file w' p)) w
           | None => (Ok tt, w)
           end.

(** [try: m  except: pass] *)
Definition ignore_errors (m : M unit) : M unit :=
  try_except m (fun _ => ret tt).

(** [zip_file.write(p, arcname)]: the entry added to the archive. *)
Definition zip_write (p : path) (arcname : string) : M (string * bytes) :=
  (b <- read_bytes p ;; ret (arcname, b))%io.

(** *** [process_and_format] (lines 22-71) *)

Definition process_and_format (file_path output_file : path) : M unit :=
  (df <- read_csv file_path ;;
   sheets <- lift (split_sheets df) ;;
   excel_writer output_file sheets ;;
   wb <- load_workbook output_file ;;
   wb' <- lift (style_sheets wb sheet_names) ;;
   save_workbook wb' output_file)%io.

(** *** [process_combined_files] (lines 73-116) *)

Definition process_combined_files (file_a_path file_b_path output_file : path)
  : M unit :=
  (df_a <- read_csv file_a_path ;;
   df_b <- read_csv file_b_path ;;
   excel_writer output_file [("Combined", combined_frame df_a df_b)] ;;
   wb_combined <- load_workbook output_file ;;
   wb' <- lift (style_named wb_combined "Combined") ;;
   save_workbook wb' output_file)%io.

(** *** The route [/process_single] (lines 122-190) *)

Definition xlsx_mimetype : string :=
  "application/vnd.openxmlformats-officedocument.spreadsheetml.sheet".

Definition process_single (request : Request) : M Response :=
  match lookup "file" (files request) with
  | None => ret (Redirect "No file selected")
  | Some file =>
      let category := match lookup "category" (form request) with
                      | Some c => c
                      | None => "A"
                      end in
      if String.eqb (filename file) "" then ret (Redirect "No file selected")
      else if allowed_file (filename file) then
        try_except
          (named_temporary_file temp_input_path ;;
           save_upload file temp_input_path ;;
           named_temporary_file temp_output_path ;;
           process_and_format temp_input_path temp_output_path ;;
           file_data <- read_bytes temp_output_path ;;
           ignore_errors (unlink_if_exists temp_input_path ;;
                          unlink_if_exists temp_output_path) ;;
           ret (SendFile ("Unbilled_CAT_" ++ category ++ ".xlsx")%string
                         xlsx_mimetype (Whole file_data)))%io
          (fun e =>
             (ignore_errors (unlink_if_exists temp_input_path ;;
                             unlink_if_exists temp_output_path) ;;
              ret (Redirect ("Error processing file: " ++ str_exn e)%string))%io)
      else ret (Redirect "Invalid file type. Please upload a CSV file.")
  end.

(** *** The route [/process_combined] (lines 192-283) *)

Definition temp_files : list path :=
  [temp_a_path; temp_b_path; temp_out_a_path; temp_out_b_path;
   temp_combined_path].

(** [for temp_file in temp_files: try: ... except: pass].  A path that was
    not yet added to [temp_files] names no file. *)
Fixpoint cleanup (paths : list path) : M unit :=
  match paths with
  | [] => ret tt
  | p :: paths' => (ignore_errors (unlink_if_exists p) ;; cleanup paths')%io
  end.

Definition process_combined (request : Request) : M Response :=
  match lookup "file_a" (files request), lookup "file_b" (files request) with
  | Some file_a, Some file_b =>
      if String.eqb (filename file_a) "" || String.eqb (filename file_b) ""
      then ret (Redirect "Both files must be selected")
      else if allowed_file (filename file_a) && allowed_file (filename file_b)
      then
        try_except
          (named_temporary_file temp_a_path ;;
           save_upload file_a temp_a_path ;;
           named_temporary_file temp_b_path ;;
           save_upload file_b temp_b_path ;;
           named_temporary_file temp_out_a_path ;;
           named_temporary_file temp_out_b_path ;;
           named_temporary_file temp_combined_path ;;
           process_and_format temp_a_path temp_out_a_path ;;
           process_and_format temp_b_path temp_out_b_path ;;
           process_combined_files temp_a_path temp_b_path temp_combined_path ;;
           entry_a <- zip_write temp_out_a_path "Unbilled_CAT_A.xlsx" ;;
           entry_b <- zip_write temp_out_b_path "Unbilled_CAT_B.xlsx" ;;
           entry_c <- zip_write temp_combined_path
                        "Unbilled_CAT_A_and_B_Combined.xlsx" ;;
           cleanup temp_files ;;
           ret (SendFile "processed_files.zip" "application/zip"
                         (Archive [entry_a; entry_b; entry_c])))%io
          (fun e =>
             (cleanup temp_files ;;
              ret (Redirect ("Error processing files: " ++ str_exn e)%string))%io)
      else ret (Redirect "Invalid file type. Please upload CSV files only.")
  | _, _ => ret (Redirect "Both Category A and B files are required")
  end.

End Program.

(** ** Notions used in the statements *)

Definition present (c : cell) : bool := negb (isna c).

(** All keys of a list are of one kind. *)
Definition one_kind (l : list cell) : Prop :=
  forall a b, In a l -> In b l -> same_kind a b = true.

(** The present values of a column are of one kind, as [read_csv] makes
    them: a column of numbers, of booleans or of texts. *)
Definition uniform_column (df : DataFrame) (col : string) : bool :=
  match getitem df col with
  | Ok keys => comparable (filter present keys)
  | Raise _ => true
  end.

(** The cell of a row of [df] under a column label. *)
Definition at_col (df : DataFrame) (col : string) (r : list cell) : cell :=
  match get_loc (columns df) col with
  | Some i => row_at r i
  | None => CNaN
  end.

(** The rows of [df] whose [ISGOVTCAN] is exactly the text [flag]. *)
Definition flagged (df : DataFrame) (flag : string) : list (list cell) :=
  filter (fun r => cell_eq_str (at_col df "ISGOVTCAN" r) flag) (data df).

(** The row [df[col] = v] makes of a row of [df]. *)
Definition set_row (df : DataFrame) (col : string) (v : cell)
  (r : list cell) : list cell :=
  match get_loc (columns df) col with
  | Some i => set_nth i v r
  | None => r ++ [v]
  end.

(** A frame that already has a column [HCC Type]. *)
Definition tagged_frame : DataFrame :=
  mkFrame ["ISGOVTCAN"; "DIVNCODE"; "LASTDEMAND"; "HCC Type"]
    [[CStr "Yes"; CNum 1; CNum 100; CStr "old"]].

(** *** The order the specification asks of [sortDescending]

    The specification's table holds texts and numbers and reads the sort
    column "numerically": a value counts as numeric when it is a number or a
    text that spells an integer. *)
Definition numeric_value (c : cell) : option Z :=
  match c with
  | CNum z => Some z
  | CStr s => if String.eqb s "" then None
              else option_map Z.of_int (NilZero.int_of_string s)
  | _ => None
  end.

(** [a] may stand before [b]: numeric values never increase, and a value
    that is not numeric never stands before one that is. *)
Definition spec_before (a b : cell) : Prop :=
  match numeric_value a, numeric_value b with
  | Some x, Some y => (y <= x)%Z
  | Some _, None => True
  | None, Some _ => False
  | None, None => True
  end.

Definition spec_sorted (i : nat) (rws : list (list cell)) : Prop :=
  StronglySorted (fun r1 r2 => spec_before (row_at r1 i) (row_at r2 i)) rws.

(** *** Sample frames *)

Definition sample_columns : list string := ["ISGOVTCAN"; "DIVNCODE"; "LASTDEMAND"].

(** The end-to-end scenario of the specification. *)
Definition sample_frame : DataFrame :=
  mkFrame sample_columns
    [[CStr "Yes"; CNum 1; CNum 100];
     [CStr "No"; CNum 2; CNum 50];
     [CStr "Yes"; CNum 3; CNum 200]].

(** A file whose [LASTDEMAND] holds a text that is no number: [read_csv]
    makes the whole column text. *)
Definition text_frame : DataFrame :=
  mkFrame sample_columns
    [[CStr "Yes"; CNum 1; CStr "100"];
     [CStr "Yes"; CNum 2; CStr "abc"];
     [CStr "Yes"; CNum 3; CStr "50"]].

Definition text_frame_sorted : DataFrame :=
  mkFrame sample_columns
    [[CStr "Yes"; CNum 2; CStr "abc"];
     [CStr "Yes"; CNum 3; CStr "50"];
     [CStr "Yes"; CNum 1; CStr "100"]].

(** A file with a flag in lower case. *)
Definition lower_flag_frame : DataFrame :=
  mkFrame sample_columns
    [[CStr "Yes"; CNum 1; CNum 100];
     [CStr "yes"; CNum 2; CNum 50];
     [CStr "No"; CNum 3; CNum 70]].

(** Two rows with the same [LASTDEMAND]. *)
Definition tied_frame : DataFrame :=
  mkFrame sample_columns
    [[CStr "Yes"; CNum 1; CNum 5];
     [CStr "Yes"; CNum 2; CNum 5]].

(** *** Reading a styled sheet *)

(** The cell of a sheet at a row and a column, both counted from 1. *)
Definition cell_at (ws : Worksheet) (row col : nat) : option XCell :=
  match row, col with
  | S r, S c => match nth_error (rows ws) r with
                | Some cells => nth_error cells c
                | None => None
                end
  | _, _ => None
  end.

(** The header row is bold and centred, and the solid fill is on the header
    cells of columns 1 and 16 and on no other cell of the sheet. *)
Definition header_styled (ws : Worksheet) : Prop :=
  forall row col c, cell_at ws row col = Some c ->
    (row = 1 -> font c = mkFont true /\
                alignment c = mkAlignment (Some "center") (Some "center")) /\
    fill c = if Nat.eqb row 1 && (Nat.eqb col 1 || Nat.eqb col 16)
             then mkFill (Some "solid") "FFC000" "FFC000"
             else no_fill.

(** What the three assignments make of the header cell of column [col]. *)
Definition restyle_at (col : nat) (c : XCell) : XCell :=
  mkCell (value c) header_font header_align
         (if Nat.eqb col 1 || Nat.eqb col 16 then header_fill else fill c).

(** The values of a sheet, row by row. *)
Definition sheet_values (ws : Worksheet) : list (list xvalue) :=
  map (map value) (rows ws).

(** The values [to_excel] writes for a frame: the labels, then the rows. *)
Definition frame_values (df : DataFrame) : list (list xvalue) :=
  map XStr (columns df) :: map (map xl_value) (data df).

(** The header cell at position [j] after the loop has run over [idxs]. *)
Definition styled_cell (idxs : list nat) (j : nat) (c : XCell) : XCell :=
  if existsb (Nat.eqb (S j)) idxs then restyle_at (S j) c else c.

(** *** Column widths as the specification words them *)

(** The length of a cell value rendered as a text, an empty or missing cell
    counting as the empty text. *)
Definition spec_length (v : xvalue) : nat :=
  match v with
  | XNone => 0
  | _ => String.length (py_str v)
  end.

(** The largest such length in a column, header included. *)
Definition spec_max_length (ws : Worksheet) (col_idx : nat) : nat :=
  list_max (map (fun row => spec_length (cell_value ws row col_idx))
                (seq 1 (max_row ws))).

(** A file with a column of booleans under a short label. *)
Definition bool_frame : DataFrame :=
  mkFrame ["ISGOVTCAN"; "DIVNCODE"; "LASTDEMAND"; "F"]
    [[CStr "Yes"; CNum 1; CNum 100; CBool false]].

(** No two rows of the frame have the same present key under [col]: the
    order [sort_values] gives is then the same for every kernel. *)
Definition distinct_keys (df : DataFrame) (col : string) : Prop :=
  forall r1 r2, In r1 (data df) -> In r2 (data df) ->
    cell_le (at_col df col r1) (at_col df col r2) = true ->
    cell_le (at_col df col r2) (at_col df col r1) = true -> r1 = r2.

(** *** Files before and after a step *)

(** [w1] has the files of [w], except that [p] holds [b]. *)
Definition wrote (w w1 : World) (p : path) (b : bytes) : Prop :=
  forall q, fs w1 q = if path_eqb q p then Some b else fs w q.

(** [w1] has the files of [w]. *)
Definition same_files (w w1 : World) : Prop :=
  forall q, fs w1 q = fs w q.

(** *** What a route may answer *)



(** *** The content of the workbooks *)

(** The frame fits a sheet, header included. *)
Definition within_sheet_limits (df : DataFrame) : Prop :=
  (Z.of_nat (List.length (data df)) < max_rows)%Z /\
  (Z.of_nat (List.length (columns df)) <= max_cols)%Z.

(** Rows in descending order of the cell at position [i]: those with a
    present cell first, the cell never increasing, then those without. *)
Definition sorted_descending (i : nat) (rws : list (list cell)) : Prop :=
  exists front back,
    rws = front ++ back /\
    StronglySorted
      (fun r1 r2 => cell_le (row_at r2 i) (row_at r1 i) = true) front /\
    Forall (fun r => isna (row_at r i) = false) front /\
    Forall (fun r => isna (row_at r i) = true) back.

(** [wb] is the workbook of one category for the frame [df]: the sheets
    [GovtCAN_Yes] and [GovtCAN_No], in that order, holding under the frame's
    own column labels the rows flagged [Yes] and [No], each in descending
    order of [LASTDEMAND]. *)
Definition split_workbook (kernel : list cell -> list nat) (df : DataFrame)
  (wb : Workbook) : Prop :=
  exists df_yes df_no i,
    get_loc (columns df) "LASTDEMAND" = Some i /\
    govt_rows kernel df "Yes" = Ok df_yes /\
    govt_rows kernel df "No" = Ok df_no /\
    columns df_yes = columns df /\
    columns df_no = columns df /\
    Permutation (data df_yes) (flagged df "Yes") /\
    Permutation (data df_no) (flagged df "No") /\
    sorted_descending i (data df_yes) /\
    sorted_descending i (data df_no) /\
    map title wb = ["GovtCAN_Yes"; "GovtCAN_No"] /\
    map sheet_values wb = [frame_values df_yes; frame_values df_no].

(** [rws] are the rows of [df], in order, as they stand in the combined
    frame [out]: tagged [label] under [HCC Type], their other cells kept. *)
Definition tagged_rows (out df : DataFrame) (label : string)
  (rws : list (list cell)) : Prop :=
  Forall2 (fun r r' =>
             at_col out "HCC Type" r' = CStr label /\
             forall c, In c (columns df) -> c <> "HCC Type" ->
               at_col out c r' = at_col df c r)
          (data df) rws.

(** [wb] is the combined workbook of [df_a] and [df_b]: one sheet,
    [Combined], holding the rows of [df_a] tagged [A] followed by the rows
    of [df_b] tagged [B]. *)
Definition combined_book (df_a df_b : DataFrame) (wb : Workbook) : Prop :=
  let out := combined_frame df_a df_b in
  map title wb = ["Combined"] /\
  map sheet_values wb = [frame_values out] /\
  exists rows_a rows_b,
    data out = rows_a ++ rows_b /\
    tagged_rows out df_a "A" rows_a /\
    tagged_rows out df_b "B" rows_b.

(** An upload the routes accept and can process, whose labels and cells a
    sheet stores as they are. *)
Definition good_upload (file : FileStorage) (df : DataFrame) : Prop :=
  allowed_file (filename file) = true /\
  stream file = CsvText df /\
  wf_frame df /\
  check_required df = Ok tt /\
  uniform_column df "LASTDEMAND" = true /\
  within_sheet_limits df /\
  stored_exactly df = true.

Definition empty_world : World := mkWorld (fun _ => None) 0.

(** Two uploads, the first with a column [HCC Type] of its own. *)
Definition tagged_request : Request :=
  mkRequest
    [("file_a", mkUpload "a.csv" (CsvText tagged_frame));
     ("file_b", mkUpload "b.csv" (CsvText sample_frame))]
    [].

(** Two plain uploads. *)
Definition sample_request : Request :=
  mkRequest
    [("file_a", mkUpload "cat_a.csv" (CsvText sample_frame));
     ("file_b", mkUpload "cat_b.CSV" (CsvText lower_flag_frame))]
    [].

(** The oracle under which no call fails. *)
Definition no_fault (n : nat) : bool := false.

(** One plain upload with a category. *)
Definition single_request : Request :=
  mkRequest
    [("file", mkUpload "unbilled.csv" (CsvText sample_frame))]
    [("category", "B")].

(** A small sheet with a zero and no boolean. *)
Definition zero_sheet : Worksheet :=
  mkSheet "Sheet1"
    [[written_header "AB"];
     [written_cell (CNum 0)];
     [written_cell (CNum 12345)]]
    [].


(** *** File names *)

(** ['.' in s] *)
Fixpoint contains_dot (s : string) : bool :=
  match s with
  | EmptyString => false
  | String c s' => Ascii.eqb c "."%char || contains_dot s'
  end.

(** *** What a computation may do to the world *)

(** Every run of [m] takes a world to one related to it by [P]. *)
Definition keeps (P : World -> World -> Prop) {A : Type} (m : M A) : Prop :=
  forall w, P w (snd (m w)).

(** [w'] has the files of [w] at every path outside [may]. *)
Definition untouched_outside (may : path -> Prop) (w w' : World) : Prop :=
  forall q, ~ may q -> fs w' q = fs w q.

(** The clock has not gone back. *)
Definition not_earlier (w w' : World) : Prop := clock w <= clock w'.

(** The temporary files of [/process_single]. *)
Definition single_temp_files : list path :=
  [temp_input_path; temp_output_path].

(** The route [/process_single] refuses the request before any work: no
    file field, or a file name it does not accept. *)
Definition single_rejected (request : Request) : Prop :=
  forall file, lookup "file" (files request) = Some file ->
               allowed_file (filename file) = false.

(** The route [/process_combined] refuses the request before any work. *)
Definition combined_rejected (request : Request) : Prop :=
  forall file_a file_b,
    lookup "file_a" (files request) = Some file_a ->
    lookup "file_b" (files request) = Some file_b ->
    allowed_file (filename file_a) && allowed_file (filename file_b) = false.

(** A frame without [LASTDEMAND], alone and beside a plain one. *)
Definition short_frame : DataFrame :=
  mkFrame ["ISGOVTCAN"; "DIVNCODE"] [[CStr "Yes"; CNum 1]].

Definition short_request : Request :=
  mkRequest
    [("file", mkUpload "short.csv" (CsvText short_frame));
     ("file_a", mkUpload "plain.csv" (CsvText sample_frame));
     ("file_b", mkUpload "short.csv" (CsvText short_frame))]
    [].

(** *** Column letters read back

    The number a column name stands for, read from its last letter to its
    first: the inverse of the loop of [get_column_letter]. *)
Fixpoint digits_value (rev_letters : list ascii) : N :=
  match rev_letters with
  | [] => 0
  | c :: rest => (N_of_ascii c - 64) + 26 * digits_value rest
  end.

(** *** The header row after styling *)

(** Row 1 of [ws] has one cell for each of the labels [cols], every one bold
    and centred, with the solid fill on those of columns 1 and 16 and on no
    other. *)
Definition header_cells (cols : list string) (ws : Worksheet) : Prop :=
  List.length (hd [] (rows ws)) = List.length cols /\
  forall j, j < List.length cols ->
    exists c, cell_at ws 1 (S j) = Some c /\
      font c = mkFont true /\
      alignment c = mkAlignment (Some "center") (Some "center") /\
      fill c = if Nat.eqb (S j) 1 || Nat.eqb (S j) 16
               then mkFill (Some "solid") "FFC000" "FFC000"
               else no_fill.

(** A file of sixteen columns, so that column [P] is there. *)
Definition wide_frame : DataFrame :=
  mkFrame ["ISGOVTCAN"; "DIVNCODE"; "LASTDEMAND"; "D"; "E"; "F"; "G"; "H";
           "I"; "J"; "K"; "L"; "M"; "N"; "O"; "P"]
    [[CStr "Yes"; CNum 1; CNum 100; CNum 4; CNum 5; CNum 6; CNum 7; CNum 8;
      CNum 9; CNum 10; CNum 11; CNum 12; CNum 13; CNum 14; CNum 15;
      CNum 16]].

(** *** A finished sheet *)











(** * Theorems *)

(** ** The required columns *)

Lemma has_column_In (df : DataFrame) (col : string) :
  has_column df col = true <-> In col (columns df).
Proof.
  unfold has_column. rewrite existsb_exists. split.
  - intros [c [Hin Heq]]. apply String.eqb_eq in Heq. now subst.
  - intros Hin. exists col. split; [assumption | apply String.eqb_refl].
Qed.

Lemma check_required_Ok (df : DataFrame) :
  check_required df = Ok tt <->
  (forall c, In c required_cols -> In c (columns df)).
Proof.
  unfold check_required.
  destruct (forallb (has_column df) required_cols) eqn:Hall.
  - split; [intros _ | reflexivity].
    intros c Hc. rewrite forallb_forall in Hall.
    now apply has_column_In, Hall.
  - split; [discriminate |].
    intros Hall'. exfalso.
    assert (forallb (has_column df) required_cols = true) as Habs.
    { apply forallb_forall. intros c Hc. now apply has_column_In, Hall'. }
    congruence.
Qed.

Lemma check_required_Raise (df : DataFrame) (e : exn) :
  check_required df = Raise e -> e = ValueError missing_columns_message.
Proof.
  unfold check_required.
  destruct (forallb (has_column df) required_cols); congruence.
Qed.

Lemma message_mentions_required (c : string) :
  In c required_cols -> mentions missing_columns_message c.
Proof.
  intros [<- | [<- | [<- | []]]].
  - exists "Required columns ['",
      "', 'DIVNCODE', 'LASTDEMAND'] do not exist in the dataset.".
    reflexivity.
  - exists "Required columns ['ISGOVTCAN', '",
      "', 'LASTDEMAND'] do not exist in the dataset.".
    reflexivity.
  - exists "Required columns ['ISGOVTCAN', 'DIVNCODE', '",
      "'] do not exist in the dataset.".
    reflexivity.
Qed.

(** C3.  The column check of [process_and_format] raises (a [ValueError],
    the program's schema error) exactly when one of [ISGOVTCAN], [DIVNCODE],
    [LASTDEMAND] is not among the frame's columns; it passes when all three
    are there, whatever the rows, none included; and the message of the
    error contains the name of every required column that is absent. *)
Theorem C3_required_columns (cols : list string) (rows : list (list cell)) :
  let df := mkFrame cols rows in
  ((exists msg, check_required df = Raise (ValueError msg)) <->
   (exists c, In c required_cols /\ ~ In c cols)) /\
  ((forall c, In c required_cols -> In c cols) <->
   check_required df = Ok tt) /\
  check_required (mkFrame cols []) = check_required df /\
  (forall e, check_required df = Raise e ->
     exists msg, e = ValueError msg /\
       forall c, In c required_cols -> ~ In c cols -> mentions msg c).
Proof.
  intros df. repeat split.
  - intros [msg Hraise].
    destruct (forallb (has_column df) required_cols) eqn:Hall.
    + unfold check_required in Hraise. rewrite Hall in Hraise. discriminate.
    + assert (exists c, In c required_cols /\ has_column df c = false)
        as [c [Hc Hmiss]].
      { clear Hraise. induction required_cols as [| c l IH]; [discriminate |].
        simpl in Hall. destruct (has_column df c) eqn:Hc.
        - destruct (IH Hall) as [c' [Hin Hc']]. exists c'. now split; [right |].
        - exists c. now split; [left |]. }
      exists c. split; [assumption |]. intros Hin.
      apply (has_column_In df) in Hin. congruence.
  - intros [c [Hc Hmiss]].
    destruct (check_required df) as [[] | e] eqn:Hchk.
    + exfalso. apply Hmiss. now apply (proj1 (check_required_Ok df)).
    + apply check_required_Raise in Hchk. subst e. now eexists.
  - intros Hall. now apply check_required_Ok.
  - intros Hok. now apply (proj1 (check_required_Ok df)).
  - intros e Hraise. apply check_required_Raise in Hraise.
    exists missing_columns_message. split; [assumption |].
    intros c Hc _. now apply message_mentions_required.
Qed.

(** ** The order on keys *)

Lemma string_leb_trans (a b c : string) :
  String.leb a b = true -> String.leb b c = true -> String.leb a c = true.
Proof.
  revert b c. induction a as [| x a IH]; intros [| y b] [| z c];
    unfold String.leb; simpl; try congruence.
  unfold Ascii.compare.
  destruct (N.compare_spec (N_of_ascii x) (N_of_ascii y)) as [Hxy | Hxy | Hxy];
    destruct (N.compare_spec (N_of_ascii y) (N_of_ascii z)) as [Hyz | Hyz | Hyz];
    try congruence; intros Hab Hbc.
  - rewrite Hxy, Hyz, N.compare_refl.
    apply (IH b c); assumption.
  - rewrite Hxy. apply N.compare_lt_iff in Hyz. now rewrite Hyz.
  - rewrite <- Hyz. apply N.compare_lt_iff in Hxy. now rewrite Hxy.
  - assert (N_of_ascii x < N_of_ascii z)%N as Hxz by lia.
    apply N.compare_lt_iff in Hxz. now rewrite Hxz.
Qed.

Lemma cell_le_trans (a b c : cell) :
  cell_le a b = true -> cell_le b c = true -> cell_le a c = true.
Proof.
  destruct a as [x | x | x |], b as [y | y | y |], c as [z | z | z |];
    simpl; try congruence.
  - rewrite !Z.leb_le. lia.
  - apply string_leb_trans.
  - destruct x, y, z; simpl; congruence.
Qed.

Lemma cell_le_total (a b : cell) :
  same_kind a b = true -> cell_le a b = true \/ cell_le b a = true.
Proof.
  destruct a as [x | x | x |], b as [y | y | y |]; simpl; try congruence;
    intros _.
  - rewrite !Z.leb_le. lia.
  - apply String.leb_total.
  - destruct x, y; simpl; auto.
Qed.

Lemma same_kind_via (k a b : cell) :
  same_kind k a = true -> same_kind k b = true -> same_kind a b = true.
Proof.
  destruct k, a, b; simpl; congruence.
Qed.

Lemma comparable_one_kind (l : list cell) :
  comparable l = true <-> one_kind l.
Proof.
  destruct l as [| k ks]; simpl.
  - split; [intros _ a b [] | reflexivity].
  - rewrite andb_true_iff, forallb_forall. split.
    + intros [Hk Hks] a b Ha Hb.
      apply same_kind_via with (k := k).
      * destruct Ha as [<- | Ha]; [assumption | now apply Hks].
      * destruct Hb as [<- | Hb]; [assumption | now apply Hks].
    + intros H. split.
      * apply H; now left.
      * intros x Hx. apply H; [now left | now right].
Qed.

Lemma one_kind_incl (l l' : list cell) :
  incl l' l -> one_kind l -> one_kind l'.
Proof.
  intros Hincl H a b Ha Hb. apply H; now apply Hincl.
Qed.

(** ** Positions and the elements they name *)

Section Positions.

Context {A B : Type}.

Lemma indexed_nth (l : list A) (d : A) :
  forall s p, In p (combine (seq s (List.length l)) l) ->
    s <= fst p /\ nth (fst p - s) l d = snd p.
Proof.
  induction l as [| x l IH]; intros s p Hin; simpl in Hin; [contradiction |].
  destruct Hin as [<- | Hin]; simpl.
  - split; [lia |]. now rewrite Nat.sub_diag.
  - destruct (IH (S s) p Hin) as [Hle Hnth]. split; [lia |].
    replace (fst p - s) with (S (fst p - S s)) by lia. exact Hnth.
Qed.

Lemma indexed_nth0 (l : list A) (d : A) (p : nat * A) :
  In p (combine (seq 0 (List.length l)) l) -> nth (fst p) l d = snd p.
Proof.
  intros Hin. destruct (indexed_nth l d 0 p Hin) as [_ H].
  now rewrite Nat.sub_0_r in H.
Qed.

Lemma map_fst_combine_seq (l : list A) (s : nat) :
  map fst (combine (seq s (List.length l)) l) = seq s (List.length l).
Proof.
  revert s. induction l as [| x l IH]; intros s; simpl; [reflexivity |].
  now rewrite IH.
Qed.

Lemma map_snd_combine_seq (l : list A) (s : nat) :
  map snd (combine (seq s (List.length l)) l) = l.
Proof.
  revert s. induction l as [| x l IH]; intros s; simpl; [reflexivity |].
  now rewrite IH.
Qed.

Lemma combine_map_snd (g : A -> B) (idx : list nat) (l : list A) :
  combine idx (map g l) = map (fun p => (fst p, g (snd p))) (combine idx l).
Proof.
  revert idx. induction l as [| x l IH]; intros [| i idx]; simpl;
    try reflexivity.
  now rewrite IH.
Qed.

Lemma filter_map_comm (g : A -> B) (f : B -> bool) (l : list A) :
  filter f (map g l) = map g (filter (fun x => f (g x)) l).
Proof.
  induction l as [| x l IH]; simpl; [reflexivity |].
  rewrite IH. now destruct (f (g x)).
Qed.

Lemma filter_snd_combine_seq (f : A -> bool) (l : list A) (s : nat) :
  map snd (filter (fun p => f (snd p)) (combine (seq s (List.length l)) l))
  = filter f l.
Proof.
  revert s. induction l as [| x l IH]; intros s; simpl; [reflexivity |].
  destruct (f x); simpl; now rewrite IH.
Qed.

(** Reading a list at the positions kept by a filter gives the elements the
    filter keeps. *)
Lemma nth_filtered_positions (f : A -> bool) (l : list A) (d : A) :
  map (fun i => nth i l d)
      (map fst (filter (fun p => f (snd p))
                       (combine (seq 0 (List.length l)) l)))
  = filter f l.
Proof.
  rewrite <- (filter_snd_combine_seq f l 0), map_map.
  apply map_ext_in. intros p Hp. apply filter_In in Hp.
  now apply indexed_nth0.
Qed.

Lemma nth_all_positions (l : list A) (d : A) :
  map (fun i => nth i l d) (seq 0 (List.length l)) = l.
Proof.
  rewrite <- (map_fst_combine_seq l 0), map_map.
  rewrite <- (map_snd_combine_seq l 0) at 3.
  apply map_ext_in. intros p Hp. now apply indexed_nth0.
Qed.

(** Reading a list along a permutation of its positions permutes it. *)
Lemma nth_permuted_positions (l : list A) (d : A) (order : list nat) :
  Permutation order (seq 0 (List.length l)) ->
  Permutation (map (fun i => nth i l d) order) l.
Proof.
  intros Hperm.
  apply Permutation_trans
    with (map (fun i => nth i l d) (seq 0 (List.length l))).
  - now apply Permutation_map.
  - now rewrite nth_all_positions.
Qed.

Lemma Sorted_map_in (R : A -> A -> Prop) (R' : B -> B -> Prop) (f : A -> B)
  (l : list A) :
  (forall x y, In x l -> In y l -> R x y -> R' (f x) (f y)) ->
  Sorted R l -> Sorted R' (map f l).
Proof.
  intros Hf Hs. induction Hs as [| x l Hs IH Hhd]; simpl; constructor.
  - apply IH. intros a b Ha Hb. apply Hf; now right.
  - destruct Hhd as [| y l Hxy]; constructor.
    apply Hf; [now left | right; now left | assumption].
Qed.

Lemma StronglySorted_app_one (R : A -> A -> Prop) (l : list A) (a : A) :
  StronglySorted R l -> Forall (fun x => R x a) l ->
  StronglySorted R (l ++ [a]).
Proof.
  intros Hs Hall. induction Hs as [| x l Hs IH Hx]; simpl.
  - repeat constructor.
  - inversion Hall as [| ? ? Hxa Hla]; subst. constructor.
    + now apply IH.
    + apply Forall_app. split; [assumption | now constructor].
Qed.

Lemma StronglySorted_rev (R : A -> A -> Prop) (l : list A) :
  StronglySorted R l -> StronglySorted (fun x y => R y x) (rev l).
Proof.
  intros Hs. induction Hs as [| x l Hs IH Hx]; simpl; [constructor |].
  apply StronglySorted_app_one; [exact IH |].
  apply Forall_rev. exact Hx.
Qed.

End Positions.

Lemma StronglySorted_map_impl {A B : Type} (R : A -> A -> Prop)
  (R' : B -> B -> Prop) (f : A -> B) (l : list A) :
  (forall x y, R x y -> R' (f x) (f y)) ->
  StronglySorted R l -> StronglySorted R' (map f l).
Proof.
  intros Hf Hs. induction Hs as [| x l Hs IH Hx]; simpl; constructor.
  - exact IH.
  - apply Forall_map. eapply Forall_impl; [| exact Hx].
    intros y Hy. now apply Hf.
Qed.

Lemma row_at_nil (i : nat) : row_at [] i = CNaN.
Proof. unfold row_at. now destruct i. Qed.

(** The positions a test on the keys keeps are those the same test keeps on
    the rows. *)
Lemma positions_of_keys {A : Type} (Q : cell -> bool) (key : A -> cell)
  (l : list A) :
  map fst (filter (fun p => Q (snd p))
             (combine (seq 0 (List.length (map key l))) (map key l)))
  = map fst (filter (fun p => Q (key (snd p)))
               (combine (seq 0 (List.length l)) l)).
Proof.
  rewrite length_map, combine_map_snd, filter_map_comm, map_map.
  reflexivity.
Qed.

(** ** [sort_values] *)

Section SortFacts.

Variable kernel : list cell -> list nat.
Hypothesis kernel_ok : argsort_spec kernel.

Lemma nth_sorted_pairs (items : list cell) (P : list (nat * cell)) (j : nat) :
  incl P (combine (seq 0 (List.length items)) items) ->
  j < List.length P ->
  nth j (rev (map snd P)) CNaN
  = nth (nth j (rev (map fst P)) 0) items CNaN.
Proof.
  intros Hincl Hj. rewrite <- !map_rev.
  change CNaN with (snd (0, CNaN)) at 1.
  change 0 with (fst (0, CNaN)) at 2.
  rewrite !map_nth. symmetry. apply indexed_nth0.
  apply Hincl, in_rev.
  apply nth_In. now rewrite length_rev.
Qed.

(** The indexer of [nargsort]: the positions of the present keys in an order
    that never increases, then those of the missing keys in input order. *)
Lemma nargsort_order (items : list cell) :
  one_kind (filter present items) ->
  exists order,
    nargsort kernel items
    = Ok (order ++ map fst (filter (fun p => isna (snd p))
                             (combine (seq 0 (List.length items)) items))) /\
    Permutation order
      (map fst (filter (fun p => present (snd p))
                  (combine (seq 0 (List.length items)) items))) /\
    StronglySorted
      (fun i j => cell_le (nth j items CNaN) (nth i items CNaN) = true) order.
Proof.
  intros Hkind. unfold nargsort.
  set (indexed := combine (seq 0 (List.length items)) items).
  set (P := filter (fun p => negb (isna (snd p))) indexed).
  assert (map snd P = filter present items) as Hkeys
    by apply (filter_snd_combine_seq present items 0).
  assert (comparable (rev (map snd P)) = true) as Hcomp.
  { apply comparable_one_kind. apply one_kind_incl with (l := filter present items);
      [| assumption].
    intros c Hc. apply in_rev in Hc. now rewrite <- Hkeys. }
  rewrite Hcomp.
  destruct (kernel_ok _ Hcomp) as [Hperm Hsorted].
  rewrite length_rev, length_map in Hperm.
  exists (rev (map (fun j => nth j (rev (map fst P)) 0)
                   (kernel (rev (map snd P))))).
  split; [reflexivity |]. split.
  - rewrite <- Permutation_rev.
    apply Permutation_trans with (rev (map fst P));
      [| symmetry; apply Permutation_rev].
    apply nth_permuted_positions.
    now rewrite length_rev, length_map.
  - apply StronglySorted_rev. apply Sorted_StronglySorted.
    + intros a b c Hab Hbc. now apply cell_le_trans with (b := nth b items CNaN).
    + eapply Sorted_map_in; [| exact Hsorted].
      intros x y Hx Hy Hxy.
      assert (forall j, In j (kernel (rev (map snd P))) -> j < List.length P)
        as Hbound.
      { intros j Hj. apply (Permutation_in _ Hperm) in Hj.
        apply in_seq in Hj. lia. }
      rewrite <- !(nth_sorted_pairs items P);
        [exact Hxy | | now apply Hbound | | now apply Hbound];
        intros p Hp; now apply filter_In in Hp.
Qed.

(** [sort_values] on a column at position [i] whose present values are of
    one kind: the rows with a present key come first, in an order where the
    key never increases; the rows with a missing key follow in input order. *)
Lemma sort_values_rows (df : DataFrame) (col : string) (i : nat) :
  get_loc (columns df) col = Some i ->
  one_kind (filter present (map (fun r => row_at r i) (data df))) ->
  exists front,
    sort_values kernel df col
    = Ok (mkFrame (columns df)
            (front ++ filter (fun r => isna (row_at r i)) (data df))) /\
    Permutation front (filter (fun r => present (row_at r i)) (data df)) /\
    StronglySorted
      (fun r1 r2 => cell_le (row_at r2 i) (row_at r1 i) = true) front.
Proof.
  intros Hloc Hkind. unfold sort_values, getitem. rewrite Hloc. simpl.
  destruct (nargsort_order _ Hkind) as [order [Hn [Hperm Hsorted]]].
  rewrite Hn. simpl. exists (take (data df) order).
  split; [| split].
  - unfold take. rewrite map_app, (positions_of_keys isna).
    now rewrite (nth_filtered_positions (fun r => isna (row_at r i))).
  - rewrite (positions_of_keys present) in Hperm.
    rewrite <- (nth_filtered_positions (fun r => present (row_at r i))
                  (data df) []).
    now apply Permutation_map.
  - eapply StronglySorted_map_impl; [| exact Hsorted].
    intros x y Hxy. simpl in Hxy.
    rewrite <- (row_at_nil i) in Hxy.
    now rewrite !(map_nth (fun r => row_at r i)) in Hxy.
Qed.

End SortFacts.

(** ** The reference kernels meet numpy's contract *)

Section Insertion.

Variable before : cell -> cell -> bool.
Hypothesis before_le : forall a b, before a b = true -> cell_le a b = true.
Hypothesis before_ge :
  forall a b, same_kind a b = true -> before a b = false -> cell_le b a = true.

Let by_key (p q : nat * cell) : Prop := cell_le (snd p) (snd q) = true.

Lemma insert_by_perm (p : nat * cell) (l : list (nat * cell)) :
  Permutation (insert_by before p l) (p :: l).
Proof.
  induction l as [| q l IH]; simpl; [reflexivity |].
  destruct (before (snd p) (snd q)); [reflexivity |].
  rewrite IH. apply perm_swap.
Qed.

Lemma insert_by_sorted (p : nat * cell) (l : list (nat * cell)) :
  one_kind (snd p :: map snd l) ->
  Sorted by_key l -> Sorted by_key (insert_by before p l).
Proof.
  intros Hkind Hs. induction Hs as [| q l Hs IH Hhd]; simpl.
  - repeat constructor.
  - destruct (before (snd p) (snd q)) eqn:Hpq.
    + constructor; [now constructor |]. constructor. now apply before_le.
    + assert (by_key q p) as Hqp.
      { apply before_ge; [| assumption].
        apply Hkind; simpl; [now left | right; now left]. }
      constructor.
      * apply IH. intros a b Ha Hb. apply Hkind; simpl in *; tauto.
      * destruct Hhd as [| q' l Hqq']; simpl; [now constructor |].
        destruct (before (snd p) (snd q')); now constructor.
Qed.

Lemma insertion_sorted (l : list (nat * cell)) :
  one_kind (map snd l) ->
  Permutation (fold_right (insert_by before) [] l) l /\
  Sorted by_key (fold_right (insert_by before) [] l).
Proof.
  induction l as [| p l IH]; intros Hkind; simpl.
  - split; constructor.
  - destruct IH as [Hperm Hs].
    { intros a b Ha Hb. apply Hkind; simpl; now right. }
    split.
    + rewrite insert_by_perm. now constructor.
    + apply insert_by_sorted; [| assumption].
      intros a b Ha Hb. apply Hkind; simpl in *.
      * destruct Ha as [Ha | Ha]; [now left | right].
        apply in_map_iff in Ha. destruct Ha as [x [<- Hx]].
        apply in_map. now apply (Permutation_in _ Hperm).
      * destruct Hb as [Hb | Hb]; [now left | right].
        apply in_map_iff in Hb. destruct Hb as [x [<- Hx]].
        apply in_map. now apply (Permutation_in _ Hperm).
Qed.

Lemma argsort_by_spec : argsort_spec (argsort_by before).
Proof.
  intros keys Hcomp. apply comparable_one_kind in Hcomp.
  unfold argsort_by.
  set (pairs := combine (seq 0 (List.length keys)) keys).
  destruct (insertion_sorted pairs) as [Hperm Hs].
  { unfold pairs. now rewrite map_snd_combine_seq. }
  split.
  - rewrite <- (map_fst_combine_seq keys 0). now apply Permutation_map.
  - eapply Sorted_map_in; [| exact Hs].
    intros p q Hp Hq Hpq.
    rewrite !(indexed_nth0 keys CNaN);
      [exact Hpq | |]; now apply (Permutation_in _ Hperm).
Qed.

End Insertion.

Lemma stable_argsort_ok : argsort_spec stable_argsort.
Proof.
  apply argsort_by_spec.
  - trivial.
  - intros a b Hkind Hab.
    destruct (cell_le_total a b Hkind) as [H | H]; congruence.
Qed.

Lemma reversing_argsort_ok : argsort_spec reversing_argsort.
Proof.
  apply argsort_by_spec; unfold cell_lt.
  - intros a b H. now apply andb_true_iff in H.
  - intros a b Hkind Hab.
    destruct (cell_le_total a b Hkind) as [H | H]; [| assumption].
    rewrite H in Hab. simpl in Hab. now apply negb_false_iff in Hab.
Qed.

(** ** The split on [ISGOVTCAN] *)

Lemma get_loc_In (cols : list string) (col : string) :
  In col cols -> exists i, get_loc cols col = Some i.
Proof.
  induction cols as [| c cs IH]; intros Hin; [contradiction |]. simpl.
  destruct (String.eqb c col) eqn:Heq; [now exists 0 |].
  destruct Hin as [-> | Hin]; [now rewrite String.eqb_refl in Heq |].
  destruct (IH Hin) as [i ->]. now exists (S i).
Qed.

Lemma get_loc_Some (cols : list string) (col : string) (i : nat) :
  get_loc cols col = Some i -> nth_error cols i = Some col.
Proof.
  revert i. induction cols as [| c cs IH]; intros i; simpl; [discriminate |].
  destruct (String.eqb c col) eqn:Heq.
  - intros [= <-]. apply String.eqb_eq in Heq. now subst.
  - destruct (get_loc cs col) as [j |]; [| discriminate].
    intros [= <-]. simpl. now apply IH.
Qed.

Lemma select_rows_filter (f : list cell -> cell) (s : string)
  (rws : list (list cell)) :
  select_rows rws (eq_mask (map f rws) s)
  = filter (fun r => cell_eq_str (f r) s) rws.
Proof.
  induction rws as [| r rws IH]; simpl; [reflexivity |].
  rewrite IH. reflexivity.
Qed.

Lemma filter_split_perm {A : Type} (f : A -> bool) (l : list A) :
  Permutation (filter f l ++ filter (fun x => negb (f x)) l) l.
Proof.
  induction l as [| x l IH]; simpl; [constructor |].
  destruct (f x); simpl.
  - now constructor.
  - apply Permutation_sym, Permutation_cons_app. now symmetry.
Qed.

Lemma uniform_column_kind (df : DataFrame) (col : string) (i : nat) :
  get_loc (columns df) col = Some i ->
  uniform_column df col = true ->
  one_kind (filter present (map (fun r => row_at r i) (data df))).
Proof.
  unfold uniform_column, getitem. intros ->. apply comparable_one_kind.
Qed.

Section SplitFacts.

Variable kernel : list cell -> list nat.
Hypothesis kernel_ok : argsort_spec kernel.

(** [sort_values] returns the rows it was given, in another order. *)
Lemma sort_values_perm (df : DataFrame) (col : string) (i : nat) :
  get_loc (columns df) col = Some i ->
  one_kind (filter present (map (fun r => row_at r i) (data df))) ->
  exists out, sort_values kernel df col = Ok out /\
    columns out = columns df /\ Permutation (data out) (data df).
Proof.
  intros Hloc Hkind.
  destruct (sort_values_rows kernel kernel_ok df col i Hloc Hkind)
    as [front [Hsort [Hperm _]]].
  eexists. split; [exact Hsort |]. split; [reflexivity |]. simpl.
  rewrite Hperm, Permutation_app_comm.
  apply (filter_split_perm (fun r => isna (row_at r i))).
Qed.

(** Lines 37-38 for one value of the flag: the rows with exactly that flag,
    reordered. *)
Lemma govt_rows_flagged (df : DataFrame) (flag : string) :
  check_required df = Ok tt ->
  uniform_column df "LASTDEMAND" = true ->
  exists out, govt_rows kernel df flag = Ok out /\
    columns out = columns df /\ Permutation (data out) (flagged df flag).
Proof.
  intros Hreq Huni.
  destruct (get_loc_In (columns df) "ISGOVTCAN") as [f Hf].
  { apply (proj1 (check_required_Ok df) Hreq). simpl. tauto. }
  destruct (get_loc_In (columns df) "LASTDEMAND") as [i Hi].
  { apply (proj1 (check_required_Ok df) Hreq). simpl. tauto. }
  unfold govt_rows, getitem, flagged, at_col. rewrite Hf. simpl.
  unfold boolean_index. rewrite select_rows_filter.
  apply sort_values_perm with (i := i); [exact Hi |]. simpl.
  eapply one_kind_incl; [| exact (uniform_column_kind df _ i Hi Huni)].
  intros c Hc. apply filter_In in Hc. destruct Hc as [Hc Hp].
  apply filter_In. split; [| assumption].
  apply in_map_iff in Hc. destruct Hc as [r [<- Hr]].
  apply (in_map (fun r => row_at r i)). now apply filter_In in Hr.
Qed.

End SplitFacts.

Lemma flagged_yes_no (df : DataFrame) :
  Permutation (flagged df "Yes" ++ flagged df "No")
    (filter (fun r => cell_eq_str (at_col df "ISGOVTCAN" r) "Yes"
                      || cell_eq_str (at_col df "ISGOVTCAN" r) "No")
            (data df)).
Proof.
  unfold flagged. induction (data df) as [| r l IH]; simpl; [constructor |].
  destruct (at_col df "ISGOVTCAN" r) as [z | s | b |]; simpl; try exact IH.
  destruct (String.eqb s "Yes") eqn:Hyes; simpl.
  - apply String.eqb_eq in Hyes. subst s. simpl. now constructor.
  - destruct (String.eqb s "No"); [| exact IH].
    apply Permutation_sym, Permutation_cons_app. now symmetry.
Qed.

(** ** The kernel only decides the order of equal keys *)

Lemma sorted_perm_unique {A : Type} (R : A -> A -> Prop) (l1 l2 : list A) :
  StronglySorted R l1 -> StronglySorted R l2 -> Permutation l1 l2 ->
  (forall x y, In x l1 -> In y l1 -> R x y -> R y x -> x = y) ->
  l1 = l2.
Proof.
  intros Hs1. revert l2.
  induction Hs1 as [| a l1 Hs1 IH Ha]; intros l2 Hs2 Hperm Hanti.
  - apply Permutation_nil in Hperm. now subst.
  - destruct Hs2 as [| b l2 Hs2 Hb].
    + apply Permutation_sym, Permutation_nil in Hperm. discriminate.
    + assert (a = b) as ->.
      { assert (In a (b :: l2)) as Hina
          by (apply (Permutation_in _ Hperm); now left).
        assert (In b (a :: l1)) as Hinb
          by (apply (Permutation_in _ (Permutation_sym Hperm)); now left).
        destruct Hina as [-> | Hina]; [reflexivity |].
        destruct Hinb as [-> | Hinb]; [reflexivity |].
        rewrite Forall_forall in Ha, Hb.
        apply Hanti; [now left | now right | now apply Ha | now apply Hb]. }
      f_equal. apply IH.
      * assumption.
      * now apply Permutation_cons_inv in Hperm.
      * intros x y Hx Hy. apply Hanti; now right.
Qed.

Lemma sort_values_kernel_free (k1 k2 : list cell -> list nat)
  (df : DataFrame) (col : string) (i : nat) :
  argsort_spec k1 -> argsort_spec k2 ->
  get_loc (columns df) col = Some i ->
  uniform_column df col = true ->
  (forall r1 r2, In r1 (data df) -> In r2 (data df) ->
     cell_le (row_at r1 i) (row_at r2 i) = true ->
     cell_le (row_at r2 i) (row_at r1 i) = true -> r1 = r2) ->
  sort_values k1 df col = sort_values k2 df col.
Proof.
  intros Hk1 Hk2 Hloc Huni Hanti.
  pose proof (uniform_column_kind df col i Hloc Huni) as Hkind.
  destruct (sort_values_rows k1 Hk1 df col i Hloc Hkind)
    as [f1 [-> [Hp1 Hs1]]].
  destruct (sort_values_rows k2 Hk2 df col i Hloc Hkind)
    as [f2 [-> [Hp2 Hs2]]].
  do 3 f_equal.
  apply (sorted_perm_unique _ f1 f2 Hs1 Hs2).
  - now rewrite Hp1, Hp2.
  - intros x y Hx Hy Hxy Hyx.
    apply (Permutation_in _ Hp1) in Hx. apply filter_In in Hx.
    apply (Permutation_in _ Hp1) in Hy. apply filter_In in Hy.
    apply Hanti; tauto.
Qed.

Lemma cell_eq_str_true (c : cell) (s : string) :
  cell_eq_str c s = true <-> c = CStr s.
Proof.
  destruct c as [z | t | b |]; simpl; try (split; congruence).
  rewrite String.eqb_eq. split; congruence.
Qed.

(** With the stable kernel equal keys keep their input order; with the
    reversing one, which meets the same contract, they change places. *)
Example ties_depend_on_kernel :
  sort_values stable_argsort tied_frame "LASTDEMAND" = Ok tied_frame /\
  sort_values reversing_argsort tied_frame "LASTDEMAND"
  = Ok (mkFrame sample_columns (rev (data tied_frame))).
Proof. split; reflexivity. Qed.

(** ** C1, C2 and C10: the two row sets *)

(** C1 (as the code has it).  For a frame with the three required columns
    whose [LASTDEMAND] is of one kind, the rows flagged [Yes] and the rows
    flagged [No], each sorted, together make up, as a multiset, the rows of
    the frame whose [ISGOVTCAN] is exactly [Yes] or exactly [No]; they make up
    the whole frame when every row has one of the two flags. *)
Theorem C1_split_is_flagged_rows (kernel : list cell -> list nat)
  (df : DataFrame) :
  argsort_spec kernel ->
  check_required df = Ok tt ->
  uniform_column df "LASTDEMAND" = true ->
  exists df_yes df_no,
    govt_rows kernel df "Yes" = Ok df_yes /\
    govt_rows kernel df "No" = Ok df_no /\
    Permutation (data df_yes ++ data df_no)
      (filter (fun r => cell_eq_str (at_col df "ISGOVTCAN" r) "Yes"
                        || cell_eq_str (at_col df "ISGOVTCAN" r) "No")
              (data df)) /\
    ((forall r, In r (data df) ->
        at_col df "ISGOVTCAN" r = CStr "Yes" \/
        at_col df "ISGOVTCAN" r = CStr "No") ->
     Permutation (data df_yes ++ data df_no) (data df)).
Proof.
  intros Hk Hreq Huni.
  destruct (govt_rows_flagged kernel Hk df "Yes" Hreq Huni)
    as [df_yes [Hyes [_ Hpy]]].
  destruct (govt_rows_flagged kernel Hk df "No" Hreq Huni)
    as [df_no [Hno [_ Hpn]]].
  exists df_yes, df_no.
  assert (Permutation (data df_yes ++ data df_no)
            (filter (fun r => cell_eq_str (at_col df "ISGOVTCAN" r) "Yes"
                              || cell_eq_str (at_col df "ISGOVTCAN" r) "No")
                    (data df))) as Hperm.
  { rewrite Hpy, Hpn. apply flagged_yes_no. }
  repeat split; try assumption.
  intros Hall. rewrite Hperm.
  replace (filter _ (data df)) with (data df); [reflexivity |].
  symmetry. apply forallb_filter_id. apply forallb_forall.
  intros r Hr. apply orb_true_iff.
  destruct (Hall r Hr) as [H | H]; [left | right]; now apply cell_eq_str_true.
Qed.

(** The theorem at the specification's scenario. *)
Lemma C1_witness :
  exists df_yes df_no,
    govt_rows stable_argsort sample_frame "Yes" = Ok df_yes /\
    govt_rows stable_argsort sample_frame "No" = Ok df_no /\
    Permutation (data df_yes ++ data df_no)
      (filter (fun r => cell_eq_str (at_col sample_frame "ISGOVTCAN" r) "Yes"
                        || cell_eq_str (at_col sample_frame "ISGOVTCAN" r) "No")
              (data sample_frame)) /\
    ((forall r, In r (data sample_frame) ->
        at_col sample_frame "ISGOVTCAN" r = CStr "Yes" \/
        at_col sample_frame "ISGOVTCAN" r = CStr "No") ->
     Permutation (data df_yes ++ data df_no) (data sample_frame)).
Proof.
  apply (C1_split_is_flagged_rows stable_argsort sample_frame
           stable_argsort_ok); reflexivity.
Defined.

Lemma single_row_kernel_free (k : list cell -> list nat) (df : DataFrame)
  (col : string) (i : nat) (r : list cell) :
  argsort_spec k ->
  get_loc (columns df) col = Some i ->
  uniform_column df col = true ->
  data df = [r] ->
  sort_values k df col = sort_values stable_argsort df col.
Proof.
  intros Hk Hloc Huni Hdata.
  apply (sort_values_kernel_free k stable_argsort df col i Hk
           stable_argsort_ok Hloc Huni).
  rewrite Hdata. intros r1 r2 [<- | []] [<- | []] _ _. reflexivity.
Qed.

(** C1 fails as stated: the row flagged [yes] is in neither set, so the two
    sets hold two of the three rows, whatever the sorting kernel. *)
Lemma C1_counterexample :
  (forall kernel, argsort_spec kernel ->
     govt_rows kernel lower_flag_frame "Yes"
     = Ok (mkFrame sample_columns [[CStr "Yes"; CNum 1; CNum 100]]) /\
     govt_rows kernel lower_flag_frame "No"
     = Ok (mkFrame sample_columns [[CStr "No"; CNum 3; CNum 70]])) /\
  check_required lower_flag_frame = Ok tt /\
  ~ Permutation ([[CStr "Yes"; CNum 1; CNum 100]]
                 ++ [[CStr "No"; CNum 3; CNum 70]])
                (data lower_flag_frame).
Proof.
  split; [| split; [reflexivity |]].
  - intros kernel Hk. unfold govt_rows. simpl. split.
    + rewrite (single_row_kernel_free kernel _ "LASTDEMAND" 2
                 [CStr "Yes"; CNum 1; CNum 100] Hk); reflexivity.
    + rewrite (single_row_kernel_free kernel _ "LASTDEMAND" 2
                 [CStr "No"; CNum 3; CNum 70] Hk); reflexivity.
  - intros Hperm. apply Permutation_length in Hperm. discriminate.
Qed.

(** C2 (as the code has it).  [sort_values(by=col, ascending=False)] on a
    column whose present values are of one kind returns the rows in this
    order: first the rows with a present value, so that the value never
    increases (numbers by value, texts by code points, so a text that spells
    no number is not moved to the end); then the rows with a missing value,
    in their input order.  Nothing is lost or added. *)
Theorem C2_sort_values_order (kernel : list cell -> list nat)
  (df : DataFrame) (col : string) (i : nat) :
  argsort_spec kernel ->
  get_loc (columns df) col = Some i ->
  uniform_column df col = true ->
  exists front,
    sort_values kernel df col
    = Ok (mkFrame (columns df)
            (front ++ filter (fun r => isna (row_at r i)) (data df))) /\
    Permutation front (filter (fun r => present (row_at r i)) (data df)) /\
    StronglySorted
      (fun r1 r2 => cell_le (row_at r2 i) (row_at r1 i) = true) front /\
    Permutation (front ++ filter (fun r => isna (row_at r i)) (data df))
                (data df).
Proof.
  intros Hk Hloc Huni.
  destruct (sort_values_rows kernel Hk df col i Hloc
              (uniform_column_kind df col i Hloc Huni))
    as [front [Hsort [Hperm Hsorted]]].
  exists front. repeat split; try assumption.
  rewrite Hperm, Permutation_app_comm.
  apply (filter_split_perm (fun r => isna (row_at r i))).
Qed.

Lemma C2_witness :
  exists front,
    sort_values stable_argsort sample_frame "LASTDEMAND"
    = Ok (mkFrame (columns sample_frame)
            (front ++ filter (fun r => isna (row_at r 2)) (data sample_frame))) /\
    Permutation front
      (filter (fun r => present (row_at r 2)) (data sample_frame)) /\
    StronglySorted
      (fun r1 r2 => cell_le (row_at r2 2) (row_at r1 2) = true) front /\
    Permutation
      (front ++ filter (fun r => isna (row_at r 2)) (data sample_frame))
      (data sample_frame).
Proof.
  apply (C2_sort_values_order stable_argsort sample_frame "LASTDEMAND" 2
           stable_argsort_ok); reflexivity.
Defined.

(** C2 fails as stated: in a text column the row with [abc] comes first and
    [50] comes before [100], whatever the sorting kernel; read numerically,
    as the specification does, that order is not descending and does not put
    the value that is no number last. *)
Lemma C2_counterexample :
  (forall kernel, argsort_spec kernel ->
     sort_values kernel text_frame "LASTDEMAND" = Ok text_frame_sorted) /\
  ~ spec_sorted 2 (data text_frame_sorted).
Proof.
  split.
  - intros kernel Hk.
    rewrite (sort_values_kernel_free kernel stable_argsort text_frame
               "LASTDEMAND" 2 Hk stable_argsort_ok);
      [reflexivity | reflexivity | reflexivity |].
    simpl. intros r1 r2 H1 H2.
    repeat (destruct H1 as [<- | H1]; [| try contradiction]);
      repeat (destruct H2 as [<- | H2]; [| try contradiction]);
      vm_compute; congruence.
  - unfold spec_sorted. intros Hs.
    apply StronglySorted_inv in Hs. destruct Hs as [_ Hall].
    apply Forall_inv in Hall. exact Hall.
Qed.

(** C10.  The test on the flag is exact equality of texts.  For a frame with
    the required columns, a row is in the frame written to [GovtCAN_Yes]
    exactly when it is a row of the input whose [ISGOVTCAN] is the text
    [Yes], and in the one written to [GovtCAN_No] exactly when it is the text
    [No]; a row with any other value there ([yes], [YES], [Y], an empty text,
    a missing value, ...) is in neither. *)
Theorem C10_flag_is_exact (kernel : list cell -> list nat) (df : DataFrame) :
  argsort_spec kernel ->
  check_required df = Ok tt ->
  uniform_column df "LASTDEMAND" = true ->
  exists df_yes df_no,
    govt_rows kernel df "Yes" = Ok df_yes /\
    govt_rows kernel df "No" = Ok df_no /\
    (forall r, In r (data df_yes) <->
               In r (data df) /\ at_col df "ISGOVTCAN" r = CStr "Yes") /\
    (forall r, In r (data df_no) <->
               In r (data df) /\ at_col df "ISGOVTCAN" r = CStr "No") /\
    (forall r, at_col df "ISGOVTCAN" r <> CStr "Yes" ->
               at_col df "ISGOVTCAN" r <> CStr "No" ->
               ~ In r (data df_yes) /\ ~ In r (data df_no)) /\
    Forall (fun c => c <> CStr "Yes" /\ c <> CStr "No")
           [CStr "yes"; CStr "YES"; CStr "Y"; CStr ""; CNaN].
Proof.
  intros Hk Hreq Huni.
  destruct (govt_rows_flagged kernel Hk df "Yes" Hreq Huni)
    as [df_yes [Hyes [_ Hpy]]].
  destruct (govt_rows_flagged kernel Hk df "No" Hreq Huni)
    as [df_no [Hno [_ Hpn]]].
  assert (forall flag out, Permutation (data out) (flagged df flag) ->
            forall r, In r (data out) <->
                      In r (data df) /\ at_col df "ISGOVTCAN" r = CStr flag)
    as Hmem.
  { intros flag out Hp r. split.
    - intros Hr. apply (Permutation_in _ Hp) in Hr.
      apply filter_In in Hr. now rewrite cell_eq_str_true in Hr.
    - intros Hr. apply (Permutation_in _ (Permutation_sym Hp)).
      apply filter_In. now rewrite cell_eq_str_true. }
  exists df_yes, df_no.
  split; [exact Hyes |]. split; [exact Hno |].
  split; [exact (Hmem _ _ Hpy) |]. split; [exact (Hmem _ _ Hpn) |]. split.
  - intros r Hny Hnn. split; intros Hr.
    + now apply (Hmem _ _ Hpy) in Hr.
    + now apply (Hmem _ _ Hpn) in Hr.
  - repeat constructor; discriminate.
Qed.

Lemma C10_witness :
  exists df_yes df_no,
    govt_rows stable_argsort lower_flag_frame "Yes" = Ok df_yes /\
    govt_rows stable_argsort lower_flag_frame "No" = Ok df_no /\
    (forall r, In r (data df_yes) <->
               In r (data lower_flag_frame) /\
               at_col lower_flag_frame "ISGOVTCAN" r = CStr "Yes") /\
    (forall r, In r (data df_no) <->
               In r (data lower_flag_frame) /\
               at_col lower_flag_frame "ISGOVTCAN" r = CStr "No") /\
    (forall r, at_col lower_flag_frame "ISGOVTCAN" r <> CStr "Yes" ->
               at_col lower_flag_frame "ISGOVTCAN" r <> CStr "No" ->
               ~ In r (data df_yes) /\ ~ In r (data df_no)) /\
    Forall (fun c => c <> CStr "Yes" /\ c <> CStr "No")
           [CStr "yes"; CStr "YES"; CStr "Y"; CStr ""; CNaN].
Proof.
  apply (C10_flag_is_exact stable_argsort lower_flag_frame
           stable_argsort_ok); reflexivity.
Defined.

(** ** Column assignment and concatenation *)

Lemma get_loc_None (cols : list string) (col : string) :
  ~ In col cols -> get_loc cols col = None.
Proof.
  intros Hnin. destruct (get_loc cols col) as [i |] eqn:Hloc; [| reflexivity].
  exfalso. apply Hnin. apply get_loc_Some in Hloc.
  now apply nth_error_In in Hloc.
Qed.

Lemma get_loc_lt (cols : list string) (col : string) (i : nat) :
  get_loc cols col = Some i -> i < List.length cols.
Proof.
  intros Hloc. apply get_loc_Some in Hloc.
  apply nth_error_Some. congruence.
Qed.

Lemma get_loc_app_l (cols more : list string) (col : string) (i : nat) :
  get_loc cols col = Some i -> get_loc (cols ++ more) col = Some i.
Proof.
  revert i. induction cols as [| c cs IH]; intros i; simpl; [discriminate |].
  destruct (String.eqb c col); [trivial |].
  destruct (get_loc cs col) as [j |]; [| discriminate].
  intros [= <-]. now rewrite (IH j).
Qed.

Lemma get_loc_app_new (cols : list string) (col : string) :
  ~ In col cols -> get_loc (cols ++ [col]) col = Some (List.length cols).
Proof.
  induction cols as [| c cs IH]; intros Hnin; simpl.
  - now rewrite String.eqb_refl.
  - destruct (String.eqb c col) eqn:Heq.
    + apply String.eqb_eq in Heq. exfalso. apply Hnin. now left.
    + rewrite IH; [reflexivity |]. intros Hin. apply Hnin. now right.
Qed.

Lemma row_at_set_nth_same (i : nat) (v : cell) (r : list cell) :
  i < List.length r -> row_at (set_nth i v r) i = v.
Proof.
  unfold row_at. revert i. induction r as [| c r IH]; intros [| i] Hlt;
    simpl in *; try lia; [reflexivity |].
  apply IH. lia.
Qed.

Lemma row_at_set_nth_other (i j : nat) (v : cell) (r : list cell) :
  i <> j -> row_at (set_nth i v r) j = row_at r j.
Proof.
  unfold row_at. revert i j. induction r as [| c r IH]; intros [| i] [| j] Hne;
    simpl; try reflexivity; try congruence.
  apply IH. congruence.
Qed.

Lemma setitem_data (df : DataFrame) (col : string) (v : cell) :
  data (setitem df col v) = map (set_row df col v) (data df).
Proof.
  unfold setitem, set_row. now destruct (get_loc (columns df) col).
Qed.

Lemma setitem_columns (df : DataFrame) (col : string) (v : cell) :
  columns (setitem df col v)
  = if has_column df col then columns df else columns df ++ [col].
Proof.
  unfold setitem. destruct (get_loc (columns df) col) as [i |] eqn:Hloc.
  - apply get_loc_Some, nth_error_In in Hloc.
    apply has_column_In in Hloc. now rewrite Hloc.
  - destruct (has_column df col) eqn:Hhas; [| reflexivity].
    apply has_column_In, get_loc_In in Hhas. destruct Hhas. congruence.
Qed.

(** After [df[col] = v] every row holds [v] under [col]. *)
Lemma setitem_at_col (df : DataFrame) (col : string) (v : cell)
  (r : list cell) :
  List.length r = List.length (columns df) ->
  at_col (setitem df col v) col (set_row df col v r) = v.
Proof.
  intros Hlen. unfold at_col, setitem, set_row.
  destruct (get_loc (columns df) col) as [i |] eqn:Hloc; simpl.
  - rewrite Hloc. apply row_at_set_nth_same.
    rewrite Hlen. now apply get_loc_lt with (col := col).
  - rewrite get_loc_app_new.
    + unfold row_at. rewrite <- Hlen, nth_middle. reflexivity.
    + intros Hin. apply get_loc_In in Hin. destruct Hin. congruence.
Qed.

(** ... and what it held under the other columns. *)
Lemma setitem_at_other (df : DataFrame) (col c : string) (v : cell)
  (r : list cell) :
  List.length r = List.length (columns df) ->
  In c (columns df) -> c <> col ->
  at_col (setitem df col v) c (set_row df col v r) = at_col df c r.
Proof.
  intros Hlen Hin Hne. unfold at_col, setitem, set_row.
  destruct (get_loc_In _ _ Hin) as [j Hj].
  destruct (get_loc (columns df) col) as [i |] eqn:Hloc; simpl.
  - rewrite Hj. apply row_at_set_nth_other.
    intros ->. apply get_loc_Some in Hloc, Hj. congruence.
  - rewrite (get_loc_app_l _ _ _ _ Hj), Hj.
    unfold row_at. apply app_nth1.
    rewrite Hlen. now apply get_loc_lt with (col := c).
Qed.

Lemma union_columns_In (a b : list string) (c : string) :
  In c (union_columns a b) <-> In c a \/ In c b.
Proof.
  unfold union_columns. rewrite in_app_iff, filter_In. split.
  - tauto.
  - intros [Ha | Hb]; [now left |].
    destruct (existsb (String.eqb c) a) eqn:Hex.
    + left. apply existsb_exists in Hex. destruct Hex as [x [Hx Heq]].
      apply String.eqb_eq in Heq. now subst.
    + right. now split.
Qed.

(** A row read against a wider column list keeps its cell under every
    column of that list, a missing value where it had none. *)
Lemma reindex_at (cols new_cols : list string) (r : list cell)
  (c : string) (j : nat) :
  get_loc new_cols c = Some j ->
  row_at (reindex cols new_cols r) j
  = match get_loc cols c with
    | Some i => row_at r i
    | None => CNaN
    end.
Proof.
  intros Hj. apply get_loc_Some in Hj. unfold row_at at 1, reindex.
  apply nth_error_nth with (d := CNaN).
  rewrite nth_error_map, Hj. reflexivity.
Qed.

Lemma concat_at_col (a b x : DataFrame) (c : string) (r : list cell) :
  In c (columns (concat a b)) ->
  at_col (concat a b) c
         (reindex (columns x) (columns (concat a b)) r)
  = at_col x c r.
Proof.
  intros Hin. destruct (get_loc_In _ _ Hin) as [j Hj].
  unfold at_col at 1. rewrite Hj. now apply reindex_at.
Qed.

Lemma setitem_nth (df : DataFrame) (col : string) (v : cell) (k : nat) :
  nth_error (data (setitem df col v)) k
  = option_map (set_row df col v) (nth_error (data df) k).
Proof. now rewrite setitem_data, nth_error_map. Qed.

Lemma wf_row_length (df : DataFrame) (k : nat) (r : list cell) :
  wf_frame df -> nth_error (data df) k = Some r ->
  List.length r = List.length (columns df).
Proof.
  intros [_ [_ Hrows]] Hk. rewrite Forall_forall in Hrows.
  apply Hrows. now apply nth_error_In in Hk.
Qed.

(** C4 (as the code has it).  [df[col] = v] raises nothing when the frame
    already has the column: the column list and the number of rows stay as
    they are, every row holds [v] under [col] in place of what it held, and
    the cells under the other columns are untouched. *)
Theorem C4_existing_column_overwritten (df : DataFrame) (col : string)
  (v : cell) :
  wf_frame df ->
  In col (columns df) ->
  columns (setitem df col v) = columns df /\
  List.length (data (setitem df col v)) = List.length (data df) /\
  (forall k r, nth_error (data df) k = Some r ->
     exists r', nth_error (data (setitem df col v)) k = Some r' /\
       at_col (setitem df col v) col r' = v /\
       forall c, In c (columns df) -> c <> col ->
         at_col (setitem df col v) c r' = at_col df c r).
Proof.
  intros Hwf Hin. split; [| split].
  - rewrite setitem_columns.
    now rewrite (proj2 (has_column_In df col) Hin).
  - now rewrite setitem_data, length_map.
  - intros k r Hk. exists (set_row df col v r).
    pose proof (wf_row_length df k r Hwf Hk) as Hlen.
    split; [| split].
    + now rewrite setitem_nth, Hk.
    + now apply setitem_at_col.
    + intros c Hc Hne. now apply setitem_at_other.
Qed.

Lemma wf_tagged_frame : wf_frame tagged_frame.
Proof.
  split; [| split].
  - repeat constructor; simpl; intuition discriminate.
  - repeat constructor; discriminate.
  - repeat constructor.
Qed.

Lemma C4_witness :
  columns (setitem tagged_frame "HCC Type" (CStr "A")) = columns tagged_frame /\
  List.length (data (setitem tagged_frame "HCC Type" (CStr "A")))
  = List.length (data tagged_frame) /\
  (forall k r, nth_error (data tagged_frame) k = Some r ->
     exists r', nth_error (data (setitem tagged_frame "HCC Type" (CStr "A"))) k
                = Some r' /\
       at_col (setitem tagged_frame "HCC Type" (CStr "A")) "HCC Type" r'
       = CStr "A" /\
       forall c, In c (columns tagged_frame) -> c <> "HCC Type" ->
         at_col (setitem tagged_frame "HCC Type" (CStr "A")) c r'
         = at_col tagged_frame c r).
Proof.
  apply (C4_existing_column_overwritten tagged_frame "HCC Type" (CStr "A")
           wf_tagged_frame).
  simpl. tauto.
Defined.

(** C4 fails as stated: a frame that already has [HCC Type] goes through
    the combined processing without an error, and its old value is replaced
    by the label. *)
Lemma C4_counterexample :
  In "HCC Type" (columns tagged_frame) /\
  (exists wb, combined_workbook tagged_frame sample_frame = Ok wb) /\
  combined_frame tagged_frame sample_frame
  = mkFrame ["ISGOVTCAN"; "DIVNCODE"; "LASTDEMAND"; "HCC Type"]
      [[CStr "Yes"; CNum 1; CNum 100; CStr "A"];
       [CStr "Yes"; CNum 1; CNum 100; CStr "B"];
       [CStr "No"; CNum 2; CNum 50; CStr "B"];
       [CStr "Yes"; CNum 3; CNum 200; CStr "B"]].
Proof.
  split; [simpl; tauto |]. split; [| reflexivity].
  eexists. vm_compute. reflexivity.
Qed.

(** ** C5: the combined frame *)

Lemma combined_has_tag (df_a df_b : DataFrame) :
  In "HCC Type" (columns (combined_frame df_a df_b)).
Proof.
  unfold combined_frame, concat. simpl. apply union_columns_In. left.
  rewrite setitem_columns. destruct (has_column df_a "HCC Type") eqn:Hhas.
  - now apply has_column_In.
  - apply in_or_app. right. now left.
Qed.

Lemma setitem_keeps_column (df : DataFrame) (col c : string) (v : cell) :
  In c (columns df) -> In c (columns (setitem df col v)).
Proof.
  intros Hin. rewrite setitem_columns.
  destruct (has_column df col); [assumption | apply in_or_app; now left].
Qed.

Lemma combined_data (df_a df_b : DataFrame) :
  data (combined_frame df_a df_b)
  = map (reindex (columns (setitem df_a "HCC Type" (CStr "A")))
           (columns (combined_frame df_a df_b)))
        (map (set_row df_a "HCC Type" (CStr "A")) (data df_a))
    ++ map (reindex (columns (setitem df_b "HCC Type" (CStr "B")))
              (columns (combined_frame df_a df_b)))
           (map (set_row df_b "HCC Type" (CStr "B")) (data df_b)).
Proof.
  unfold combined_frame, concat. cbn [data columns].
  now rewrite !setitem_data.
Qed.

(** The row of the combined frame that a row of [df_a] becomes. *)
Lemma combined_nth_a (df_a df_b : DataFrame) (k : nat) (r : list cell) :
  nth_error (data df_a) k = Some r ->
  nth_error (data (combined_frame df_a df_b)) k
  = Some (reindex (columns (setitem df_a "HCC Type" (CStr "A")))
            (columns (combined_frame df_a df_b))
            (set_row df_a "HCC Type" (CStr "A") r)).
Proof.
  intros Hk. rewrite combined_data, nth_error_app1.
  - now rewrite !nth_error_map, Hk.
  - rewrite !length_map. apply nth_error_Some. congruence.
Qed.

(** ... and the one a row of [df_b] becomes. *)
Lemma combined_nth_b (df_a df_b : DataFrame) (k : nat) (r : list cell) :
  nth_error (data df_b) k = Some r ->
  nth_error (data (combined_frame df_a df_b)) (List.length (data df_a) + k)
  = Some (reindex (columns (setitem df_b "HCC Type" (CStr "B")))
            (columns (combined_frame df_a df_b))
            (set_row df_b "HCC Type" (CStr "B") r)).
Proof.
  intros Hk. rewrite combined_data, nth_error_app2; rewrite !length_map;
    [| lia].
  replace (List.length (data df_a) + k - List.length (data df_a)) with k
    by lia.
  now rewrite !nth_error_map, Hk.
Qed.

Lemma combined_length (df_a df_b : DataFrame) :
  List.length (data (combined_frame df_a df_b))
  = List.length (data df_a) + List.length (data df_b).
Proof.
  now rewrite combined_data, length_app, !length_map.
Qed.

(** The cells of a tagged row, read in the combined frame. *)
Lemma combined_row_cells (df_a df_b df : DataFrame) (v : cell)
  (r : list cell) :
  List.length r = List.length (columns df) ->
  let out := combined_frame df_a df_b in
  let r' := reindex (columns (setitem df "HCC Type" v)) (columns out)
              (set_row df "HCC Type" v r) in
  at_col out "HCC Type" r' = v /\
  (forall c, In c (columns out) -> In c (columns df) -> c <> "HCC Type" ->
     at_col out c r' = at_col df c r).
Proof.
  intros Hlen out r'. split.
  - unfold r', out, combined_frame.
    rewrite concat_at_col by apply combined_has_tag.
    now apply setitem_at_col.
  - intros c Hout Hc Hne. unfold r', out, combined_frame.
    rewrite concat_at_col by exact Hout.
    now apply setitem_at_other.
Qed.


Lemma wf_sample_frame : wf_frame sample_frame.
Proof.
  split; [| split].
  - repeat constructor; simpl; intuition discriminate.
  - repeat constructor; discriminate.
  - repeat constructor.
Qed.


(** ** Column letters *)

Lemma column_letters_length (fuel : nat) (n : N) (acc : list ascii) :
  List.length acc <= List.length (column_letters fuel n acc).
Proof.
  revert n acc. induction fuel as [| fuel IH]; intros n acc; simpl; [lia |].
  destruct (N.eqb n 0); [lia |].
  destruct (N.eqb (n mod 26) 0);
    (eapply Nat.le_trans; [| apply IH]); simpl; lia.
Qed.

(** Past column 26 the name has at least two letters. *)
Lemma column_letters_two (fuel : nat) (n : N) :
  2 <= fuel -> (26 < n)%N -> 2 <= List.length (column_letters fuel n []).
Proof.
  intros Hfuel Hn. destruct fuel as [| [| fuel]]; try lia.
  pose proof (N.div_mod n 26 ltac:(lia)) as Hdiv.
  pose proof (N.mod_lt n 26 ltac:(lia)) as Hmod.
  cbn [column_letters].
  destruct (N.eqb_spec n 0) as [| _]; [lia |].
  destruct (N.eqb_spec (n mod 26) 0) as [Hr | Hr].
  - destruct (N.eqb_spec (n / 26 - 1) 0) as [Hq | _]; [lia |].
    destruct (N.eqb ((n / 26 - 1) mod 26) 0);
      (eapply Nat.le_trans; [| apply column_letters_length]); simpl; lia.
  - destruct (N.eqb_spec (n / 26) 0) as [Hq | _]; [lia |].
    destruct (N.eqb ((n / 26) mod 26) 0);
      (eapply Nat.le_trans; [| apply column_letters_length]); simpl; lia.
Qed.

Lemma length_string_of_list_ascii (l : list ascii) :
  String.length (string_of_list_ascii l) = List.length l.
Proof. induction l as [| c l IH]; simpl; [reflexivity | now rewrite IH]. Qed.

Lemma highlighted_first_26 :
  forallb (fun i => match get_column_letter i with
                    | Ok l => Bool.eqb (highlighted l)
                                (Nat.eqb i 1 || Nat.eqb i 16)
                    | Raise _ => false
                    end) (seq 1 26) = true.
Proof. vm_compute. reflexivity. Qed.

(** The letters [A] and [P] name the columns 1 and 16 and no other. *)
Lemma highlighted_iff (i : nat) (l : string) :
  get_column_letter i = Ok l ->
  highlighted l = (Nat.eqb i 1 || Nat.eqb i 16).
Proof.
  intros Hl. destruct (Nat.le_gt_cases i 26) as [Hle | Hgt].
  - assert (In i (seq 1 26)) as Hin.
    { apply in_seq. unfold get_column_letter in Hl.
      destruct (Nat.leb_spec 1 i); [lia | discriminate]. }
    pose proof (proj1 (forallb_forall _ _) highlighted_first_26 i Hin) as H.
    cbv beta in H. rewrite Hl in H. now apply Bool.eqb_prop in H.
  - unfold get_column_letter in Hl.
    destruct (Nat.leb 1 i && N.leb (N.of_nat i) 18278); [| discriminate].
    injection Hl as <-.
    pose proof (column_letters_two i (N.of_nat i) ltac:(lia) ltac:(lia)) as H2.
    rewrite <- length_string_of_list_ascii in H2.
    replace (Nat.eqb i 1 || Nat.eqb i 16) with false.
    + unfold highlighted. simpl.
      destruct (string_of_list_ascii _) as [| c [| c' s]]; simpl in *;
        try lia. 
      rewrite !orb_false_r.
      destruct (Ascii.eqb c "A"), (Ascii.eqb c "P"); reflexivity.
    + symmetry. apply orb_false_iff.
      split; apply Nat.eqb_neq; lia.
Qed.

(** ** The styling loop *)

Lemma nth_error_update_nth {A : Type} (f : A -> A) (l : list A) (i j : nat) :
  nth_error (update_nth i f l) j
  = if Nat.eqb j i then option_map f (nth_error l j) else nth_error l j.
Proof.
  revert i j. induction l as [| x l IH]; intros [| i] [| j]; simpl;
    try reflexivity.
  - now destruct (Nat.eqb j i).
  - apply IH.
Qed.

Lemma length_update_nth {A : Type} (f : A -> A) (l : list A) (i : nat) :
  List.length (update_nth i f l) = List.length l.
Proof.
  revert i. induction l as [| x l IH]; intros [| i]; simpl; auto.
Qed.

Lemma update_nth_ext {A : Type} (f g : A -> A) (l : list A) (i : nat) :
  (forall x, f x = g x) -> update_nth i f l = update_nth i g l.
Proof.
  intros Hfg. revert i. induction l as [| x l IH]; intros [| i]; simpl;
    try reflexivity.
  - now rewrite Hfg.
  - now rewrite IH.
Qed.

Lemma hd_update_nth0 {A : Type} (g : list A -> list A) (l : list (list A)) :
  g [] = [] -> hd [] (update_nth 0 g l) = g (hd [] l).
Proof. intros Hg. destruct l; simpl; congruence. Qed.

Lemma restyle_restyle_at (i : nat) (l : string) (c : XCell) :
  get_column_letter i = Ok l -> restyle l c = restyle_at i c.
Proof.
  intros Hl. unfold restyle, restyle_at.
  now rewrite (highlighted_iff i l Hl).
Qed.

Lemma get_column_letter_pos (i : nat) (l : string) :
  get_column_letter i = Ok l -> 1 <= i.
Proof.
  unfold get_column_letter. destruct (Nat.leb_spec 1 i); [trivial |].
  discriminate.
Qed.

(** One turn of the loop: the header cell of the column is restyled, a
    width is recorded, and nothing else changes. *)
Lemma style_column_inv (ws ws' : Worksheet) (i : nat) :
  style_column ws i = Ok ws' ->
  exists l, get_column_letter i = Ok l /\ 1 <= i /\
    title ws' = title ws /\
    rows ws' = update_nth 0 (update_nth (i - 1) (restyle_at i)) (rows ws) /\
    column_dimensions ws'
    = (l, max_length
            (mkSheet (title ws)
               (update_nth 0 (update_nth (i - 1) (restyle l)) (rows ws))
               (column_dimensions ws)) i + 2) :: column_dimensions ws.
Proof.
  unfold style_column. destruct (get_column_letter i) as [l |] eqn:Hl;
    simpl; [| discriminate].
  intros [= <-]. exists l. simpl.
  split; [reflexivity |]. split; [now apply get_column_letter_pos in Hl |].
  split; [reflexivity |]. split; [| reflexivity].
  apply (update_nth_ext (update_nth (i - 1) (restyle l))
           (update_nth (i - 1) (restyle_at i)) (rows ws) 0).
  intros h. apply update_nth_ext. intros c.
  now apply restyle_restyle_at.
Qed.

Lemma restyle_at_twice (i : nat) (c : XCell) :
  restyle_at i (restyle_at i c) = restyle_at i c.
Proof.
  unfold restyle_at. simpl. now destruct (Nat.eqb i 1 || Nat.eqb i 16).
Qed.

Lemma update_nth_nil {A : Type} (f : A -> A) (i : nat) :
  update_nth i f [] = [].
Proof. now destruct i. Qed.

(** The loop over a list of column numbers: the title and the rows below
    the header are kept, and a header cell is restyled exactly when its
    column is in the list. *)
Lemma style_columns_inv (idxs : list nat) :
  forall ws ws', style_columns ws idxs = Ok ws' ->
    title ws' = title ws /\
    List.length (rows ws') = List.length (rows ws) /\
    (forall r, nth_error (rows ws') (S r) = nth_error (rows ws) (S r)) /\
    (forall j, nth_error (hd [] (rows ws')) j
               = option_map (styled_cell idxs j)
                   (nth_error (hd [] (rows ws)) j)).
Proof.
  induction idxs as [| i idxs IH]; intros ws ws' Hrun; simpl in Hrun.
  - injection Hrun as <-. repeat split; try reflexivity.
    intros j. now destruct (nth_error (hd [] (rows ws)) j).
  - destruct (style_column ws i) as [ws1 |] eqn:Hcol; simpl in Hrun;
      [| discriminate].
    destruct (style_column_inv ws ws1 i Hcol)
      as [l [Hl [Hpos [Htitle [Hrows _]]]]].
    destruct (IH ws1 ws' Hrun) as [Ht [Hlen [Hbelow Hhead]]].
    split; [congruence |]. split; [| split].
    + now rewrite Hlen, Hrows, length_update_nth.
    + intros r. now rewrite Hbelow, Hrows, nth_error_update_nth.
    + intros j. rewrite Hhead, Hrows.
      rewrite hd_update_nth0 by apply update_nth_nil.
      rewrite nth_error_update_nth. unfold styled_cell. cbn [existsb].
      destruct (nth_error (hd [] (rows ws)) j) as [c |];
        [| now destruct (Nat.eqb j (i - 1))].
      destruct (Nat.eqb_spec j (i - 1)) as [Hj | Hj]; cbn [option_map].
      * replace i with (S j) by lia. rewrite Nat.eqb_refl. cbn [orb].
        destruct (existsb _ idxs);
          [now rewrite restyle_at_twice | reflexivity].
      * destruct (Nat.eqb_spec (S j) i) as [Hi | _]; [lia | reflexivity].
Qed.

(** The whole loop of a sheet: every header cell is restyled. *)
Lemma style_sheet_inv (ws ws' : Worksheet) :
  style_sheet ws = Ok ws' ->
  title ws' = title ws /\
  List.length (rows ws') = List.length (rows ws) /\
  (forall r, nth_error (rows ws') (S r) = nth_error (rows ws) (S r)) /\
  (forall j, nth_error (hd [] (rows ws')) j
             = option_map (restyle_at (S j)) (nth_error (hd [] (rows ws)) j)).
Proof.
  intros Hrun. unfold style_sheet in Hrun.
  destruct (style_columns_inv _ ws ws' Hrun) as [Ht [Hlen [Hbelow Hhead]]].
  repeat split; try assumption.
  intros j. rewrite Hhead.
  destruct (nth_error (hd [] (rows ws)) j) as [c |] eqn:Hc; [| reflexivity].
  simpl. unfold styled_cell.
  replace (existsb (Nat.eqb (S j)) (seq 1 (List.length (hd [] (rows ws)))))
    with true; [reflexivity |].
  symmetry. apply existsb_exists. exists (S j).
  split; [| apply Nat.eqb_refl].
  apply in_seq. assert (j < List.length (hd [] (rows ws)))
    by (apply nth_error_Some; congruence). lia.
Qed.

Lemma nth_error_0_hd {A : Type} (l : list (list A)) :
  nth_error l 0 = match l with [] => None | _ => Some (hd [] l) end.
Proof. now destruct l. Qed.

(** Styling changes no value. *)
Lemma style_sheet_values (ws ws' : Worksheet) :
  style_sheet ws = Ok ws' -> sheet_values ws' = sheet_values ws.
Proof.
  intros Hrun.
  destruct (style_sheet_inv ws ws' Hrun) as [_ [Hlen [Hbelow Hhead]]].
  unfold sheet_values. apply nth_error_ext. intros [| r].
  - rewrite !nth_error_map, !nth_error_0_hd.
    destruct (rows ws) as [| h rest], (rows ws') as [| h' rest'];
      simpl in *; try discriminate; [reflexivity |].
    f_equal. apply nth_error_ext. intros j.
    rewrite !nth_error_map, Hhead.
    now destruct (nth_error h j).
  - now rewrite !nth_error_map, Hbelow.
Qed.

(** What [to_excel] returns when it returns. *)
Lemma to_excel_inv (df : DataFrame) (name : string) (ws : Worksheet) :
  to_excel df name = Ok ws ->
  exists body, incl body (data df) /\
    (Z.of_nat (List.length (data df)) < max_rows -> body = data df)%Z /\
    (Z.of_nat (List.length (columns df)) <= max_cols)%Z /\
    ws = mkSheet name
           (map written_header (columns df) :: map (map written_cell) body)
           [].
Proof.
  unfold to_excel.
  remember (Z.to_nat (max_rows - 1)) as n eqn:Hn.
  destruct (max_rows <? Z.of_nat (List.length (data df)))%Z; [discriminate |].
  destruct (Z.ltb_spec max_cols (Z.of_nat (List.length (columns df))))
    as [| Hcols]; [discriminate |].
  intros [= <-].
  exists (firstn n (data df)).
  split; [| split; [| split]].
  - intros r Hr. eapply In_nth_error in Hr. destruct Hr as [k Hk].
    rewrite nth_error_firstn in Hk.
    destruct (Nat.ltb k n); [| discriminate].
    now apply nth_error_In in Hk.
  - intros Hlt. apply firstn_all2. unfold max_rows in *. lia.
  - exact Hcols.
  - reflexivity.
Qed.

(** A sheet as [to_excel] writes it is, once styled, as C6 describes. *)
Lemma written_sheet_styled (df : DataFrame) (name : string)
  (ws ws' : Worksheet) :
  to_excel df name = Ok ws -> style_sheet ws = Ok ws' ->
  header_styled ws' /\ title ws' = name /\ sheet_values ws' = sheet_values ws.
Proof.
  intros Hw Hrun.
  destruct (style_sheet_inv ws ws' Hrun) as [Ht [Hlen [Hbelow Hhead]]].
  destruct (to_excel_inv df name ws Hw) as [body [_ [_ [_ ->]]]].
  cbn [rows title hd] in *.
  split; [| split; [assumption | now apply style_sheet_values]].
  intros [| [| r]] [| c] x Hx; cbn [cell_at] in Hx; try discriminate.
  - rewrite nth_error_0_hd in Hx.
    destruct (rows ws') as [| h' rest']; [discriminate |].
    cbn [hd] in Hhead. rewrite Hhead, nth_error_map in Hx.
    destruct (nth_error (columns df) c) as [lbl |]; [| discriminate].
    injection Hx as <-. cbn. split; [now split |].
    now destruct (Nat.eqb c 0 || Nat.eqb c 15).
  - rewrite Hbelow in Hx. cbn [nth_error] in Hx.
    rewrite nth_error_map in Hx.
    destruct (nth_error body r) as [cells |]; [| discriminate].
    cbn [option_map] in Hx. rewrite nth_error_map in Hx.
    destruct (nth_error cells c) as [v |]; [| discriminate].
    injection Hx as <-. cbn. split; [discriminate | reflexivity].
Qed.

(** ** The workbooks *)

Lemma to_excel_title (df : DataFrame) (name : string) (ws : Worksheet) :
  to_excel df name = Ok ws -> title ws = name.
Proof.
  intros Hw. destruct (to_excel_inv df name ws Hw) as [body [_ [_ [_ ->]]]].
  reflexivity.
Qed.

(** The steps behind a workbook of [process_and_format]. *)
Lemma single_workbook_inv (kernel : list cell -> list nat) (df : DataFrame)
  (wb : Workbook) :
  single_workbook kernel df = Ok wb ->
  exists df_yes df_no ws_y ws_n ws_y' ws_n',
    check_required df = Ok tt /\
    govt_rows kernel df "Yes" = Ok df_yes /\
    govt_rows kernel df "No" = Ok df_no /\
    to_excel df_yes "GovtCAN_Yes" = Ok ws_y /\
    to_excel df_no "GovtCAN_No" = Ok ws_n /\
    style_sheet ws_y = Ok ws_y' /\
    style_sheet ws_n = Ok ws_n' /\
    wb = [ws_y'; ws_n'].
Proof.
  intros H. unfold single_workbook, split_sheets in H.
  destruct (check_required df) as [[] |] eqn:Hreq; cbn [rbind] in H;
    [| discriminate].
  destruct (govt_rows kernel df "Yes") as [df_yes |] eqn:Hy; cbn [rbind] in H;
    [| discriminate].
  destruct (govt_rows kernel df "No") as [df_no |] eqn:Hn; cbn [rbind] in H;
    [| discriminate].
  cbn [write_sheets] in H.
  destruct (to_excel df_yes "GovtCAN_Yes") as [ws_y |] eqn:Hwy;
    cbn [rbind] in H; [| discriminate].
  destruct (to_excel df_no "GovtCAN_No") as [ws_n |] eqn:Hwn;
    cbn [rbind] in H; [| discriminate].
  unfold sheet_names in H. cbn [style_sheets style_named] in H.
  rewrite (to_excel_title _ _ _ Hwy), String.eqb_refl in H.
  destruct (style_sheet ws_y) as [ws_y' |] eqn:Hsy; cbn [rbind] in H;
    [| discriminate].
  cbn [style_named] in H.
  destruct (style_sheet_inv _ _ Hsy) as [Hty _].
  rewrite Hty, (to_excel_title _ _ _ Hwy) in H.
  change (String.eqb "GovtCAN_Yes" "GovtCAN_No") with false in H.
  cbn [style_named] in H.
  rewrite (to_excel_title _ _ _ Hwn), String.eqb_refl in H.
  destruct (style_sheet ws_n) as [ws_n' |] eqn:Hsn; cbn [rbind] in H;
    [| discriminate].
  cbn [rbind style_sheets] in H. injection H as <-.
  exists df_yes, df_no, ws_y, ws_n, ws_y', ws_n'. repeat split; assumption.
Qed.

(** The steps behind the workbook of [process_combined_files]. *)
Lemma combined_workbook_inv (df_a df_b : DataFrame) (wb : Workbook) :
  combined_workbook df_a df_b = Ok wb ->
  exists ws ws',
    to_excel (combined_frame df_a df_b) "Combined" = Ok ws /\
    style_sheet ws = Ok ws' /\
    wb = [ws'].
Proof.
  intros H. unfold combined_workbook in H. cbn [write_sheets] in H.
  destruct (to_excel (combined_frame df_a df_b) "Combined") as [ws |] eqn:Hw;
    cbn [rbind] in H; [| discriminate].
  cbn [style_named] in H.
  rewrite (to_excel_title _ _ _ Hw), String.eqb_refl in H.
  destruct (style_sheet ws) as [ws' |] eqn:Hs; cbn [rbind] in H;
    [| discriminate].
  injection H as <-. now exists ws, ws'.
Qed.

Lemma govt_rows_columns (kernel : list cell -> list nat) (df out : DataFrame)
  (flag : string) :
  govt_rows kernel df flag = Ok out -> columns out = columns df.
Proof.
  unfold govt_rows, sort_values.
  destruct (getitem df "ISGOVTCAN") as [col |]; cbn [rbind];
    [| discriminate].
  destruct (getitem (boolean_index df (eq_mask col flag)) "LASTDEMAND")
    as [keys |]; cbn [rbind]; [| discriminate].
  destruct (nargsort kernel keys) as [indexer |]; cbn [rbind];
    [| discriminate].
  intros H. injection H as <-. reflexivity.
Qed.

Lemma length_by_nth_error {A B : Type} (l : list A) (l' : list B) :
  (forall j, nth_error l' j = None <-> nth_error l j = None) ->
  List.length l' = List.length l.
Proof.
  intros H. apply Nat.le_antisymm.
  - apply nth_error_None, H, nth_error_None. apply Nat.le_refl.
  - apply nth_error_None, H, nth_error_None. apply Nat.le_refl.
Qed.

(** The header row of a sheet that was written and styled. *)
Lemma written_header_cells (df : DataFrame) (name : string)
  (ws ws' : Worksheet) :
  to_excel df name = Ok ws -> style_sheet ws = Ok ws' ->
  header_cells (columns df) ws'.
Proof.
  intros Hw Hrun.
  destruct (style_sheet_inv ws ws' Hrun) as [_ [Hlen [_ Hhead]]].
  destruct (to_excel_inv df name ws Hw) as [body [_ [_ [_ ->]]]].
  cbn [rows hd] in *. unfold header_cells, cell_at.
  destruct (rows ws') as [| h' rest'] eqn:Hrows; [discriminate |].
  cbn [hd nth_error] in *. split.
  - rewrite <- (length_map written_header (columns df)).
    apply length_by_nth_error. intros j. rewrite Hhead.
    now destruct (nth_error (map written_header (columns df)) j).
  - intros j Hj. rewrite Hhead, nth_error_map.
    destruct (nth_error (columns df) j) as [label |] eqn:Hlabel;
      [| apply nth_error_None in Hlabel; lia].
    cbn [option_map]. eexists. split; [reflexivity |].
    unfold restyle_at, written_header. cbn [font alignment fill value].
    split; [reflexivity |]. split; [reflexivity |].
    now destruct (Nat.eqb (S j) 1 || Nat.eqb (S j) 16).
Qed.

(** C6.  A workbook the program writes, by [process_and_format] or by
    [process_combined_files], has its sheets, and in every sheet row 1 has
    one cell for each column of the frame written there; every such header
    cell is bold and centred, and the solid fill [FFC000] is on the header
    cells of columns 1 and 16, when the sheet has them, and on no other cell
    of the sheet. *)
Theorem C6_header_styling (kernel : list cell -> list nat)
  (df df_a df_b : DataFrame) (wb : Workbook) (cols : list string) :
  (single_workbook kernel df = Ok wb /\ cols = columns df) \/
  (combined_workbook df_a df_b = Ok wb /\
   cols = columns (combined_frame df_a df_b)) ->
  wb <> [] /\
  Forall (fun ws => header_styled ws /\ header_cells cols ws) wb.
Proof.
  intros [[H ->] | [H ->]].
  - destruct (single_workbook_inv kernel df wb H)
      as [df_yes [df_no [ws_y [ws_n [ws_y' [ws_n'
            [_ [Hy [Hn [Hwy [Hwn [Hsy [Hsn ->]]]]]]]]]]]]].
    split; [discriminate |].
    apply Forall_cons; [| apply Forall_cons; [| apply Forall_nil]].
    + split; [exact (proj1 (written_sheet_styled _ _ _ _ Hwy Hsy)) |].
      rewrite <- (govt_rows_columns kernel df df_yes "Yes" Hy).
      exact (written_header_cells _ _ _ _ Hwy Hsy).
    + split; [exact (proj1 (written_sheet_styled _ _ _ _ Hwn Hsn)) |].
      rewrite <- (govt_rows_columns kernel df df_no "No" Hn).
      exact (written_header_cells _ _ _ _ Hwn Hsn).
  - destruct (combined_workbook_inv df_a df_b wb H) as [ws [ws' [Hw [Hs ->]]]].
    split; [discriminate |].
    apply Forall_cons; [| apply Forall_nil].
    split; [exact (proj1 (written_sheet_styled _ _ _ _ Hw Hs)) |].
    exact (written_header_cells _ _ _ _ Hw Hs).
Qed.

Lemma C6_witness :
  exists wb ws c1 c2 c16,
    single_workbook stable_argsort wide_frame = Ok wb /\
    In ws wb /\
    header_styled ws /\
    cell_at ws 1 1 = Some c1 /\
    font c1 = mkFont true /\
    alignment c1 = mkAlignment (Some "center") (Some "center") /\
    fill c1 = mkFill (Some "solid") "FFC000" "FFC000" /\
    cell_at ws 1 2 = Some c2 /\
    font c2 = mkFont true /\
    alignment c2 = mkAlignment (Some "center") (Some "center") /\
    fill c2 = no_fill /\
    cell_at ws 1 16 = Some c16 /\
    font c16 = mkFont true /\
    fill c16 = mkFill (Some "solid") "FFC000" "FFC000".
Proof.
  destruct (single_workbook stable_argsort wide_frame) as [wb | e] eqn:Hwb;
    [| vm_compute in Hwb; discriminate].
  destruct (C6_header_styling stable_argsort wide_frame wide_frame wide_frame
              wb (columns wide_frame) (or_introl (conj Hwb eq_refl)))
    as [Hsome Hall].
  destruct wb as [| ws rest]; [contradiction |].
  apply Forall_inv in Hall. destruct Hall as [Hstyled [_ Hcells]].
  destruct (Hcells 0) as [c1 [H1 [Hf1 [Ha1 Hp1]]]];
    [cbn [wide_frame columns List.length]; lia |].
  destruct (Hcells 1) as [c2 [H2 [Hf2 [Ha2 Hp2]]]];
    [cbn [wide_frame columns List.length]; lia |].
  destruct (Hcells 15) as [c16 [H16 [Hf16 [_ Hp16]]]];
    [cbn [wide_frame columns List.length]; lia |].
  exists (ws :: rest), ws, c1, c2, c16.
  split; [reflexivity |]. split; [now left |]. split; [exact Hstyled |].
  split; [exact H1 |]. split; [exact Hf1 |]. split; [exact Ha1 |].
  split; [exact Hp1 |]. split; [exact H2 |]. split; [exact Hf2 |].
  split; [exact Ha2 |]. split; [exact Hp2 |]. split; [exact H16 |].
  split; [exact Hf16 | exact Hp16].
Defined.

(** ** Frames whose order does not depend on the kernel *)

Lemma select_rows_incl (rws : list (list cell)) (mask : list bool) :
  incl (select_rows rws mask) rws.
Proof.
  revert mask. induction rws as [| r rws IH]; intros [| b mask] x Hx;
    simpl in Hx; try contradiction.
  destruct b; [destruct Hx as [<- | Hx]; [now left |] |];
    right; now apply (IH mask).
Qed.

Lemma govt_rows_kernel_free (k : list cell -> list nat) (df : DataFrame)
  (flag : string) :
  argsort_spec k ->
  uniform_column df "LASTDEMAND" = true ->
  distinct_keys df "LASTDEMAND" ->
  govt_rows k df flag = govt_rows stable_argsort df flag.
Proof.
  intros Hk Huni Hdist. unfold govt_rows.
  destruct (getitem df "ISGOVTCAN") as [col |]; [| reflexivity].
  cbn [rbind].
  destruct (get_loc (columns df) "LASTDEMAND") as [i |] eqn:Hi.
  - apply (sort_values_kernel_free k stable_argsort
             (boolean_index df (eq_mask col flag)) "LASTDEMAND" i Hk
             stable_argsort_ok Hi).
    + unfold uniform_column, getitem. cbn [boolean_index columns data].
      rewrite Hi. apply comparable_one_kind.
      eapply one_kind_incl; [| exact (uniform_column_kind df _ i Hi Huni)].
      intros c Hc. apply filter_In in Hc. destruct Hc as [Hc Hp].
      apply filter_In. split; [| assumption].
      apply in_map_iff in Hc. destruct Hc as [r [<- Hr]].
      apply (in_map (fun r => row_at r i)).
      exact (select_rows_incl _ _ r Hr).
    + cbn [boolean_index data]. intros r1 r2 H1 H2 H12 H21.
      apply Hdist;
        [exact (select_rows_incl _ _ r1 H1)
        | exact (select_rows_incl _ _ r2 H2) | |];
        unfold at_col; now rewrite Hi.
  - unfold sort_values, getitem. cbn [boolean_index columns].
    now rewrite Hi.
Qed.

Lemma single_workbook_kernel_free (k : list cell -> list nat)
  (df : DataFrame) :
  argsort_spec k ->
  uniform_column df "LASTDEMAND" = true ->
  distinct_keys df "LASTDEMAND" ->
  single_workbook k df = single_workbook stable_argsort df.
Proof.
  intros Hk Huni Hdist. unfold single_workbook, split_sheets.
  now rewrite !(govt_rows_kernel_free k df _ Hk Huni Hdist).
Qed.

Lemma single_row_distinct (df : DataFrame) (col : string) (r : list cell) :
  data df = [r] -> distinct_keys df col.
Proof.
  intros Hdata r1 r2. rewrite Hdata.
  now intros [<- | []] [<- | []] _ _.
Qed.

(** ** C7: column widths *)

(** C7 at a sheet with a boolean [False] under the one-letter label [F]:
    whatever the kernel, the width recorded for that column (letter [D]) is
    3, the header's length plus 2, while the longest rendered value of the
    column, [False], would give 7. *)
Theorem C7_false_cell_not_measured :
  (forall kernel, argsort_spec kernel ->
     single_workbook kernel bool_frame
     = single_workbook stable_argsort bool_frame) /\
  exists ws_yes ws_no,
    single_workbook stable_argsort bool_frame = Ok [ws_yes; ws_no] /\
    cell_value ws_yes 1 4 = XStr "F" /\
    cell_value ws_yes 2 4 = XBool false /\
    get_column_letter 4 = Ok "D" /\
    width_of (column_dimensions ws_yes) "D" = Some 3 /\
    spec_max_length ws_yes 4 + 2 = 7.
Proof.
  split.
  - intros kernel Hk. apply single_workbook_kernel_free;
      [assumption | reflexivity |].
    now apply (single_row_distinct _ _ [CStr "Yes"; CNum 1; CNum 100;
                                        CBool false]).
  - do 2 eexists. split; [vm_compute; reflexivity |].
    repeat split; vm_compute; reflexivity.
Qed.

Lemma list_max_ge (l : list nat) (x : nat) : In x l -> x <= list_max l.
Proof.
  intros Hin. pose proof (proj1 (list_max_le l (list_max l)) (Nat.le_refl _))
    as Hall.
  rewrite Forall_forall in Hall. now apply Hall.
Qed.

(** X1.  Where no cell of the column is the boolean [False] and the header
    is a non-empty text, the loop measures what the specification words: the
    largest length of a rendered cell value of the column, header included,
    an empty or missing cell counting as the empty text. *)
Lemma max_length_agrees (ws : Worksheet) (col_idx : nat) (label : string) :
  1 <= max_row ws ->
  cell_value ws 1 col_idx = XStr label -> label <> "" ->
  (forall row, cell_value ws row col_idx <> XBool false) ->
  max_length ws col_idx = spec_max_length ws col_idx.
Proof.
  intros Hrows Hhead Hlabel Hbool.
  set (code_len := fun v => String.length (py_str (or_empty v))).
  assert (forall v, v <> XBool false ->
            code_len v <= spec_length v /\
            spec_length v <= Nat.max (code_len v) 1) as Hpoint.
  { intros v Hv. unfold code_len, or_empty.
    destruct v as [| z | s | [|]]; simpl; try lia; try congruence.
    - destruct (Z.eqb_spec z 0) as [-> | _]; simpl; [vm_compute |]; lia.
    - destruct (String.eqb_spec s "") as [-> | _]; simpl; lia. }
  assert (1 <= max_length ws col_idx) as Hone.
  { eapply Nat.le_trans; [| apply list_max_ge; apply in_map_iff; exists 1;
                             split; [reflexivity | apply in_seq; lia]].
    rewrite Hhead. unfold or_empty. simpl.
    destruct (String.eqb_spec label "") as [-> | _]; [congruence |].
    destruct label; simpl; [congruence | lia]. }
  apply Nat.le_antisymm; apply list_max_le, Forall_forall;
    intros n Hn; apply in_map_iff in Hn; destruct Hn as [row [<- Hrow]].
  - eapply Nat.le_trans; [apply (Hpoint _ (Hbool row)) |].
    apply list_max_ge. apply in_map_iff. now exists row.
  - eapply Nat.le_trans; [apply (Hpoint _ (Hbool row)) |].
    apply Nat.max_lub; [| exact Hone].
    apply list_max_ge. apply in_map_iff. now exists row.
Qed.

(** ** Steps that return *)

Section Steps.

Variable kernel : list cell -> list nat.
Variable fails : nat -> bool.

Lemma bind_Ok {A B : Type} (m : M A) (k : A -> M B) (w w' : World) (b : B) :
  bind m k w = (Ok b, w') ->
  exists a w1, m w = (Ok a, w1) /\ k a w1 = (Ok b, w').
Proof.
  unfold bind. destruct (m w) as [[a | e] w1]; [| discriminate].
  intros H. now exists a, w1.
Qed.






Lemma written_prefix_all (sheets : list (string * DataFrame)) (wb : Workbook) :
  write_sheets sheets = Ok wb -> written_prefix sheets = wb.
Proof.
  revert wb. induction sheets as [| [name df] sheets IH]; intros wb;
    cbn [write_sheets written_prefix].
  - now intros [= <-].
  - destruct (to_excel df name) as [ws |]; cbn [rbind]; [| discriminate].
    destruct (write_sheets sheets) as [wb' |]; cbn [rbind]; [| discriminate].
    intros [= <-]. now rewrite (IH wb').
Qed.






Lemma path_eqb_refl (p : path) : path_eqb p p = true.
Proof. now destruct p. Qed.



End Steps.

(** ** What a route answers *)

Section Routes.

Variable kernel : list cell -> list nat.
Variable fails : nat -> bool.

Lemma ignore_errors_returns (m : M unit) (w : World) :
  exists w', ignore_errors m w = (Ok tt, w').
Proof.
  unfold ignore_errors, try_except, ret.
  destruct (m w) as [[[] | e] w']; eexists; reflexivity.
Qed.

Lemma cleanup_returns (paths : list path) (w : World) :
  exists w', cleanup fails paths w = (Ok tt, w').
Proof.
  revert w. induction paths as [| p paths IH]; intros w; cbn [cleanup].
  - eexists. reflexivity.
  - unfold bind.
    destruct (ignore_errors_returns (unlink_if_exists fails p) w) as [w1 ->].
    apply IH.
Qed.





End Routes.

(** ** Runs without a failing call *)

Section NoFaults.

Variable kernel : list cell -> list nat.
Variable fails : nat -> bool.
Hypothesis no_faults : forall n, fails n = false.

Lemma bind_run {A B : Type} (m : M A) (k : A -> M B) (w w1 : World) (a : A) :
  m w = (Ok a, w1) -> bind m k w = k a w1.
Proof. unfold bind. now intros ->. Qed.

Lemma syscall_run {A : Type} (damage : World -> World) (op : M A) (w : World) :
  syscall fails damage op w = op (tick w).
Proof. unfold syscall. now rewrite no_faults. Qed.

Lemma named_temporary_file_run (p : path) (w : World) :
  exists w', named_temporary_file fails p w = (Ok tt, w') /\
             wrote w w' p Blank.
Proof.
  unfold named_temporary_file. rewrite syscall_run.
  eexists. split; [reflexivity | intros q; reflexivity].
Qed.

Lemma save_upload_run (file : FileStorage) (p : path) (w : World) :
  exists w', save_upload fails file p w = (Ok tt, w') /\
             wrote w w' p (stream file).
Proof.
  unfold save_upload. rewrite syscall_run.
  eexists. split; [reflexivity | intros q; reflexivity].
Qed.

Lemma read_csv_run (p : path) (w : World) (df : DataFrame) :
  fs w p = Some (CsvText df) ->
  exists w', read_csv fails p w = (Ok df, w') /\ same_files w w'.
Proof.
  intros Hp. unfold read_csv. rewrite syscall_run. cbn [tick fs].
  rewrite Hp. eexists. split; [reflexivity | intros q; reflexivity].
Qed.

Lemma excel_writer_run (p : path) (sheets : list (string * DataFrame))
  (wb : Workbook) (w : World) :
  write_sheets sheets = Ok wb ->
  exists w', excel_writer fails p sheets w = (Ok tt, w') /\
             wrote w w' p (XlsxBytes wb).
Proof.
  intros Hwb. unfold excel_writer, bind. rewrite syscall_run.
  unfold lift. rewrite Hwb, (written_prefix_all sheets wb Hwb).
  eexists. split; [reflexivity | intros q; reflexivity].
Qed.

Lemma load_workbook_run (p : path) (w : World) (wb : Workbook) :
  fs w p = Some (XlsxBytes wb) ->
  exists w', load_workbook fails p w = (Ok wb, w') /\ same_files w w'.
Proof.
  intros Hp. unfold load_workbook. rewrite syscall_run. cbn [tick fs].
  rewrite Hp. eexists. split; [reflexivity | intros q; reflexivity].
Qed.

Lemma save_workbook_run (wb : Workbook) (p : path) (w : World) :
  exists w', save_workbook fails wb p w = (Ok tt, w') /\
             wrote w w' p (XlsxBytes wb).
Proof.
  unfold save_workbook. rewrite syscall_run.
  eexists. split; [reflexivity | intros q; reflexivity].
Qed.

Lemma zip_write_run (p : path) (arcname : string) (w : World) (b : bytes) :
  fs w p = Some b ->
  exists w', zip_write fails p arcname w = (Ok (arcname, b), w') /\
             same_files w w'.
Proof.
  intros Hp. unfold zip_write, bind, read_bytes. rewrite syscall_run.
  cbn [tick fs]. rewrite Hp.
  eexists. split; [reflexivity | intros q; reflexivity].
Qed.

(** Use a step that returns: name its world and go on with the rest. *)
Ltac run_step lem w1 Hw1 :=
  let Hrun := fresh "Hrun" in
  destruct lem as [w1 [Hrun Hw1]];
  rewrite (bind_run _ _ _ _ _ Hrun); clear Hrun.

Lemma process_and_format_run (file_path output_file : path) (w : World)
  (df : DataFrame) (wb : Workbook) :
  fs w file_path = Some (CsvText df) ->
  single_workbook kernel df = Ok wb ->
  exists w', process_and_format kernel fails file_path output_file w
             = (Ok tt, w') /\
             wrote w w' output_file (XlsxBytes wb).
Proof.
  intros Hin Hbook. unfold single_workbook in Hbook.
  destruct (split_sheets kernel df) as [sheets |] eqn:Hsplit;
    cbn [rbind] in Hbook; [| discriminate].
  destruct (write_sheets sheets) as [wb0 |] eqn:Hwb0;
    cbn [rbind] in Hbook; [| discriminate].
  unfold process_and_format.
  run_step (read_csv_run file_path w df Hin) w1 Hw1.
  unfold lift at 1. unfold bind at 1. rewrite Hsplit.
  run_step (excel_writer_run output_file sheets wb0 w1 Hwb0) w2 Hw2.
  assert (fs w2 output_file = Some (XlsxBytes wb0)) as Hout
    by (now rewrite Hw2, path_eqb_refl).
  run_step (load_workbook_run output_file w2 wb0 Hout) w3 Hw3.
  unfold lift at 1. unfold bind at 1. rewrite Hbook.
  destruct (save_workbook_run wb output_file w3) as [w4 [Hrun Hw4]].
  exists w4. split; [exact Hrun |].
  intros q. rewrite Hw4, Hw3, Hw2, Hw1.
  now destruct (path_eqb q output_file).
Qed.

Lemma process_combined_files_run (file_a_path file_b_path output_file : path)
  (w : World) (df_a df_b : DataFrame) (wb : Workbook) :
  fs w file_a_path = Some (CsvText df_a) ->
  fs w file_b_path = Some (CsvText df_b) ->
  combined_workbook df_a df_b = Ok wb ->
  exists w', process_combined_files fails file_a_path file_b_path output_file w
             = (Ok tt, w') /\
             wrote w w' output_file (XlsxBytes wb).
Proof.
  intros Ha Hb Hbook. unfold combined_workbook in Hbook.
  destruct (write_sheets [("Combined", combined_frame df_a df_b)])
    as [wb0 |] eqn:Hwb0; cbn [rbind] in Hbook; [| discriminate].
  unfold process_combined_files.
  run_step (read_csv_run file_a_path w df_a Ha) w1 Hw1.
  assert (fs w1 file_b_path = Some (CsvText df_b)) as Hb1
    by (now rewrite Hw1).
  run_step (read_csv_run file_b_path w1 df_b Hb1) w2 Hw2.
  run_step (excel_writer_run output_file _ wb0 w2 Hwb0) w3 Hw3.
  assert (fs w3 output_file = Some (XlsxBytes wb0)) as Hout
    by (now rewrite Hw3, path_eqb_refl).
  run_step (load_workbook_run output_file w3 wb0 Hout) w4 Hw4.
  unfold lift at 1. unfold bind at 1. rewrite Hbook.
  destruct (save_workbook_run wb output_file w4) as [w5 [Hrun Hw5]].
  exists w5. split; [exact Hrun |].
  intros q. rewrite Hw5, Hw4, Hw3, Hw2, Hw1.
  now destruct (path_eqb q output_file).
Qed.

Lemma allowed_file_nonempty (name : string) :
  allowed_file name = true -> String.eqb name "" = false.
Proof. now destruct name. Qed.

(** The combined route on two accepted uploads whose three workbooks can
    be made: the archive of the three, in order. *)
Lemma process_combined_run (request : Request) (w : World)
  (file_a file_b : FileStorage) (df_a df_b : DataFrame)
  (wb_a wb_b wb_c : Workbook) :
  lookup "file_a" (files request) = Some file_a ->
  lookup "file_b" (files request) = Some file_b ->
  allowed_file (filename file_a) = true ->
  allowed_file (filename file_b) = true ->
  stream file_a = CsvText df_a ->
  stream file_b = CsvText df_b ->
  single_workbook kernel df_a = Ok wb_a ->
  single_workbook kernel df_b = Ok wb_b ->
  combined_workbook df_a df_b = Ok wb_c ->
  exists w',
    process_combined kernel fails request w
    = (Ok (SendFile "processed_files.zip" "application/zip"
             (Archive
                [("Unbilled_CAT_A.xlsx", XlsxBytes wb_a);
                 ("Unbilled_CAT_B.xlsx", XlsxBytes wb_b);
                 ("Unbilled_CAT_A_and_B_Combined.xlsx", XlsxBytes wb_c)])),
       w').
Proof.
  intros Hfa Hfb Hna Hnb Hsa Hsb Hba Hbb Hbc.
  unfold process_combined. rewrite Hfa, Hfb.
  rewrite (allowed_file_nonempty _ Hna), (allowed_file_nonempty _ Hnb).
  rewrite Hna, Hnb. cbn [orb andb]. unfold try_except.
  run_step (named_temporary_file_run temp_a_path w) w1 Hw1.
  run_step (save_upload_run file_a temp_a_path w1) w2 Hw2.
  run_step (named_temporary_file_run temp_b_path w2) w3 Hw3.
  run_step (save_upload_run file_b temp_b_path w3) w4 Hw4.
  run_step (named_temporary_file_run temp_out_a_path w4) w5 Hw5.
  run_step (named_temporary_file_run temp_out_b_path w5) w6 Hw6.
  run_step (named_temporary_file_run temp_combined_path w6) w7 Hw7.
  assert (fs w7 temp_a_path = Some (CsvText df_a)) as Ha7
    by (rewrite Hw7, Hw6, Hw5, Hw4, Hw3, Hw2; cbn [path_eqb]; congruence).
  assert (fs w7 temp_b_path = Some (CsvText df_b)) as Hb7
    by (rewrite Hw7, Hw6, Hw5, Hw4; cbn [path_eqb]; congruence).
  run_step (process_and_format_run temp_a_path temp_out_a_path w7 df_a wb_a
              Ha7 Hba) w8 Hw8.
  assert (fs w8 temp_b_path = Some (CsvText df_b)) as Hb8
    by (now rewrite Hw8).
  run_step (process_and_format_run temp_b_path temp_out_b_path w8 df_b wb_b
              Hb8 Hbb) w9 Hw9.
  assert (fs w9 temp_a_path = Some (CsvText df_a)) as Ha9
    by (now rewrite Hw9, Hw8).
  assert (fs w9 temp_b_path = Some (CsvText df_b)) as Hb9
    by (now rewrite Hw9).
  run_step (process_combined_files_run temp_a_path temp_b_path
              temp_combined_path w9 df_a df_b wb_c Ha9 Hb9 Hbc) w10 Hw10.
  assert (fs w10 temp_out_a_path = Some (XlsxBytes wb_a)) as Hoa
    by (now rewrite Hw10, Hw9, Hw8).
  run_step (zip_write_run temp_out_a_path "Unbilled_CAT_A.xlsx" w10 _ Hoa)
           w11 Hw11.
  assert (fs w11 temp_out_b_path = Some (XlsxBytes wb_b)) as Hob
    by (now rewrite Hw11, Hw10, Hw9).
  run_step (zip_write_run temp_out_b_path "Unbilled_CAT_B.xlsx" w11 _ Hob)
           w12 Hw12.
  assert (fs w12 temp_combined_path = Some (XlsxBytes wb_c)) as Hoc
    by (now rewrite Hw12, Hw11, Hw10).
  run_step (zip_write_run temp_combined_path
              "Unbilled_CAT_A_and_B_Combined.xlsx" w12 _ Hoc) w13 Hw13.
  destruct (cleanup_returns fails temp_files w13) as [w14 Hclean].
  rewrite (bind_run _ _ _ _ _ Hclean).
  eexists. reflexivity.
Qed.



End NoFaults.

(** ** The content of the workbooks *)

Lemma get_column_letter_total (i : nat) :
  1 <= i -> (Z.of_nat i <= max_cols)%Z ->
  exists l, get_column_letter i = Ok l.
Proof.
  intros Hpos Hmax. unfold get_column_letter, max_cols in *.
  destruct (Nat.leb_spec 1 i); [| lia].
  destruct (N.leb_spec (N.of_nat i) 18278); [| lia].
  eexists. reflexivity.
Qed.

Lemma style_columns_total (idxs : list nat) :
  Forall (fun i => 1 <= i /\ (Z.of_nat i <= max_cols)%Z) idxs ->
  forall ws, exists ws', style_columns ws idxs = Ok ws'.
Proof.
  induction 1 as [| i idxs [Hpos Hmax] _ IH]; intros ws;
    cbn [style_columns].
  - now exists ws.
  - unfold style_column.
    destruct (get_column_letter_total i Hpos Hmax) as [l ->].
    cbn [rbind]. apply IH.
Qed.

Lemma to_excel_total (df : DataFrame) (name : string) :
  within_sheet_limits df ->
  to_excel df name
  = Ok (mkSheet name
          (map written_header (columns df)
           :: map (map written_cell) (data df)) []).
Proof.
  intros [Hrows Hcols]. unfold to_excel.
  remember (Z.to_nat (max_rows - 1)) as n eqn:Hn.
  destruct (Z.ltb_spec max_rows (Z.of_nat (List.length (data df))));
    [lia |].
  destruct (Z.ltb_spec max_cols (Z.of_nat (List.length (columns df))));
    [lia |].
  cbn [orb]. rewrite firstn_all2; [reflexivity |].
  unfold max_rows in *. lia.
Qed.

(** A frame within the limits is written and styled, and the sheet holds
    the frame's labels and values under the given name. *)
Lemma written_styled_total (df : DataFrame) (name : string) :
  within_sheet_limits df ->
  exists ws ws',
    to_excel df name = Ok ws /\ title ws = name /\
    style_sheet ws = Ok ws' /\
    title ws' = name /\ sheet_values ws' = frame_values df.
Proof.
  intros Hfit. pose proof (to_excel_total df name Hfit) as Hw.
  destruct (style_columns_total
              (seq 1 (List.length (columns df)))) with
    (ws := mkSheet name
             (map written_header (columns df)
              :: map (map written_cell) (data df)) [])
    as [ws' Hs].
  { apply Forall_forall. intros i Hi. apply in_seq in Hi.
    destruct Hfit as [_ Hcols]. lia. }
  eexists. exists ws'. split; [exact Hw |]. split; [reflexivity |].
  assert (style_sheet
            (mkSheet name
               (map written_header (columns df)
                :: map (map written_cell) (data df)) []) = Ok ws') as Hstyle.
  { unfold style_sheet. cbn [rows hd]. now rewrite length_map. }
  split; [exact Hstyle |].
  destruct (written_sheet_styled df name _ ws' Hw Hstyle) as [_ [Ht Hv]].
  split; [exact Ht |]. rewrite Hv.
  unfold sheet_values, frame_values. cbn [rows map].
  rewrite !map_map. f_equal.
  apply map_ext. intros r. now rewrite map_map.
Qed.

Lemma filter_length_le {A : Type} (f : A -> bool) (l : list A) :
  List.length (filter f l) <= List.length l.
Proof.
  induction l as [| x l IH]; simpl; [lia |].
  destruct (f x); simpl; lia.
Qed.

Section WorkbookFacts.

Variable kernel : list cell -> list nat.
Hypothesis kernel_ok : argsort_spec kernel.

(** Lines 37-38 in full: the rows with the flag, in descending order. *)
Lemma govt_rows_sorted (df : DataFrame) (flag : string) (i : nat) :
  check_required df = Ok tt ->
  get_loc (columns df) "LASTDEMAND" = Some i ->
  uniform_column df "LASTDEMAND" = true ->
  exists out, govt_rows kernel df flag = Ok out /\
    columns out = columns df /\
    Permutation (data out) (flagged df flag) /\
    sorted_descending i (data out).
Proof.
  intros Hreq Hi Huni.
  destruct (get_loc_In (columns df) "ISGOVTCAN") as [f Hf].
  { apply (proj1 (check_required_Ok df) Hreq). simpl. tauto. }
  unfold govt_rows, getitem, flagged, at_col. rewrite Hf. cbn [rbind].
  unfold boolean_index. rewrite select_rows_filter.
  set (part := mkFrame (columns df)
                 (filter (fun r => cell_eq_str (row_at r f) flag) (data df))).
  assert (one_kind (filter present (map (fun r => row_at r i) (data part))))
    as Hkind.
  { eapply one_kind_incl; [| exact (uniform_column_kind df _ i Hi Huni)].
    intros c Hc. apply filter_In in Hc. destruct Hc as [Hc Hp].
    apply filter_In. split; [| assumption].
    apply in_map_iff in Hc. destruct Hc as [r [<- Hr]].
    apply (in_map (fun r => row_at r i)). now apply filter_In in Hr. }
  destruct (sort_values_rows kernel kernel_ok part "LASTDEMAND" i Hi Hkind)
    as [front [Hsort [Hperm Hsorted]]].
  eexists. split; [exact Hsort |]. split; [reflexivity |]. cbn [data].
  split.
  - rewrite Hperm, Permutation_app_comm.
    apply (filter_split_perm (fun r => isna (row_at r i))).
  - exists front, (filter (fun r => isna (row_at r i)) (data part)).
    split; [reflexivity |]. split; [exact Hsorted |]. split.
    + apply Forall_forall. intros r Hr.
      apply (Permutation_in _ Hperm) in Hr. apply filter_In in Hr.
      destruct Hr as [_ Hp]. unfold present in Hp.
      now apply negb_true_iff in Hp.
    + apply Forall_forall. intros r Hr. now apply filter_In in Hr.
Qed.

(** The workbook of one category exists and is as described. *)
Lemma single_workbook_total (df : DataFrame) :
  check_required df = Ok tt ->
  uniform_column df "LASTDEMAND" = true ->
  within_sheet_limits df ->
  exists wb, single_workbook kernel df = Ok wb /\
             split_workbook kernel df wb.
Proof.
  intros Hreq Huni [Hrows Hcols].
  destruct (get_loc_In (columns df) "LASTDEMAND") as [i Hi].
  { apply (proj1 (check_required_Ok df) Hreq). simpl. tauto. }
  destruct (govt_rows_sorted df "Yes" i Hreq Hi Huni)
    as [df_yes [Hy [Hcy [Hpy Hsy]]]].
  destruct (govt_rows_sorted df "No" i Hreq Hi Huni)
    as [df_no [Hn [Hcn [Hpn Hsn]]]].
  assert (forall out flag, columns out = columns df ->
            Permutation (data out) (flagged df flag) ->
            within_sheet_limits out) as Hfit.
  { intros out flag Hc Hp. split; [| now rewrite Hc].
    apply Permutation_length in Hp. rewrite Hp. unfold flagged.
    pose proof (filter_length_le
                  (fun r => cell_eq_str (at_col df "ISGOVTCAN" r) flag)
                  (data df)). lia. }
  destruct (written_styled_total df_yes "GovtCAN_Yes" (Hfit _ _ Hcy Hpy))
    as [ws_y [ws_y' [Hwy [Hty [Hsty [Hty' Hvy]]]]]].
  destruct (written_styled_total df_no "GovtCAN_No" (Hfit _ _ Hcn Hpn))
    as [ws_n [ws_n' [Hwn [Htn [Hstn [Htn' Hvn]]]]]].
  exists [ws_y'; ws_n']. split.
  - unfold single_workbook, split_sheets. rewrite Hreq, Hy, Hn.
    cbn [rbind write_sheets]. rewrite Hwy, Hwn. cbn [rbind].
    unfold sheet_names. cbn [style_sheets style_named].
    rewrite Hty, String.eqb_refl, Hsty. cbn [rbind style_named].
    rewrite Hty'.
    change (String.eqb "GovtCAN_Yes" "GovtCAN_No") with false.
    cbn [style_named]. rewrite Htn, String.eqb_refl, Hstn. reflexivity.
  - exists df_yes, df_no, i. cbn [map].
    rewrite Hty', Htn', Hvy, Hvn. repeat split; assumption.
Qed.

End WorkbookFacts.

Lemma tagged_rows_map (df_a df_b df : DataFrame) (label : string) :
  wf_frame df ->
  (forall c, In c (columns df) -> In c (columns (combined_frame df_a df_b))) ->
  tagged_rows (combined_frame df_a df_b) df label
    (map (reindex (columns (setitem df "HCC Type" (CStr label)))
            (columns (combined_frame df_a df_b)))
         (map (set_row df "HCC Type" (CStr label)) (data df))).
Proof.
  intros [_ [_ Hrows]] Hcols. unfold tagged_rows. rewrite map_map.
  induction Hrows as [| r rws Hlen _ IH]; cbn [map]; constructor;
    [| exact IH].
  destruct (combined_row_cells df_a df_b df (CStr label) r Hlen)
    as [Htag Hcells].
  split; [exact Htag |].
  intros c Hc Hne. apply Hcells; [now apply Hcols | assumption | assumption].
Qed.

(** The combined workbook exists and is as described. *)
Lemma combined_workbook_total (df_a df_b : DataFrame) :
  wf_frame df_a -> wf_frame df_b ->
  within_sheet_limits (combined_frame df_a df_b) ->
  exists wb, combined_workbook df_a df_b = Ok wb /\
             combined_book df_a df_b wb.
Proof.
  intros Ha Hb Hfit.
  destruct (written_styled_total (combined_frame df_a df_b) "Combined" Hfit)
    as [ws [ws' [Hw [Ht [Hs [Ht' Hv]]]]]].
  exists [ws']. split.
  - unfold combined_workbook. cbn [write_sheets]. rewrite Hw.
    cbn [rbind style_named]. now rewrite Ht, String.eqb_refl, Hs.
  - unfold combined_book. cbn [map]. rewrite Ht', Hv.
    split; [reflexivity |]. split; [reflexivity |].
    eexists. eexists. split; [apply combined_data |]. split.
    + apply tagged_rows_map; [assumption |].
      intros c Hc. unfold combined_frame, concat. cbn [columns].
      apply union_columns_In. left. now apply setitem_keeps_column.
    + apply tagged_rows_map; [assumption |].
      intros c Hc. unfold combined_frame, concat. cbn [columns].
      apply union_columns_In. right. now apply setitem_keeps_column.
Qed.

(** ** Frames a sheet stores as they are *)

Lemma stored_nth (r : list cell) (i : nat) :
  forallb stored_as_is r = true -> stored_as_is (row_at r i) = true.
Proof.
  unfold row_at. revert i.
  induction r as [| c r IH]; intros [| i] H; cbn [nth]; try reflexivity;
    cbn [forallb] in H; apply andb_true_iff in H; destruct H as [Hc Hr].
  - exact Hc.
  - now apply IH.
Qed.

Lemma stored_set_nth (r : list cell) (i : nat) (v : cell) :
  stored_as_is v = true -> forallb stored_as_is r = true ->
  forallb stored_as_is (set_nth i v r) = true.
Proof.
  intros Hv. revert i.
  induction r as [| c r IH]; intros [| i] H; cbn [set_nth forallb];
    try reflexivity;
    cbn [forallb] in H; apply andb_true_iff in H; destruct H as [Hc Hr].
  - now rewrite Hv, Hr.
  - now rewrite Hc, IH.
Qed.

Lemma stored_setitem (df : DataFrame) (label : string) :
  stored_as_is (CStr label) = true ->
  stored_exactly df = true ->
  stored_exactly (setitem df "HCC Type" (CStr label)) = true.
Proof.
  intros Hv H. unfold stored_exactly in *.
  apply andb_true_iff in H. destruct H as [Hcols Hdata].
  unfold setitem.
  destruct (get_loc (columns df) "HCC Type") as [i |]; cbn [columns data].
  - rewrite Hcols. cbn [andb]. rewrite forallb_forall in *.
    intros r' Hr'. apply in_map_iff in Hr'. destruct Hr' as [r [<- Hr]].
    apply stored_set_nth; [exact Hv | now apply Hdata].
  - rewrite forallb_app, Hcols. cbn [forallb andb].
    change (stored_label "HCC Type") with true. cbn [andb].
    rewrite forallb_forall in *.
    intros r' Hr'. apply in_map_iff in Hr'. destruct Hr' as [r [<- Hr]].
    rewrite forallb_app, (Hdata r Hr). cbn [forallb andb].
    now rewrite Hv.
Qed.

Lemma stored_reindex (cols new_cols : list string) (r : list cell) :
  forallb stored_as_is r = true ->
  forallb stored_as_is (reindex cols new_cols r) = true.
Proof.
  intros Hr. unfold reindex. apply forallb_forall.
  intros c Hc. apply in_map_iff in Hc. destruct Hc as [label [<- _]].
  destruct (get_loc cols label); [now apply stored_nth | reflexivity].
Qed.

(** The combined frame of two frames that a sheet stores as they are is of
    that sort too: its labels are theirs and [HCC Type], its cells are
    theirs, the two tags and missing values. *)
Lemma combined_stored_exactly (df_a df_b : DataFrame) :
  stored_exactly df_a = true -> stored_exactly df_b = true ->
  stored_exactly (combined_frame df_a df_b) = true.
Proof.
  intros Ha Hb. unfold combined_frame.
  pose proof (stored_setitem df_a "A" eq_refl Ha) as Ha'.
  pose proof (stored_setitem df_b "B" eq_refl Hb) as Hb'.
  set (a := setitem df_a "HCC Type" (CStr "A")) in *.
  set (b := setitem df_b "HCC Type" (CStr "B")) in *.
  unfold stored_exactly in *.
  apply andb_true_iff in Ha'. destruct Ha' as [Hca Hda].
  apply andb_true_iff in Hb'. destruct Hb' as [Hcb Hdb].
  unfold concat, union_columns. cbn [columns data].
  apply andb_true_iff. split.
  - rewrite forallb_app, Hca. cbn [andb]. rewrite forallb_forall in *.
    intros c Hc. apply filter_In in Hc. now apply Hcb.
  - rewrite forallb_app. apply andb_true_iff.
    rewrite !forallb_forall in *. split.
    + intros r' Hr'. apply in_map_iff in Hr'. destruct Hr' as [r [<- Hr]].
      apply stored_reindex. now apply Hda.
    + intros r' Hr'. apply in_map_iff in Hr'. destruct Hr' as [r [<- Hr]].
      apply stored_reindex. now apply Hdb.
Qed.

(** ** C8: the archive of the combined route *)

(** C8 (as the code has it).  For two accepted uploads that parse to frames
    with the required columns, whose labels and cells a sheet stores as they
    are ([stored_exactly]; the combined frame is then of that sort too,
    [combined_stored_exactly]), when no operating-system call fails, the
    combined route answers with the archive [processed_files.zip] of exactly
    three entries, [Unbilled_CAT_A.xlsx], [Unbilled_CAT_B.xlsx] and
    [Unbilled_CAT_A_and_B_Combined.xlsx], in that order.  The first two hold
    the sheets [GovtCAN_Yes] and [GovtCAN_No] with the rows flagged [Yes] and
    [No] in descending order of [LASTDEMAND] under the columns of the upload
    itself: no column is added, so [HCC Type] is there only when the upload
    has such a column.  The third holds one sheet, [Combined], with the rows
    of A tagged [A] followed by the rows of B tagged [B]. *)
Theorem C8_combined_archive (kernel : list cell -> list nat)
  (fails : nat -> bool) (request : Request) (w : World)
  (file_a file_b : FileStorage) (df_a df_b : DataFrame) :
  argsort_spec kernel ->
  (forall n, fails n = false) ->
  lookup "file_a" (files request) = Some file_a ->
  lookup "file_b" (files request) = Some file_b ->
  good_upload file_a df_a ->
  good_upload file_b df_b ->
  within_sheet_limits (combined_frame df_a df_b) ->
  exists wb_a wb_b wb_c w',
    process_combined kernel fails request w
    = (Ok (SendFile "processed_files.zip" "application/zip"
             (Archive
                [("Unbilled_CAT_A.xlsx", XlsxBytes wb_a);
                 ("Unbilled_CAT_B.xlsx", XlsxBytes wb_b);
                 ("Unbilled_CAT_A_and_B_Combined.xlsx", XlsxBytes wb_c)])),
       w') /\
    split_workbook kernel df_a wb_a /\
    split_workbook kernel df_b wb_b /\
    combined_book df_a df_b wb_c.
Proof.
  intros Hk Hnf Hfa Hfb [Hna [Hsa [Hwa [Hra [Hua [Hla _]]]]]]
    [Hnb [Hsb [Hwb [Hrb [Hub [Hlb _]]]]]] Hlc.
  destruct (single_workbook_total kernel Hk df_a Hra Hua Hla)
    as [wb_a [Hba Hpa]].
  destruct (single_workbook_total kernel Hk df_b Hrb Hub Hlb)
    as [wb_b [Hbb Hpb]].
  destruct (combined_workbook_total df_a df_b Hwa Hwb Hlc)
    as [wb_c [Hbc Hpc]].
  destruct (process_combined_run kernel fails Hnf request w file_a file_b
              df_a df_b wb_a wb_b wb_c Hfa Hfb Hna Hnb Hsa Hsb Hba Hbb Hbc)
    as [w' Hrun].
  exists wb_a, wb_b, wb_c, w'.
  split; [exact Hrun |]. split; [exact Hpa |]. split; [exact Hpb | exact Hpc].
Qed.

Lemma wf_lower_flag_frame : wf_frame lower_flag_frame.
Proof.
  split; [| split].
  - repeat constructor; simpl; intuition discriminate.
  - repeat constructor; discriminate.
  - repeat constructor.
Qed.

Ltac small_frame :=
  split; [vm_compute; reflexivity | vm_compute; discriminate].

Ltac accept_upload wf :=
  split; [reflexivity |]; split; [reflexivity |]; split; [exact wf |];
  split; [reflexivity |]; split; [reflexivity |];
  split; [small_frame | vm_compute; reflexivity].

Lemma C8_witness :
  exists wb_a wb_b wb_c w',
    process_combined stable_argsort no_fault sample_request empty_world
    = (Ok (SendFile "processed_files.zip" "application/zip"
             (Archive
                [("Unbilled_CAT_A.xlsx", XlsxBytes wb_a);
                 ("Unbilled_CAT_B.xlsx", XlsxBytes wb_b);
                 ("Unbilled_CAT_A_and_B_Combined.xlsx", XlsxBytes wb_c)])),
       w') /\
    split_workbook stable_argsort sample_frame wb_a /\
    split_workbook stable_argsort lower_flag_frame wb_b /\
    combined_book sample_frame lower_flag_frame wb_c.
Proof.
  apply (C8_combined_archive stable_argsort no_fault sample_request
           empty_world
           (mkUpload "cat_a.csv" (CsvText sample_frame))
           (mkUpload "cat_b.CSV" (CsvText lower_flag_frame))
           sample_frame lower_flag_frame stable_argsort_ok).
  - reflexivity.
  - reflexivity.
  - reflexivity.
  - accept_upload wf_sample_frame.
  - accept_upload wf_lower_flag_frame.
  - small_frame.
Defined.

(** C8 fails as stated: when the upload of category A has a column
    [HCC Type] of its own, both sheets of [Unbilled_CAT_A.xlsx] have that
    column, whatever the sorting kernel. *)
Lemma C8_counterexample :
  check_required tagged_frame = Ok tt /\
  check_required sample_frame = Ok tt /\
  (forall kernel, argsort_spec kernel ->
     exists wb_a rest w',
       process_combined kernel no_fault tagged_request empty_world
       = (Ok (SendFile "processed_files.zip" "application/zip"
                (Archive (("Unbilled_CAT_A.xlsx", XlsxBytes wb_a) :: rest))),
          w') /\
       wb_a <> [] /\
       Forall (fun ws => In (XStr "HCC Type") (hd [] (sheet_values ws)))
              wb_a).
Proof.
  split; [reflexivity |]. split; [reflexivity |].
  intros kernel Hk.
  destruct (single_workbook_total kernel Hk tagged_frame)
    as [wb_a [Hba Hpa]]; [reflexivity | reflexivity | small_frame |].
  destruct (single_workbook_total kernel Hk sample_frame)
    as [wb_b [Hbb Hpb]]; [reflexivity | reflexivity | small_frame |].
  destruct (combined_workbook_total tagged_frame sample_frame
              wf_tagged_frame wf_sample_frame)
    as [wb_c [Hbc Hpc]]; [small_frame |].
  destruct (process_combined_run kernel no_fault (fun _ => eq_refl)
              tagged_request empty_world
              (mkUpload "a.csv" (CsvText tagged_frame))
              (mkUpload "b.csv" (CsvText sample_frame))
              tagged_frame sample_frame wb_a wb_b wb_c)
    as [w' Hrun]; try reflexivity; try assumption.
  exists wb_a. eexists. exists w'. split; [exact Hrun |].
  destruct Hpa as [df_yes [df_no [i [_ [_ [_ [Hcy [Hcn [_ [_ [_ [_
                     [Htitles Hvalues]]]]]]]]]]]]].
  destruct wb_a as [| ws_y [| ws_n [| ? ?]]]; try discriminate.
  split; [discriminate |].
  cbn [map] in Hvalues. injection Hvalues as Hvy Hvn.
  apply Forall_cons; [| apply Forall_cons; [| apply Forall_nil]].
  - rewrite Hvy. unfold frame_values. cbn [hd]. rewrite Hcy.
    cbn. tauto.
  - rewrite Hvn. unfold frame_values. cbn [hd]. rewrite Hcn.
    cbn. tauto.
Qed.

(** ** The download of the single route *)



Lemma max_length_agrees_witness :
  max_length zero_sheet 1 = spec_max_length zero_sheet 1.
Proof.
  apply (max_length_agrees zero_sheet 1 "AB").
  - cbn. lia.
  - reflexivity.
  - discriminate.
  - intros [| [| [| [| row]]]]; cbn; try discriminate.
    destruct row; cbn; discriminate.
Defined.

(** ** Accepted file names *)

Lemma after_last_dot_None (s : string) :
  after_last_dot s = None <-> contains_dot s = false.
Proof.
  induction s as [| c s IH]; cbn [after_last_dot contains_dot].
  - tauto.
  - destruct (after_last_dot s) as [ext |].
    + split; [discriminate |]. intros H. apply orb_false_iff in H.
      destruct H as [_ H]. apply IH in H. discriminate.
    + destruct (Ascii.eqb c "."); cbn [orb].
      * split; discriminate.
      * split; [intros _; now apply IH | reflexivity].
Qed.

Lemma after_last_dot_Some (s ext : string) :
  after_last_dot s = Some ext <->
  exists stem, s = (stem ++ "." ++ ext)%string /\ contains_dot ext = false.
Proof.
  split.
  - revert ext. induction s as [| c s IH]; intros ext;
      cbn [after_last_dot]; [discriminate |].
    destruct (after_last_dot s) as [e |] eqn:Hs.
    + intros [= <-]. destruct (IH e eq_refl) as [stem [-> Hdot]].
      now exists (String c stem).
    + destruct (Ascii.eqb_spec c ".") as [-> | _]; [| discriminate].
      intros [= <-]. exists EmptyString.
      split; [reflexivity | now apply after_last_dot_None].
  - intros [stem [-> Hdot]].
    induction stem as [| c stem IH].
    + change (after_last_dot (String "." ext) = Some ext).
      cbn [after_last_dot].
      now rewrite (proj2 (after_last_dot_None ext) Hdot).
    + change (after_last_dot (String c (stem ++ "." ++ ext)%string) = Some ext).
      cbn [after_last_dot]. now rewrite IH.
Qed.

(** X3.  [allowed_file] accepts exactly the names that end in a dot
    followed by [csv] in any mix of upper and lower case: only what follows
    the last dot counts, and a name without a dot is refused. *)
Theorem allowed_file_iff (name : string) :
  allowed_file name = true <->
  exists stem ext,
    name = (stem ++ "." ++ ext)%string /\
    contains_dot ext = false /\
    lower ext = "csv".
Proof.
  unfold allowed_file, ALLOWED_EXTENSIONS. split.
  - destruct (after_last_dot name) as [ext |] eqn:Hext; [| discriminate].
    cbn [existsb]. rewrite orb_false_r. intros Hcsv.
    apply String.eqb_eq in Hcsv.
    apply after_last_dot_Some in Hext. destruct Hext as [stem [-> Hdot]].
    now exists stem, ext.
  - intros [stem [ext [-> [Hdot Hcsv]]]].
    rewrite (proj2 (after_last_dot_Some _ ext)) by now exists stem.
    cbn [existsb]. now rewrite Hcsv.
Qed.

(** ** What the steps keep *)

Section Keeps.

Variable P : World -> World -> Prop.
Hypothesis P_refl : forall w, P w w.
Hypothesis P_trans : forall w1 w2 w3, P w1 w2 -> P w2 w3 -> P w1 w3.

Lemma keeps_ret {A : Type} (a : A) : keeps P (ret a).
Proof. intros w. apply P_refl. Qed.

Lemma keeps_lift {A : Type} (r : result A) : keeps P (lift r).
Proof. intros w. apply P_refl. Qed.

Lemma keeps_bind {A B : Type} (m : M A) (k : A -> M B) :
  keeps P m -> (forall a, keeps P (k a)) -> keeps P (bind m k).
Proof.
  intros Hm Hk w. unfold bind. specialize (Hm w).
  destruct (m w) as [[a | e] w1]; cbn [snd] in *; [| exact Hm].
  apply P_trans with w1; [exact Hm | apply Hk].
Qed.

Lemma keeps_try_except {A : Type} (body : M A) (handler : exn -> M A) :
  keeps P body -> (forall e, keeps P (handler e)) ->
  keeps P (try_except body handler).
Proof.
  intros Hb Hh w. unfold try_except. specialize (Hb w).
  destruct (body w) as [[a | e] w1]; cbn [snd] in *; [exact Hb |].
  apply P_trans with w1; [exact Hb | apply Hh].
Qed.

Variable kernel : list cell -> list nat.
Variable fails : nat -> bool.

(** The paths a step may write or remove. *)
Variable may : path -> Prop.
Hypothesis P_tick : forall w, P w (tick w).
Hypothesis P_write : forall w p b, may p -> P w (write_file w p b).
Hypothesis P_remove : forall w p, may p -> P w (remove_file w p).

Lemma keeps_syscall {A : Type} (damage : World -> World) (op : M A) :
  (forall w, P w (damage w)) -> keeps P op ->
  keeps P (syscall fails damage op).
Proof.
  intros Hd Hop w. unfold syscall. destruct (fails (clock w)); cbn [snd].
  - apply P_trans with (tick w); [apply P_tick | apply Hd].
  - apply P_trans with (tick w); [apply P_tick | apply Hop].
Qed.

Lemma keeps_named_temporary_file (p : path) :
  may p -> keeps P (named_temporary_file fails p).
Proof.
  intros Hp. apply keeps_syscall; [apply P_refl |].
  intros w. now apply P_write.
Qed.

Lemma keeps_save_upload (file : FileStorage) (p : path) :
  may p -> keeps P (save_upload fails file p).
Proof.
  intros Hp. apply keeps_syscall; intros w; now apply P_write.
Qed.

Lemma keeps_read_csv (p : path) : keeps P (read_csv fails p).
Proof.
  apply keeps_syscall; [apply P_refl |].
  intros w. destruct (fs w p) as [[df | wb | |] |]; apply P_refl.
Qed.

Lemma keeps_excel_writer (p : path) (sheets : list (string * DataFrame)) :
  may p -> keeps P (excel_writer fails p sheets).
Proof.
  intros Hp. unfold excel_writer. apply keeps_bind.
  - apply keeps_syscall; intros w; now apply P_write.
  - intros _. apply keeps_lift.
Qed.

Lemma keeps_load_workbook (p : path) : keeps P (load_workbook fails p).
Proof.
  apply keeps_syscall; [apply P_refl |].
  intros w. destruct (fs w p) as [[df | wb | |] |]; apply P_refl.
Qed.

Lemma keeps_save_workbook (wb : Workbook) (p : path) :
  may p -> keeps P (save_workbook fails wb p).
Proof.
  intros Hp. apply keeps_syscall; intros w; now apply P_write.
Qed.

Lemma keeps_read_bytes (p : path) : keeps P (read_bytes fails p).
Proof.
  apply keeps_syscall; [apply P_refl |].
  intros w. destruct (fs w p) as [b |]; apply P_refl.
Qed.

Lemma keeps_unlink_if_exists (p : path) :
  may p -> keeps P (unlink_if_exists fails p).
Proof.
  intros Hp w. unfold unlink_if_exists.
  destruct (fs w p) as [b |]; [| apply P_refl].
  apply keeps_syscall; [apply P_refl |].
  intros w'. now apply P_remove.
Qed.

Lemma keeps_ignore_errors (m : M unit) :
  keeps P m -> keeps P (ignore_errors m).
Proof.
  intros Hm. apply keeps_try_except; [exact Hm |].
  intros e. apply keeps_ret.
Qed.

Lemma keeps_zip_write (p : path) (arcname : string) :
  keeps P (zip_write fails p arcname).
Proof.
  apply keeps_bind; [apply keeps_read_bytes |].
  intros b. apply keeps_ret.
Qed.

Lemma keeps_cleanup (paths : list path) :
  Forall may paths -> keeps P (cleanup fails paths).
Proof.
  induction 1 as [| p paths Hp _ IH]; cbn [cleanup].
  - apply keeps_ret.
  - apply keeps_bind; [| intros _; exact IH].
    apply keeps_ignore_errors. now apply keeps_unlink_if_exists.
Qed.

Lemma keeps_process_and_format (file_path output_file : path) :
  may output_file ->
  keeps P (process_and_format kernel fails file_path output_file).
Proof.
  intros Hout. unfold process_and_format.
  apply keeps_bind; [apply keeps_read_csv | intros df].
  apply keeps_bind; [apply keeps_lift | intros sheets].
  apply keeps_bind; [now apply keeps_excel_writer | intros _].
  apply keeps_bind; [apply keeps_load_workbook | intros wb].
  apply keeps_bind; [apply keeps_lift | intros wb'].
  now apply keeps_save_workbook.
Qed.

Lemma keeps_process_combined_files (file_a_path file_b_path output_file : path) :
  may output_file ->
  keeps P (process_combined_files fails file_a_path file_b_path output_file).
Proof.
  intros Hout. unfold process_combined_files.
  apply keeps_bind; [apply keeps_read_csv | intros df_a].
  apply keeps_bind; [apply keeps_read_csv | intros df_b].
  apply keeps_bind; [now apply keeps_excel_writer | intros _].
  apply keeps_bind; [apply keeps_load_workbook | intros wb].
  apply keeps_bind; [apply keeps_lift | intros wb'].
  now apply keeps_save_workbook.
Qed.

Lemma keeps_process_single (request : Request) :
  Forall may single_temp_files ->
  keeps P (process_single kernel fails request).
Proof.
  intros Hmay. unfold single_temp_files in Hmay.
  inversion Hmay as [| ? ? Hin Hrest]; subst.
  inversion Hrest as [| ? ? Hout _]; subst.
  unfold process_single.
  destruct (lookup "file" (files request)) as [file |]; [| apply keeps_ret].
  destruct (String.eqb (filename file) ""); [apply keeps_ret |].
  destruct (allowed_file (filename file)); [| apply keeps_ret].
  assert (keeps P (ignore_errors
                     (bind (unlink_if_exists fails temp_input_path)
                        (fun _ => unlink_if_exists fails temp_output_path))))
    as Hclean.
  { apply keeps_ignore_errors. apply keeps_bind;
      [now apply keeps_unlink_if_exists |
       intros _; now apply keeps_unlink_if_exists]. }
  apply keeps_try_except.
  - apply keeps_bind; [now apply keeps_named_temporary_file | intros _].
    apply keeps_bind; [now apply keeps_save_upload | intros _].
    apply keeps_bind; [now apply keeps_named_temporary_file | intros _].
    apply keeps_bind; [now apply keeps_process_and_format | intros _].
    apply keeps_bind; [apply keeps_read_bytes | intros file_data].
    apply keeps_bind; [exact Hclean | intros _]. apply keeps_ret.
  - intros e. apply keeps_bind; [exact Hclean | intros _]. apply keeps_ret.
Qed.

Lemma keeps_process_combined (request : Request) :
  Forall may temp_files ->
  keeps P (process_combined kernel fails request).
Proof.
  intros Hmay. pose proof Hmay as Hall. unfold temp_files in Hmay.
  inversion Hmay as [| ? ? Ha H1]; subst.
  inversion H1 as [| ? ? Hb H2]; subst.
  inversion H2 as [| ? ? Hoa H3]; subst.
  inversion H3 as [| ? ? Hob H4]; subst.
  inversion H4 as [| ? ? Hc _]; subst.
  unfold process_combined.
  destruct (lookup "file_a" (files request)) as [file_a |];
    [| apply keeps_ret].
  destruct (lookup "file_b" (files request)) as [file_b |];
    [| apply keeps_ret].
  destruct (String.eqb (filename file_a) "" || String.eqb (filename file_b) "");
    [apply keeps_ret |].
  destruct (allowed_file (filename file_a) && allowed_file (filename file_b));
    [| apply keeps_ret].
  apply keeps_try_except.
  - apply keeps_bind; [now apply keeps_named_temporary_file | intros _].
    apply keeps_bind; [now apply keeps_save_upload | intros _].
    apply keeps_bind; [now apply keeps_named_temporary_file | intros _].
    apply keeps_bind; [now apply keeps_save_upload | intros _].
    apply keeps_bind; [now apply keeps_named_temporary_file | intros _].
    apply keeps_bind; [now apply keeps_named_temporary_file | intros _].
    apply keeps_bind; [now apply keeps_named_temporary_file | intros _].
    apply keeps_bind; [now apply keeps_process_and_format | intros _].
    apply keeps_bind; [now apply keeps_process_and_format | intros _].
    apply keeps_bind; [now apply keeps_process_combined_files | intros _].
    apply keeps_bind; [apply keeps_zip_write | intros entry_a].
    apply keeps_bind; [apply keeps_zip_write | intros entry_b].
    apply keeps_bind; [apply keeps_zip_write | intros entry_c].
    apply keeps_bind; [now apply keeps_cleanup | intros _]. apply keeps_ret.
  - intros e. apply keeps_bind; [now apply keeps_cleanup | intros _].
    apply keeps_ret.
Qed.

End Keeps.

(** ** Files a request may touch *)

Lemma path_eqb_eq (p q : path) : path_eqb p q = true -> p = q.
Proof. destruct p, q; simpl; congruence. Qed.

Lemma untouched_refl (may : path -> Prop) (w : World) :
  untouched_outside may w w.
Proof. intros q _. reflexivity. Qed.

Lemma untouched_trans (may : path -> Prop) (w1 w2 w3 : World) :
  untouched_outside may w1 w2 -> untouched_outside may w2 w3 ->
  untouched_outside may w1 w3.
Proof. intros H12 H23 q Hq. now rewrite H23, H12. Qed.

Lemma untouched_tick (may : path -> Prop) (w : World) :
  untouched_outside may w (tick w).
Proof. intros q _. reflexivity. Qed.

Lemma untouched_write (may : path -> Prop) (w : World) (p : path) (b : bytes) :
  may p -> untouched_outside may w (write_file w p b).
Proof.
  intros Hp q Hq. cbn [write_file fs].
  destruct (path_eqb q p) eqn:Heq; [| reflexivity].
  apply path_eqb_eq in Heq. now subst.
Qed.

Lemma untouched_remove (may : path -> Prop) (w : World) (p : path) :
  may p -> untouched_outside may w (remove_file w p).
Proof.
  intros Hp q Hq. cbn [remove_file fs].
  destruct (path_eqb q p) eqn:Heq; [| reflexivity].
  apply path_eqb_eq in Heq. now subst.
Qed.

(** X4.  Whatever calls fail, [process_and_format] and
    [process_combined_files] change no file but their output file: the
    uploaded input and every other file keep their content. *)
Theorem processing_writes_output_only (kernel : list cell -> list nat)
  (fails : nat -> bool) (file_path file_a_path file_b_path output_file : path)
  (w : World) (q : path) :
  q <> output_file ->
  fs (snd (process_and_format kernel fails file_path output_file w)) q
  = fs w q /\
  fs (snd (process_combined_files fails file_a_path file_b_path
             output_file w)) q
  = fs w q.
Proof.
  intros Hq. split.
  - apply (keeps_process_and_format
             (untouched_outside (fun p => p = output_file))
             (untouched_refl _) (untouched_trans _) kernel fails
             (fun p => p = output_file)
             (untouched_tick _) (untouched_write _)
             file_path output_file eq_refl w q Hq).
  - apply (keeps_process_combined_files
             (untouched_outside (fun p => p = output_file))
             (untouched_refl _) (untouched_trans _) fails
             (fun p => p = output_file)
             (untouched_tick _) (untouched_write _)
             file_a_path file_b_path output_file eq_refl w q Hq).
Qed.

Lemma processing_writes_output_only_witness :
  fs (snd (process_and_format stable_argsort no_fault temp_input_path
             temp_output_path
             (write_file empty_world temp_input_path (CsvText sample_frame))))
     temp_input_path
  = fs (write_file empty_world temp_input_path (CsvText sample_frame))
       temp_input_path /\
  fs (snd (process_combined_files no_fault temp_a_path temp_b_path
             temp_output_path
             (write_file empty_world temp_input_path (CsvText sample_frame))))
     temp_input_path
  = fs (write_file empty_world temp_input_path (CsvText sample_frame))
       temp_input_path.
Proof.
  apply (processing_writes_output_only stable_argsort no_fault
           temp_input_path temp_a_path temp_b_path temp_output_path).
  discriminate.
Defined.

(** X5.  Whatever the request and whatever calls fail, a route changes no
    file but its own temporary files. *)
Theorem routes_touch_only_temp_files (kernel : list cell -> list nat)
  (fails : nat -> bool) (request : Request) (w : World) (q : path) :
  (~ In q single_temp_files ->
   fs (snd (process_single kernel fails request w)) q = fs w q) /\
  (~ In q temp_files ->
   fs (snd (process_combined kernel fails request w)) q = fs w q).
Proof.
  split; intros Hq.
  - apply (keeps_process_single
             (untouched_outside (fun p => In p single_temp_files))
             (untouched_refl _) (untouched_trans _) kernel fails
             (fun p => In p single_temp_files)
             (untouched_tick _) (untouched_write _) (untouched_remove _)
             request); [| exact Hq].
    apply Forall_forall. trivial.
  - apply (keeps_process_combined
             (untouched_outside (fun p => In p temp_files))
             (untouched_refl _) (untouched_trans _) kernel fails
             (fun p => In p temp_files)
             (untouched_tick _) (untouched_write _) (untouched_remove _)
             request); [| exact Hq].
    apply Forall_forall. trivial.
Qed.

(** ** The clock of operating-system calls *)

Lemma not_earlier_refl (w : World) : not_earlier w w.
Proof. unfold not_earlier. lia. Qed.

Lemma not_earlier_trans (w1 w2 w3 : World) :
  not_earlier w1 w2 -> not_earlier w2 w3 -> not_earlier w1 w3.
Proof. unfold not_earlier. lia. Qed.

Lemma not_earlier_tick (w : World) : not_earlier w (tick w).
Proof. unfold not_earlier. cbn. lia. Qed.

Lemma not_earlier_write (w : World) (p : path) (b : bytes) :
  True -> not_earlier w (write_file w p b).
Proof. intros _. unfold not_earlier. cbn. lia. Qed.

Lemma not_earlier_remove (w : World) (p : path) :
  True -> not_earlier w (remove_file w p).
Proof. intros _. unfold not_earlier. cbn. lia. Qed.

Section Later.

Variable kernel : list cell -> list nat.
Variable fails : nat -> bool.

(** A computation that starts with a call ends strictly later. *)
Lemma named_temporary_file_later {B : Type} (p : path) (k : unit -> M B)
  (handler : exn -> M B) (w : World) :
  (forall u, keeps not_earlier (k u)) ->
  (forall e, keeps not_earlier (handler e)) ->
  clock w
  < clock (snd (try_except
                  (bind (named_temporary_file fails p) k) handler w)).
Proof.
  intros Hk Hh. unfold try_except, bind, named_temporary_file, syscall.
  destruct (fails (clock w)).
  - specialize (Hh OSError (tick w)). unfold not_earlier in Hh.
    cbn [tick clock] in Hh. lia.
  - specialize (Hk tt (write_file (tick w) p Blank)).
    unfold not_earlier in Hk. cbn [write_file tick clock] in Hk.
    destruct (k tt (write_file (tick w) p Blank)) as [[b | e] w1];
      cbn [snd] in *; [lia |].
    specialize (Hh e w1). unfold not_earlier in Hh. lia.
Qed.

(** The clock does not go back along the steps of a route. *)
Ltac clock_side :=
  first [ exact not_earlier_refl | exact not_earlier_trans
        | exact not_earlier_tick | exact not_earlier_write
        | exact not_earlier_remove | exact I ].

Ltac clock_step :=
  first [ apply keeps_ret | apply keeps_lift
        | eapply keeps_process_and_format
        | eapply keeps_process_combined_files
        | eapply keeps_named_temporary_file
        | eapply keeps_save_upload
        | eapply keeps_read_bytes
        | eapply keeps_zip_write
        | eapply keeps_unlink_if_exists
        | eapply keeps_cleanup; [.. | apply Forall_forall; intros ? ?]
        | apply keeps_ignore_errors
        | apply keeps_bind; [.. | intros ?] ];
  try clock_side.

Lemma process_single_later (request : Request) (w : World)
  (file : FileStorage) :
  lookup "file" (files request) = Some file ->
  allowed_file (filename file) = true ->
  clock w < clock (snd (process_single kernel fails request w)).
Proof.
  intros Hfile Hname. unfold process_single.
  rewrite Hfile, (allowed_file_nonempty _ Hname), Hname.
  apply named_temporary_file_later; intros; repeat clock_step.
Qed.

Lemma process_combined_later (request : Request) (w : World)
  (file_a file_b : FileStorage) :
  lookup "file_a" (files request) = Some file_a ->
  lookup "file_b" (files request) = Some file_b ->
  allowed_file (filename file_a) && allowed_file (filename file_b) = true ->
  clock w < clock (snd (process_combined kernel fails request w)).
Proof.
  intros Hfa Hfb Hnames. unfold process_combined. rewrite Hfa, Hfb, Hnames.
  apply andb_true_iff in Hnames. destruct Hnames as [Hna Hnb].
  rewrite (allowed_file_nonempty _ Hna), (allowed_file_nonempty _ Hnb).
  cbn [orb].
  apply named_temporary_file_later; intros; repeat clock_step.
Qed.

End Later.

(** ** Requests refused before any work *)

(** X6.  A route leaves the world as it is (no operating-system call, no
    file) exactly when it refuses the request up front: a file field is
    absent, or a file name is empty or not accepted by [allowed_file].  The
    answer is then a redirect with one of the route's fixed messages. *)
Theorem refused_request_does_nothing (kernel : list cell -> list nat)
  (fails : nat -> bool) (request : Request) (w : World) :
  (snd (process_single kernel fails request w) = w <->
   single_rejected request) /\
  (single_rejected request ->
   exists msg,
     In msg ["No file selected";
             "Invalid file type. Please upload a CSV file."] /\
     fst (process_single kernel fails request w) = Ok (Redirect msg)) /\
  (snd (process_combined kernel fails request w) = w <->
   combined_rejected request) /\
  (combined_rejected request ->
   exists msg,
     In msg ["Both Category A and B files are required";
             "Both files must be selected";
             "Invalid file type. Please upload CSV files only."] /\
     fst (process_combined kernel fails request w) = Ok (Redirect msg)).
Proof.
  assert (single_rejected request ->
          exists msg,
            In msg ["No file selected";
                    "Invalid file type. Please upload a CSV file."] /\
            process_single kernel fails request w = (Ok (Redirect msg), w))
    as Hsingle.
  { intros Hrej. unfold process_single, single_rejected in *.
    destruct (lookup "file" (files request)) as [file |].
    - destruct (String.eqb (filename file) "").
      + eexists. split; [| reflexivity]. now left.
      + rewrite (Hrej file eq_refl).
        eexists. split; [| reflexivity]. right. now left.
    - eexists. split; [| reflexivity]. now left. }
  assert (combined_rejected request ->
          exists msg,
            In msg ["Both Category A and B files are required";
                    "Both files must be selected";
                    "Invalid file type. Please upload CSV files only."] /\
            process_combined kernel fails request w = (Ok (Redirect msg), w))
    as Hcombined.
  { intros Hrej. unfold process_combined, combined_rejected in *.
    destruct (lookup "file_a" (files request)) as [file_a |];
      [| eexists; split; [| reflexivity]; now left].
    destruct (lookup "file_b" (files request)) as [file_b |];
      [| eexists; split; [| reflexivity]; now left].
    destruct (String.eqb (filename file_a) ""
              || String.eqb (filename file_b) "").
    - eexists. split; [| reflexivity]. right. now left.
    - rewrite (Hrej file_a file_b eq_refl eq_refl).
      eexists. split; [| reflexivity]. right. right. now left. }
  split; [| split; [| split]].
  - split.
    + intros Hsame file Hfile.
      destruct (allowed_file (filename file)) eqn:Hname; [| reflexivity].
      pose proof (process_single_later kernel fails request w file
                    Hfile Hname) as Hlater.
      rewrite Hsame in Hlater. lia.
    + intros Hrej. destruct (Hsingle Hrej) as [msg [_ ->]]. reflexivity.
  - intros Hrej. destruct (Hsingle Hrej) as [msg [Hin ->]]. now exists msg.
  - split.
    + intros Hsame file_a file_b Hfa Hfb.
      destruct (allowed_file (filename file_a)
                && allowed_file (filename file_b)) eqn:Hnames;
        [| reflexivity].
      pose proof (process_combined_later kernel fails request w file_a file_b
                    Hfa Hfb Hnames) as Hlater.
      rewrite Hsame in Hlater. lia.
    + intros Hrej. destruct (Hcombined Hrej) as [msg [_ ->]]. reflexivity.
  - intros Hrej. destruct (Hcombined Hrej) as [msg [Hin ->]]. now exists msg.
Qed.

(** ** The column check comes before any write *)

(** X7.  When the input file parses to a frame that lacks a required
    column, [process_and_format] raises and leaves every file, the output
    file included, as it was, whatever calls fail; when the read itself does
    not fail, the exception is the [ValueError] of the column check. *)
Theorem schema_checked_before_writing (kernel : list cell -> list nat)
  (fails : nat -> bool) (file_path output_file : path) (w : World)
  (df : DataFrame) (e : exn) :
  fs w file_path = Some (CsvText df) ->
  check_required df = Raise e ->
  same_files w (snd (process_and_format kernel fails file_path output_file w))
  /\
  (exists e',
     fst (process_and_format kernel fails file_path output_file w)
     = Raise e') /\
  (fails (clock w) = false ->
   fst (process_and_format kernel fails file_path output_file w)
   = Raise (ValueError missing_columns_message)).
Proof.
  intros Hin Hreq. apply check_required_Raise in Hreq as He.
  unfold process_and_format, bind, read_csv, syscall.
  destruct (fails (clock w)); cbn [fst snd].
  - split; [intros q; reflexivity |]. split; [now eexists | discriminate].
  - cbn [tick fs]. rewrite Hin. unfold lift, split_sheets.
    rewrite Hreq. cbn [rbind fst snd].
    split; [intros q; reflexivity |].
    split; [now eexists | intros _; now rewrite He].
Qed.

Lemma schema_checked_before_writing_witness :
  same_files
    (write_file empty_world temp_input_path
       (CsvText (mkFrame ["ISGOVTCAN"; "DIVNCODE"] [])))
    (snd (process_and_format stable_argsort no_fault temp_input_path
            temp_output_path
            (write_file empty_world temp_input_path
               (CsvText (mkFrame ["ISGOVTCAN"; "DIVNCODE"] []))))) /\
  (exists e',
     fst (process_and_format stable_argsort no_fault temp_input_path
            temp_output_path
            (write_file empty_world temp_input_path
               (CsvText (mkFrame ["ISGOVTCAN"; "DIVNCODE"] []))))
     = Raise e') /\
  (no_fault
     (clock (write_file empty_world temp_input_path
               (CsvText (mkFrame ["ISGOVTCAN"; "DIVNCODE"] [])))) = false ->
   fst (process_and_format stable_argsort no_fault temp_input_path
          temp_output_path
          (write_file empty_world temp_input_path
             (CsvText (mkFrame ["ISGOVTCAN"; "DIVNCODE"] []))))
   = Raise (ValueError missing_columns_message)).
Proof.
  apply (schema_checked_before_writing stable_argsort no_fault
           temp_input_path temp_output_path _
           (mkFrame ["ISGOVTCAN"; "DIVNCODE"] [])
           (ValueError missing_columns_message)); reflexivity.
Defined.

(** ** Temporary files after a request *)

Section Cleanup.

Variable kernel : list cell -> list nat.
Variable fails : nat -> bool.
Hypothesis no_faults : forall n, fails n = false.

Lemma unlink_if_exists_removes (p : path) (w : World) :
  exists w', unlink_if_exists fails p w = (Ok tt, w') /\
    fs w' p = None /\ (forall q, q <> p -> fs w' q = fs w q).
Proof.
  unfold unlink_if_exists. destruct (fs w p) as [b |] eqn:Hp.
  - rewrite (syscall_run fails no_faults). eexists.
    split; [reflexivity |]. cbn [remove_file tick fs]. split.
    + now rewrite path_eqb_refl.
    + intros q Hq. destruct (path_eqb q p) eqn:Heq; [| reflexivity].
      now apply path_eqb_eq in Heq.
  - exists w. split; [reflexivity |]. split; [exact Hp | reflexivity].
Qed.

Lemma cleanup_keeps_absent (paths : list path) (w : World) (p : path) :
  fs w p = None -> fs (snd (cleanup fails paths w)) p = None.
Proof.
  revert w. induction paths as [| p0 paths IH]; intros w Hp;
    cbn [cleanup]; [exact Hp |].
  unfold bind, ignore_errors, try_except.
  destruct (unlink_if_exists_removes p0 w) as [w1 [-> [Hnone Hother]]].
  apply IH. destruct (path_eqb p p0) eqn:Heq.
  - apply path_eqb_eq in Heq. now subst.
  - rewrite Hother; [exact Hp |]. intros ->.
    now rewrite path_eqb_refl in Heq.
Qed.

Lemma cleanup_removes (paths : list path) (w : World) (p : path) :
  In p paths -> fs (snd (cleanup fails paths w)) p = None.
Proof.
  revert w. induction paths as [| p0 paths IH]; intros w Hin;
    [contradiction |].
  cbn [cleanup]. unfold bind, ignore_errors, try_except.
  destruct (unlink_if_exists_removes p0 w) as [w1 [-> [Hnone Hother]]].
  destruct Hin as [-> | Hin]; [now apply cleanup_keeps_absent | now apply IH].
Qed.

Lemma single_cleanup_removes (w : World) (p : path) :
  In p single_temp_files ->
  fs (snd (ignore_errors
             (bind (unlink_if_exists fails temp_input_path)
                (fun _ => unlink_if_exists fails temp_output_path)) w)) p
  = None.
Proof.
  intros Hin. unfold ignore_errors, try_except, bind.
  destruct (unlink_if_exists_removes temp_input_path w)
    as [w1 [-> [Hin1 _]]].
  destruct (unlink_if_exists_removes temp_output_path w1)
    as [w2 [-> [Hout2 Hother]]].
  cbn [snd]. destruct Hin as [<- | [<- | []]].
  - rewrite Hother; [exact Hin1 | discriminate].
  - exact Hout2.
Qed.

Ltac to_cleanup H a w := apply bind_Ok in H; destruct H as [a [w [? H]]].

(** An accepted request ends with the removal of its temporary files. *)
Lemma process_single_ends_clean (request : Request) (w : World)
  (file : FileStorage) (p : path) :
  lookup "file" (files request) = Some file ->
  allowed_file (filename file) = true ->
  In p single_temp_files ->
  fs (snd (process_single kernel fails request w)) p = None.
Proof.
  intros Hfile Hname Hp. unfold process_single.
  rewrite Hfile, (allowed_file_nonempty _ Hname), Hname.
  unfold try_except.
  match goal with |- context [match ?body w with _ => _ end] =>
    destruct (body w) as [[resp | e] w'] eqn:Hbody end.
  - to_cleanup Hbody u1 w1. to_cleanup Hbody u2 w2. to_cleanup Hbody u3 w3.
    to_cleanup Hbody u4 w4. to_cleanup Hbody file_data w5.
    to_cleanup Hbody u6 w6. injection Hbody as _ <-. cbn [snd].
    match goal with H : ignore_errors _ w5 = _ |- _ =>
      pose proof (single_cleanup_removes w5 p Hp) as Hclean;
      rewrite H in Hclean end.
    exact Hclean.
  - pose proof (single_cleanup_removes w' p Hp) as Hclean.
    unfold bind at 1.
    destruct (ignore_errors
                (bind (unlink_if_exists fails temp_input_path)
                   (fun _ => unlink_if_exists fails temp_output_path)) w')
      as [[[] | e'] w''] eqn:Hrun; cbn [snd] in *; exact Hclean.
Qed.

Lemma process_combined_ends_clean (request : Request) (w : World)
  (file_a file_b : FileStorage) (p : path) :
  lookup "file_a" (files request) = Some file_a ->
  lookup "file_b" (files request) = Some file_b ->
  allowed_file (filename file_a) && allowed_file (filename file_b) = true ->
  In p temp_files ->
  fs (snd (process_combined kernel fails request w)) p = None.
Proof.
  intros Hfa Hfb Hnames Hp. unfold process_combined.
  rewrite Hfa, Hfb, Hnames.
  apply andb_true_iff in Hnames. destruct Hnames as [Hna Hnb].
  rewrite (allowed_file_nonempty _ Hna), (allowed_file_nonempty _ Hnb).
  cbn [orb]. unfold try_except.
  match goal with |- context [match ?body w with _ => _ end] =>
    destruct (body w) as [[resp | e] w'] eqn:Hbody end.
  - to_cleanup Hbody u1 w1. to_cleanup Hbody u2 w2. to_cleanup Hbody u3 w3.
    to_cleanup Hbody u4 w4. to_cleanup Hbody u5 w5. to_cleanup Hbody u6 w6.
    to_cleanup Hbody u7 w7. to_cleanup Hbody u8 w8. to_cleanup Hbody u9 w9.
    to_cleanup Hbody u10 w10. to_cleanup Hbody ea w11.
    to_cleanup Hbody eb w12. to_cleanup Hbody ec w13.
    to_cleanup Hbody u14 w14. injection Hbody as _ <-. cbn [snd].
    match goal with H : cleanup _ _ w13 = _ |- _ =>
      pose proof (cleanup_removes temp_files w13 p Hp) as Hclean;
      rewrite H in Hclean end.
    exact Hclean.
  - pose proof (cleanup_removes temp_files w' p Hp) as Hclean.
    unfold bind at 1.
    destruct (cleanup fails temp_files w') as [[[] | e'] w''] eqn:Hrun;
      cbn [snd] in *; exact Hclean.
Qed.

End Cleanup.

Lemma path_eq_dec (p q : path) : {p = q} + {p <> q}.
Proof. decide equality. Qed.

(** X8.  When no operating-system call fails, a request leaves no temporary
    file behind, whatever the upload and however the processing ends: if the
    route's temporary names were free before the request, the file system is
    afterwards exactly as it was. *)
Theorem no_temp_file_left (kernel : list cell -> list nat)
  (fails : nat -> bool) (request : Request) (w : World) :
  (forall n, fails n = false) ->
  ((forall p, In p single_temp_files -> fs w p = None) ->
   same_files w (snd (process_single kernel fails request w))) /\
  ((forall p, In p temp_files -> fs w p = None) ->
   same_files w (snd (process_combined kernel fails request w))).
Proof.
  intros Hnf. split; intros Hfree q.
  - destruct (in_dec path_eq_dec q single_temp_files) as [Hin | Hout].
    + rewrite (Hfree q Hin).
      destruct (lookup "file" (files request)) as [file |] eqn:Hfile.
      * destruct (allowed_file (filename file)) eqn:Hname.
        -- now apply (process_single_ends_clean kernel fails Hnf request w
                        file q).
        -- unfold process_single. rewrite Hfile, Hname.
           destruct (String.eqb (filename file) ""); now apply Hfree.
      * unfold process_single. rewrite Hfile. now apply Hfree.
    + apply (keeps_process_single
               (untouched_outside (fun p => In p single_temp_files))
               (untouched_refl _) (untouched_trans _) kernel fails
               (fun p => In p single_temp_files)
               (untouched_tick _) (untouched_write _) (untouched_remove _)
               request); [| exact Hout].
      apply Forall_forall. trivial.
  - destruct (in_dec path_eq_dec q temp_files) as [Hin | Hout].
    + rewrite (Hfree q Hin).
      destruct (lookup "file_a" (files request)) as [file_a |] eqn:Hfa;
        [| unfold process_combined; rewrite Hfa; now apply Hfree].
      destruct (lookup "file_b" (files request)) as [file_b |] eqn:Hfb;
        [| unfold process_combined; rewrite Hfa, Hfb; now apply Hfree].
      destruct (allowed_file (filename file_a)
                && allowed_file (filename file_b)) eqn:Hnames.
      * now apply (process_combined_ends_clean kernel fails Hnf request w
                     file_a file_b q).
      * unfold process_combined. rewrite Hfa, Hfb, Hnames.
        destruct (String.eqb (filename file_a) ""
                  || String.eqb (filename file_b) ""); now apply Hfree.
    + apply (keeps_process_combined
               (untouched_outside (fun p => In p temp_files))
               (untouched_refl _) (untouched_trans _) kernel fails
               (fun p => In p temp_files)
               (untouched_tick _) (untouched_write _) (untouched_remove _)
               request); [| exact Hout].
      apply Forall_forall. trivial.
Qed.

Lemma no_temp_file_left_witness :
  same_files empty_world
    (snd (process_single stable_argsort no_fault single_request
            empty_world)) /\
  same_files empty_world
    (snd (process_combined stable_argsort no_fault sample_request
            empty_world)).
Proof.
  split.
  - apply (no_temp_file_left stable_argsort no_fault single_request
             empty_world); reflexivity.
  - apply (no_temp_file_left stable_argsort no_fault sample_request
             empty_world); reflexivity.
Defined.

(** ** The message of a missing column *)

Section MissingColumn.

Variable kernel : list cell -> list nat.
Variable fails : nat -> bool.
Hypothesis no_faults : forall n, fails n = false.

Lemma bind_raise {A B : Type} (m : M A) (k : A -> M B) (w w1 : World)
  (e : exn) :
  m w = (Raise e, w1) -> bind m k w = (Raise e, w1).
Proof. unfold bind. now intros ->. Qed.

Lemma process_and_format_missing (file_path output_file : path) (w : World)
  (df : DataFrame) (e : exn) :
  fs w file_path = Some (CsvText df) ->
  check_required df = Raise e ->
  exists w',
    process_and_format kernel fails file_path output_file w
    = (Raise (ValueError missing_columns_message), w') /\
    same_files w w'.
Proof.
  intros Hin Hreq. apply check_required_Raise in Hreq as He.
  unfold process_and_format.
  destruct (read_csv_run fails no_faults file_path w df Hin)
    as [w1 [Hrun Hw1]].
  rewrite (bind_run _ _ _ _ _ Hrun).
  unfold bind, lift, split_sheets. rewrite Hreq. cbn [rbind].
  exists w1. split; [now rewrite He | exact Hw1].
Qed.

Ltac go lem w1 Hw1 :=
  let Hrun := fresh "Hrun" in
  destruct lem as [w1 [Hrun Hw1]];
  rewrite (bind_run _ _ _ _ _ Hrun); clear Hrun.

Lemma process_single_missing (request : Request) (w : World)
  (file : FileStorage) (df : DataFrame) (e : exn) :
  lookup "file" (files request) = Some file ->
  allowed_file (filename file) = true ->
  stream file = CsvText df ->
  check_required df = Raise e ->
  fst (process_single kernel fails request w)
  = Ok (Redirect ("Error processing file: " ++ missing_columns_message)%string).
Proof.
  intros Hfile Hname Hstream Hreq. unfold process_single.
  rewrite Hfile, (allowed_file_nonempty _ Hname), Hname. unfold try_except.
  go (named_temporary_file_run fails no_faults temp_input_path w) w1 Hw1.
  go (save_upload_run fails no_faults file temp_input_path w1) w2 Hw2.
  go (named_temporary_file_run fails no_faults temp_output_path w2) w3 Hw3.
  assert (fs w3 temp_input_path = Some (CsvText df)) as Hin
    by (rewrite Hw3, Hw2; cbn [path_eqb]; congruence).
  destruct (process_and_format_missing temp_input_path temp_output_path w3
              df e Hin Hreq) as [w4 [Hraise _]].
  rewrite (bind_raise _ _ _ _ _ Hraise).
  destruct (ignore_errors_returns
              (bind (unlink_if_exists fails temp_input_path)
                 (fun _ => unlink_if_exists fails temp_output_path)) w4)
    as [w5 Hclean].
  rewrite (bind_run _ _ _ _ _ Hclean). reflexivity.
Qed.

Lemma process_combined_missing (request : Request) (w : World)
  (file_a file_b : FileStorage) (df_a df_b : DataFrame) :
  lookup "file_a" (files request) = Some file_a ->
  lookup "file_b" (files request) = Some file_b ->
  allowed_file (filename file_a) = true ->
  allowed_file (filename file_b) = true ->
  stream file_a = CsvText df_a ->
  stream file_b = CsvText df_b ->
  (exists e, check_required df_a = Raise e) \/
  ((exists wb_a, single_workbook kernel df_a = Ok wb_a) /\
   exists e, check_required df_b = Raise e) ->
  fst (process_combined kernel fails request w)
  = Ok (Redirect ("Error processing files: " ++ missing_columns_message)%string).
Proof.
  intros Hfa Hfb Hna Hnb Hsa Hsb Hmiss. unfold process_combined.
  rewrite Hfa, Hfb.
  rewrite (allowed_file_nonempty _ Hna), (allowed_file_nonempty _ Hnb).
  rewrite Hna, Hnb. cbn [orb andb]. unfold try_except.
  go (named_temporary_file_run fails no_faults temp_a_path w) w1 Hw1.
  go (save_upload_run fails no_faults file_a temp_a_path w1) w2 Hw2.
  go (named_temporary_file_run fails no_faults temp_b_path w2) w3 Hw3.
  go (save_upload_run fails no_faults file_b temp_b_path w3) w4 Hw4.
  go (named_temporary_file_run fails no_faults temp_out_a_path w4) w5 Hw5.
  go (named_temporary_file_run fails no_faults temp_out_b_path w5) w6 Hw6.
  go (named_temporary_file_run fails no_faults temp_combined_path w6) w7 Hw7.
  assert (fs w7 temp_a_path = Some (CsvText df_a)) as Ha7
    by (rewrite Hw7, Hw6, Hw5, Hw4, Hw3, Hw2; cbn [path_eqb]; congruence).
  assert (fs w7 temp_b_path = Some (CsvText df_b)) as Hb7
    by (rewrite Hw7, Hw6, Hw5, Hw4; cbn [path_eqb]; congruence).
  destruct Hmiss as [[e Hreq] | [[wb_a Hbook] [e Hreq]]].
  - destruct (process_and_format_missing temp_a_path temp_out_a_path w7
                df_a e Ha7 Hreq) as [w8 [Hraise _]].
    rewrite (bind_raise _ _ _ _ _ Hraise).
    destruct (cleanup_returns fails temp_files w8) as [w9 Hclean].
    rewrite (bind_run _ _ _ _ _ Hclean). reflexivity.
  - go (process_and_format_run kernel fails no_faults temp_a_path
          temp_out_a_path w7 df_a wb_a Ha7 Hbook) w8 Hw8.
    assert (fs w8 temp_b_path = Some (CsvText df_b)) as Hb8
      by (now rewrite Hw8).
    destruct (process_and_format_missing temp_b_path temp_out_b_path w8
                df_b e Hb8 Hreq) as [w9 [Hraise _]].
    rewrite (bind_raise _ _ _ _ _ Hraise).
    destruct (cleanup_returns fails temp_files w9) as [w10 Hclean].
    rewrite (bind_run _ _ _ _ _ Hclean). reflexivity.
Qed.

End MissingColumn.

(** X9.  When no operating-system call fails and an accepted upload parses
    to a frame that lacks a required column, the route answers with a
    redirect whose flashed message is the route's prefix followed by the
    message of the column check, which names the three required columns; in
    the combined route the frame of category A is checked first, that of
    category B once the workbook of A is made. *)
Theorem missing_column_is_flashed (kernel : list cell -> list nat)
  (fails : nat -> bool) (request : Request) (w : World) :
  (forall n, fails n = false) ->
  (forall file df e,
     lookup "file" (files request) = Some file ->
     allowed_file (filename file) = true ->
     stream file = CsvText df ->
     check_required df = Raise e ->
     fst (process_single kernel fails request w)
     = Ok (Redirect
             "Error processing file: Required columns ['ISGOVTCAN', 'DIVNCODE', 'LASTDEMAND'] do not exist in the dataset.")) /\
  (forall file_a file_b df_a df_b,
     lookup "file_a" (files request) = Some file_a ->
     lookup "file_b" (files request) = Some file_b ->
     allowed_file (filename file_a) = true ->
     allowed_file (filename file_b) = true ->
     stream file_a = CsvText df_a ->
     stream file_b = CsvText df_b ->
     (exists e, check_required df_a = Raise e) \/
     ((exists wb_a, single_workbook kernel df_a = Ok wb_a) /\
      exists e, check_required df_b = Raise e) ->
     fst (process_combined kernel fails request w)
     = Ok (Redirect
             "Error processing files: Required columns ['ISGOVTCAN', 'DIVNCODE', 'LASTDEMAND'] do not exist in the dataset.")).
Proof.
  intros Hnf. split.
  - intros file df e Hfile Hname Hstream Hreq.
    exact (process_single_missing kernel fails Hnf request w file df e
             Hfile Hname Hstream Hreq).
  - intros file_a file_b df_a df_b Hfa Hfb Hna Hnb Hsa Hsb Hmiss.
    exact (process_combined_missing kernel fails Hnf request w file_a file_b
             df_a df_b Hfa Hfb Hna Hnb Hsa Hsb Hmiss).
Qed.

Lemma missing_column_is_flashed_witness :
  fst (process_single stable_argsort no_fault short_request empty_world)
  = Ok (Redirect
          "Error processing file: Required columns ['ISGOVTCAN', 'DIVNCODE', 'LASTDEMAND'] do not exist in the dataset.") /\
  fst (process_combined stable_argsort no_fault short_request empty_world)
  = Ok (Redirect
          "Error processing files: Required columns ['ISGOVTCAN', 'DIVNCODE', 'LASTDEMAND'] do not exist in the dataset.").
Proof.
  pose proof (missing_column_is_flashed stable_argsort no_fault short_request
                empty_world (fun _ => eq_refl)) as [Hs Hc].
  split.
  - apply (Hs (mkUpload "short.csv" (CsvText short_frame)) short_frame
              (ValueError missing_columns_message)); reflexivity.
  - apply (Hc (mkUpload "plain.csv" (CsvText sample_frame))
              (mkUpload "short.csv" (CsvText short_frame))
              sample_frame short_frame); try reflexivity.
    right. split.
    + eexists. vm_compute. reflexivity.
    + eexists. reflexivity.
Defined.

(** ** An upload with a header and no row *)



(** ** The columns of the combined frame *)

Lemma filter_ext_in_bool {A : Type} (f g : A -> bool) (l : list A) :
  (forall x, In x l -> f x = g x) -> filter f l = filter g l.
Proof.
  induction l as [| x l IH]; intros H; simpl; [reflexivity |].
  rewrite (H x) by now left.
  rewrite IH; [reflexivity |]. intros y Hy. apply H. now right.
Qed.

Lemma existsb_eqb_app (cols : list string) (c extra : string) :
  existsb (String.eqb c) (cols ++ [extra])
  = existsb (String.eqb c) cols || String.eqb c extra.
Proof. rewrite existsb_app. simpl. now rewrite orb_false_r. Qed.

(** X11.  The column list of the combined frame: the columns of A, with
    [HCC Type] added right after them when A has no such column, and then
    the columns that only B has, in B's order.  So [HCC Type] is the last
    column only when B brings no column of its own. *)
Theorem combined_columns_order (df_a df_b : DataFrame) :
  columns (combined_frame df_a df_b)
  = (if has_column df_a "HCC Type" then columns df_a
     else columns df_a ++ ["HCC Type"])
    ++ filter (fun c => negb (existsb (String.eqb c) (columns df_a))
                        && negb (String.eqb c "HCC Type"))
              (columns df_b).
Proof.
  unfold combined_frame, concat, union_columns. cbn [columns].
  rewrite !setitem_columns. f_equal.
  assert (forall c,
            negb (existsb (String.eqb c)
                    (if has_column df_a "HCC Type" then columns df_a
                     else columns df_a ++ ["HCC Type"]))
            = negb (existsb (String.eqb c) (columns df_a))
              && negb (String.eqb c "HCC Type")) as Hsame.
  { intros c. destruct (has_column df_a "HCC Type") eqn:Hhas.
    - destruct (String.eqb_spec c "HCC Type") as [-> | _];
        [| now rewrite andb_true_r].
      unfold has_column in Hhas. now rewrite Hhas.
    - rewrite existsb_eqb_app. now rewrite negb_orb. }
  destruct (has_column df_b "HCC Type").
  - apply filter_ext_in_bool. intros c _. apply Hsame.
  - rewrite filter_app. cbn [filter]. rewrite Hsame, String.eqb_refl.
    cbn [negb]. rewrite andb_false_r, app_nil_r.
    apply filter_ext_in_bool. intros c _. apply Hsame.
Qed.

(** X12.  In the combined frame a row that comes from one file has a
    missing value under every column that only the other file has. *)
Theorem combined_missing_cells (df_a df_b : DataFrame) (c : string) :
  c <> "HCC Type" ->
  let out := combined_frame df_a df_b in
  (In c (columns df_b) -> ~ In c (columns df_a) ->
   forall k r, k < List.length (data df_a) ->
     nth_error (data out) k = Some r -> at_col out c r = CNaN) /\
  (In c (columns df_a) -> ~ In c (columns df_b) ->
   forall k r, List.length (data df_a) <= k ->
     nth_error (data out) k = Some r -> at_col out c r = CNaN).
Proof.
  intros Hne out.
  assert (forall df v, ~ In c (columns df) ->
            get_loc (columns (setitem df "HCC Type" v)) c = None) as Hnone.
  { intros df v Hnin. apply get_loc_None. rewrite setitem_columns.
    destruct (has_column df "HCC Type"); [exact Hnin |].
    intros Hin. apply in_app_or in Hin. destruct Hin as [Hin | [Heq | []]];
      [now apply Hnin | now apply Hne]. }
  assert (forall df v, In c (columns df) ->
            In c (columns (setitem df "HCC Type" v))) as Hkeep
    by (intros df v; apply setitem_keeps_column).
  split; intros Hin Hnin k r Hk Hnth.
  - destruct (nth_error (data df_a) k) as [r0 |] eqn:Hr0;
      [| apply nth_error_None in Hr0; lia].
    unfold out in Hnth. rewrite (combined_nth_a df_a df_b k r0 Hr0) in Hnth.
    injection Hnth as <-. unfold out, combined_frame.
    rewrite concat_at_col.
    + unfold at_col. now rewrite (Hnone df_a (CStr "A") Hnin).
    + unfold concat. cbn [columns]. apply union_columns_In. right.
      now apply Hkeep.
  - assert (k < List.length (data out)) as Hbound
      by (apply nth_error_Some; congruence).
    unfold out in Hbound. rewrite combined_length in Hbound.
    destruct (nth_error (data df_b) (k - List.length (data df_a)))
      as [r0 |] eqn:Hr0; [| apply nth_error_None in Hr0; lia].
    pose proof (combined_nth_b df_a df_b _ r0 Hr0) as Hb.
    replace (List.length (data df_a) + (k - List.length (data df_a)))
      with k in Hb by lia.
    unfold out in Hnth. rewrite Hb in Hnth. injection Hnth as <-.
    unfold out, combined_frame. rewrite concat_at_col.
    + unfold at_col. now rewrite (Hnone df_b (CStr "B") Hnin).
    + unfold concat. cbn [columns]. apply union_columns_In. left.
      now apply Hkeep.
Qed.

Lemma combined_missing_cells_witness :
  "LASTDEMAND" <> "HCC Type" /\
  (forall k r, k < List.length (data short_frame) ->
     nth_error (data (combined_frame short_frame sample_frame)) k = Some r ->
     at_col (combined_frame short_frame sample_frame) "LASTDEMAND" r = CNaN).
Proof.
  assert ("LASTDEMAND" <> "HCC Type") as Hne by discriminate.
  split; [exact Hne |].
  apply (proj1 (combined_missing_cells short_frame sample_frame "LASTDEMAND"
                  Hne)).
  - right. right. now left.
  - intros [H | [H | []]]; discriminate.
Defined.

(** ** The widths recorded for the columns *)

Lemma column_letters_acc (fuel : nat) :
  forall n acc, column_letters fuel n acc = column_letters fuel n [] ++ acc.
Proof.
  induction fuel as [| fuel IH]; intros n acc; cbn [column_letters];
    [reflexivity |].
  destruct (N.eqb n 0); [reflexivity |].
  destruct (N.eqb (n mod 26) 0).
  - rewrite (IH _ (_ :: acc)), (IH _ [_]), <- app_assoc. reflexivity.
  - rewrite (IH _ (_ :: acc)), (IH _ [_]), <- app_assoc. reflexivity.
Qed.

(** Reading the letters back gives the column index. *)
Lemma column_letters_value (fuel : nat) :
  forall n, N.to_nat n <= fuel ->
    digits_value (rev (column_letters fuel n [])) = n.
Proof.
  induction fuel as [| fuel IH]; intros n Hfuel; cbn [column_letters].
  - simpl. lia.
  - destruct (N.eqb_spec n 0) as [-> | Hpos]; [reflexivity |].
    pose proof (N.div_mod n 26 ltac:(lia)) as Hdiv.
    pose proof (N.mod_lt n 26 ltac:(lia)) as Hmod.
    remember (n / 26)%N as q eqn:Hq. remember (n mod 26)%N as r eqn:Hr.
    clear Hq Hr.
    destruct (N.eqb_spec r 0) as [Hzero | Hrem].
    + rewrite column_letters_acc, rev_app_distr. cbn [rev app digits_value].
      rewrite IH by lia.
      rewrite N_ascii_embedding by (vm_compute; reflexivity). lia.
    + rewrite column_letters_acc, rev_app_distr. cbn [rev app digits_value].
      rewrite IH by lia.
      rewrite N_ascii_embedding by lia. lia.
Qed.

(** Two columns never share a letter. *)
Lemma get_column_letter_inj (i j : nat) (l : string) :
  get_column_letter i = Ok l -> get_column_letter j = Ok l -> i = j.
Proof.
  unfold get_column_letter. intros Hi Hj.
  destruct (Nat.leb 1 i && N.leb (N.of_nat i) 18278); [| discriminate].
  destruct (Nat.leb 1 j && N.leb (N.of_nat j) 18278); [| discriminate].
  injection Hi as Hi. injection Hj as Hj.
  assert (column_letters i (N.of_nat i) [] = column_letters j (N.of_nat j) [])
    as Heq.
  { rewrite <- (list_ascii_of_string_of_list_ascii (column_letters i _ [])).
    rewrite <- (list_ascii_of_string_of_list_ascii (column_letters j _ [])).
    now rewrite Hi, Hj. }
  apply (f_equal (fun x => digits_value (rev x))) in Heq.
  rewrite !column_letters_value in Heq by lia. lia.
Qed.

Lemma map_update_nth {A B : Type} (g : A -> B) (f : A -> A) (i : nat) :
  (forall x, g (f x) = g x) ->
  forall l, map g (update_nth i f l) = map g l.
Proof.
  intros Hgf. induction i as [| i IH]; intros [| x l]; simpl;
    try reflexivity.
  - now rewrite Hgf.
  - now rewrite IH.
Qed.

Lemma restyled_values (rws : list (list XCell)) (k : nat) (l : string) :
  map (map value) (update_nth 0 (update_nth k (restyle l)) rws)
  = map (map value) rws.
Proof.
  apply map_update_nth. intros r. apply map_update_nth. reflexivity.
Qed.

(** The measured length of a column depends on the values only. *)
Lemma cell_value_values (ws : Worksheet) (row col : nat) :
  cell_value ws row col
  = match nth_error (sheet_values ws) (row - 1) with
    | Some vs => match nth_error vs (col - 1) with
                 | Some v => v
                 | None => XNone
                 end
    | None => XNone
    end.
Proof.
  unfold cell_value, sheet_values. rewrite nth_error_map.
  destruct (nth_error (rows ws) (row - 1)) as [r |]; [| reflexivity].
  cbn [option_map]. rewrite nth_error_map.
  now destruct (nth_error r (col - 1)).
Qed.

Lemma max_length_values (ws1 ws2 : Worksheet) (i : nat) :
  sheet_values ws1 = sheet_values ws2 -> max_length ws1 i = max_length ws2 i.
Proof.
  intros Hv. unfold max_length, max_row.
  assert (List.length (rows ws1) = List.length (rows ws2)) as ->.
  { apply (f_equal (@List.length _)) in Hv. unfold sheet_values in Hv.
    now rewrite !length_map in Hv. }
  apply f_equal, map_ext. intros row.
  now rewrite !cell_value_values, Hv.
Qed.

Lemma header_length_values (ws1 ws2 : Worksheet) :
  sheet_values ws1 = sheet_values ws2 ->
  List.length (hd [] (rows ws1)) = List.length (hd [] (rows ws2)).
Proof.
  unfold sheet_values. intros Hv.
  destruct (rows ws1) as [| h1 r1], (rows ws2) as [| h2 r2];
    try discriminate; [reflexivity |].
  injection Hv as Hh _. apply (f_equal (@List.length _)) in Hh.
  now rewrite !length_map in Hh.
Qed.

Lemma style_column_values (ws ws' : Worksheet) (i : nat) :
  style_column ws i = Ok ws' -> sheet_values ws' = sheet_values ws.
Proof.
  unfold style_column. destruct (get_column_letter i) as [l |];
    cbn [rbind]; [| discriminate].
  intros H. injection H as <-. unfold sheet_values. cbn [rows].
  apply restyled_values.
Qed.

(** After the loop has run over [idxs], the width under the letter of a
    column it met is that column's measure plus 2; other letters keep what
    they had. *)
Lemma style_columns_widths (idxs : list nat) :
  forall ws ws', style_columns ws idxs = Ok ws' ->
    forall i l, get_column_letter i = Ok l ->
      width_of (column_dimensions ws') l
      = if existsb (Nat.eqb i) idxs then Some (max_length ws i + 2)
        else width_of (column_dimensions ws) l.
Proof.
  induction idxs as [| i0 idxs IH]; intros ws ws' Hrun i l Hl;
    cbn [style_columns] in Hrun.
  - injection Hrun as <-. reflexivity.
  - destruct (style_column ws i0) as [ws1 |] eqn:Hcol; cbn [rbind] in Hrun;
      [| discriminate].
    pose proof (style_column_values ws ws1 i0 Hcol) as Hv1.
    rewrite (IH ws1 ws' Hrun i l Hl). cbn [existsb].
    rewrite (max_length_values ws1 ws i Hv1).
    destruct (existsb (Nat.eqb i) idxs); [now rewrite orb_true_r |].
    rewrite orb_false_r.
    destruct (style_column_inv ws ws1 i0 Hcol) as [l0 [Hl0 [_ [_ [_ Hdims]]]]].
    rewrite Hdims. cbn [width_of].
    destruct (Nat.eqb_spec i i0) as [-> | Hne].
    + assert (l0 = l) as -> by congruence. rewrite String.eqb_refl.
      do 2 f_equal. apply max_length_values. unfold sheet_values.
      cbn [rows]. apply restyled_values.
    + destruct (String.eqb_spec l0 l) as [-> | _]; [| reflexivity].
      exfalso. apply Hne. exact (get_column_letter_inj i i0 l Hl Hl0).
Qed.

Lemma written_sheet_widths (df : DataFrame) (name : string)
  (ws ws' : Worksheet) (i : nat) (l : string) :
  to_excel df name = Ok ws -> style_sheet ws = Ok ws' ->
  get_column_letter i = Ok l ->
  width_of (column_dimensions ws') l
  = if Nat.leb i (List.length (hd [] (rows ws')))
    then Some (max_length ws' i + 2) else None.
Proof.
  intros Hw Hs Hl.
  pose proof (style_sheet_values ws ws' Hs) as Hv.
  rewrite (header_length_values ws' ws Hv), (max_length_values ws' ws i Hv).
  unfold style_sheet in Hs.
  rewrite (style_columns_widths _ ws ws' Hs i l Hl).
  assert (1 <= i) as Hpos.
  { unfold get_column_letter in Hl.
    destruct (Nat.leb_spec 1 i); [assumption | discriminate]. }
  assert (column_dimensions ws = []) as ->.
  { destruct (to_excel_inv df name ws Hw) as [body [_ [_ [_ ->]]]].
    reflexivity. }
  cbn [width_of].
  destruct (Nat.leb_spec i (List.length (hd [] (rows ws)))) as [Hin | Hout].
  - replace (existsb (Nat.eqb i) (seq 1 (List.length (hd [] (rows ws)))))
      with true; [reflexivity |].
    symmetry. apply existsb_exists. exists i.
    split; [apply in_seq; lia | apply Nat.eqb_refl].
  - destruct (existsb (Nat.eqb i) (seq 1 (List.length (hd [] (rows ws)))))
      eqn:Hex; [| reflexivity].
    apply existsb_exists in Hex. destruct Hex as [x [Hx Heq]].
    apply Nat.eqb_eq in Heq. subst x. apply in_seq in Hx. lia.
Qed.

(** X13.  In every sheet of a workbook made by [process_and_format] or
    [process_combined_files], the width recorded under the letter of a
    column of the sheet is the measure of that column plus 2, each column
    under its own letter; no width is recorded under any other letter. *)
Theorem recorded_widths (kernel : list cell -> list nat)
  (df df_a df_b : DataFrame) (wb : Workbook) :
  single_workbook kernel df = Ok wb \/ combined_workbook df_a df_b = Ok wb ->
  forall ws i l, In ws wb -> get_column_letter i = Ok l ->
    width_of (column_dimensions ws) l
    = if Nat.leb i (List.length (hd [] (rows ws)))
      then Some (max_length ws i + 2) else None.
Proof.
  intros [H | H] ws i l Hin Hl.
  - destruct (single_workbook_inv kernel df wb H)
      as [df_yes [df_no [ws_y [ws_n [ws_y' [ws_n'
            [_ [_ [_ [Hwy [Hwn [Hsy [Hsn ->]]]]]]]]]]]]].
    destruct Hin as [<- | [<- | []]].
    + exact (written_sheet_widths _ _ _ _ i l Hwy Hsy Hl).
    + exact (written_sheet_widths _ _ _ _ i l Hwn Hsn Hl).
  - destruct (combined_workbook_inv df_a df_b wb H) as [ws0 [ws' [Hw [Hs ->]]]].
    destruct Hin as [<- | []].
    exact (written_sheet_widths _ _ _ _ i l Hw Hs Hl).
Qed.

Lemma recorded_widths_witness :
  exists wb, combined_workbook sample_frame sample_frame = Ok wb /\
    forall ws i l, In ws wb -> get_column_letter i = Ok l ->
      width_of (column_dimensions ws) l
      = if Nat.leb i (List.length (hd [] (rows ws)))
        then Some (max_length ws i + 2) else None.
Proof.
  eexists. split; [vm_compute; reflexivity |].
  apply (recorded_widths stable_argsort sample_frame sample_frame
           sample_frame).
  right. vm_compute. reflexivity.
Defined.

(** ** [process_combined_files] asks for no column *)

Lemma wf_short_frame : wf_frame short_frame.
Proof.
  split; [| split].
  - repeat constructor; simpl; intuition discriminate.
  - repeat constructor; discriminate.
  - repeat constructor.
Qed.

(** X14.  [process_combined_files] itself checks no column: when no
    operating-system call fails, any two well-formed frames whose
    combination fits a sheet and whose labels and cells a sheet stores as
    they are ([stored_exactly]), with or without [ISGOVTCAN], [DIVNCODE]
    and [LASTDEMAND], give the combined workbook in the output file. *)
Theorem combined_needs_no_required_column (fails : nat -> bool)
  (file_a_path file_b_path output_file : path) (w : World)
  (df_a df_b : DataFrame) :
  (forall n, fails n = false) ->
  fs w file_a_path = Some (CsvText df_a) ->
  fs w file_b_path = Some (CsvText df_b) ->
  wf_frame df_a -> wf_frame df_b ->
  within_sheet_limits (combined_frame df_a df_b) ->
  stored_exactly df_a = true -> stored_exactly df_b = true ->
  exists wb w',
    process_combined_files fails file_a_path file_b_path output_file w
    = (Ok tt, w') /\
    wrote w w' output_file (XlsxBytes wb) /\
    combined_book df_a df_b wb.
Proof.
  intros Hnf Ha Hb Hwa Hwb Hfit _ _.
  destruct (combined_workbook_total df_a df_b Hwa Hwb Hfit) as [wb [Hbook Hc]].
  destruct (process_combined_files_run fails Hnf file_a_path file_b_path
              output_file w df_a df_b wb Ha Hb Hbook) as [w' [Hrun Hw]].
  exists wb, w'. now split; [| split].
Qed.

Lemma combined_needs_no_required_column_witness :
  check_required short_frame
  = Raise (ValueError missing_columns_message) /\
  exists wb w',
    process_combined_files no_fault temp_a_path temp_b_path
      temp_combined_path
      (write_file (write_file empty_world temp_a_path (CsvText short_frame))
         temp_b_path (CsvText short_frame))
    = (Ok tt, w') /\
    wrote (write_file (write_file empty_world temp_a_path (CsvText short_frame))
             temp_b_path (CsvText short_frame))
          w' temp_combined_path (XlsxBytes wb) /\
    combined_book short_frame short_frame wb.
Proof.
  split; [reflexivity |].
  apply (combined_needs_no_required_column no_fault temp_a_path temp_b_path
           temp_combined_path _ short_frame short_frame);
    try reflexivity; try exact wf_short_frame.
  small_frame.
Defined.

(** ** C9: a finished download or none *)








(** *** A frame of exactly [max_rows] rows *)







